(** * data-prov: the harvester (metadata-cat.py) and the projector
      (export_json.py), embedded in Rocq.

    Python values that come out of [json.load] / [r.json()] are modelled by
    the type [json]; JSON numbers are integers.  A Python [str] is a Rocq
    [string] whose characters are read as code points below 256, so that
    [str.lower], [str.strip] and the regular-expression classes used by the
    two scripts are defined exactly on that range.  Code that can raise
    returns a [result]. *)

From Stdlib Require Import String Ascii List ZArith NArith Lia Bool.
From Stdlib Require Import Numbers.DecimalString.
Import ListNotations.
Open Scope list_scope.
Open Scope string_scope.

Set Warnings "-register-all".

(* ===================================================================== *)
(** ** Python strings *)
(* ===================================================================== *)

Module PyStr.

Definition code (c : ascii) : N := N_of_ascii c.

Definition in_range (lo hi : N) (c : ascii) : bool :=
  (N.leb lo (code c) && N.leb (code c) hi)%bool.

(** [a-z0-9] of the regular expressions. *)
Definition is_alnum (c : ascii) : bool :=
  (in_range 97 122 c || in_range 48 57 c)%bool.

Definition not_alnum (c : ascii) : bool := negb (is_alnum c).

(** [str.isspace] / the class [\s] on code points below 256. *)
Definition is_space (c : ascii) : bool :=
  (in_range 9 13 c || in_range 28 32 c
   || N.eqb (code c) 133 || N.eqb (code c) 160)%bool.

Definition is_char (x : ascii) (c : ascii) : bool := Ascii.eqb c x.

(** [c in chars], for the character sets given to [strip]. *)
Fixpoint mem_char (chars : string) (c : ascii) : bool :=
  match chars with
  | EmptyString => false
  | String x rest => (Ascii.eqb c x || mem_char rest c)%bool
  end.

(** [str.lower] on one code point below 256: A-Z and the Latin-1 capitals
    (except the multiplication sign) move up by 32. *)
Definition char_lower (c : ascii) : ascii :=
  if (in_range 65 90 c
      || (in_range 192 222 c && negb (N.eqb (code c) 215)))%bool
  then ascii_of_N (code c + 32)
  else c.

Fixpoint lower (s : string) : string :=
  match s with
  | EmptyString => EmptyString
  | String c s' => String (char_lower c) (lower s')
  end.

Definition is_empty (s : string) : bool :=
  match s with EmptyString => true | _ => false end.

(** [bool(s)] *)
Definition nonempty (s : string) : bool := negb (is_empty s).

(** [s.lstrip(chars)]: drops the longest prefix made of characters of the
    set. *)
Fixpoint lstrip (p : ascii -> bool) (s : string) : string :=
  match s with
  | EmptyString => EmptyString
  | String c s' => if p c then lstrip p s' else s
  end.

(** [s.rstrip(chars)] *)
Fixpoint rstrip (p : ascii -> bool) (s : string) : string :=
  match s with
  | EmptyString => EmptyString
  | String c s' =>
      match rstrip p s' with
      | EmptyString => if p c then EmptyString else String c EmptyString
      | r => String c r
      end
  end.

(** [s.strip(chars)] *)
Definition strip (p : ascii -> bool) (s : string) : string :=
  rstrip p (lstrip p s).

(** [re.sub(r"[class]+", rep, s)]: every maximal run of characters of the
    class is replaced by one [rep].  [in_run] records that the previous
    character already belonged to the run being replaced. *)
Fixpoint sub_runs_from (p : ascii -> bool) (rep : string) (in_run : bool)
  (s : string) : string :=
  match s with
  | EmptyString => EmptyString
  | String c s' =>
      if p c
      then (if in_run then sub_runs_from p rep true s'
            else rep ++ sub_runs_from p rep true s')
      else String c (sub_runs_from p rep false s')
  end.

Definition sub_runs (p : ascii -> bool) (rep : string) (s : string) : string :=
  sub_runs_from p rep false s.

Fixpoint drop (n : nat) (s : string) : string :=
  match n, s with
  | O, _ => s
  | S n', String _ s' => drop n' s'
  | S _, EmptyString => EmptyString
  end.

(** [s.startswith(p)] *)
Fixpoint startswith (p s : string) : bool :=
  match p, s with
  | EmptyString, _ => true
  | String a p', String b s' => (Ascii.eqb a b && startswith p' s')%bool
  | String _ _, EmptyString => false
  end.

(** [needle in hay] *)
Fixpoint contains (needle hay : string) : bool :=
  (startswith needle hay
   || match hay with
      | EmptyString => false
      | String _ hay' => contains needle hay'
      end)%bool.

(** [s.split(sep, 1)[1]]; [None] when [sep] does not occur (IndexError). *)
Fixpoint split_after (sep s : string) : option string :=
  if startswith sep s then Some (drop (String.length sep) s)
  else match s with
       | EmptyString => None
       | String _ s' => split_after sep s'
       end.

(** [s.split(sep, 1)[0]] *)
Fixpoint split_before (sep s : string) : string :=
  if startswith sep s then EmptyString
  else match s with
       | EmptyString => EmptyString
       | String c s' => String c (split_before sep s')
       end.

(** [s.replace(c, rep)] for a one-character pattern. *)
Fixpoint replace_char (c : ascii) (rep : string) (s : string) : string :=
  match s with
  | EmptyString => EmptyString
  | String x s' =>
      if Ascii.eqb x c then rep ++ replace_char c rep s'
      else String x (replace_char c rep s')
  end.

(** [sep.join(parts)] *)
Fixpoint join (sep : string) (parts : list string) : string :=
  match parts with
  | [] => EmptyString
  | [x] => x
  | x :: rest => x ++ sep ++ join sep rest
  end.

(** [str(n)] for an integer. *)
Definition str_of_Z (z : Z) : string := NilZero.string_of_int (Z.to_int z).

Definition str_of_nat (n : nat) : string := str_of_Z (Z.of_nat n).

Definition dquote : ascii := ascii_of_N 34.

(** [html.escape(s, quote=True)], with the replacements in the library's
    order. *)
Definition html_escape (s : string) : string :=
  let s := replace_char "&" "&amp;" s in
  let s := replace_char "<" "&lt;" s in
  let s := replace_char ">" "&gt;" s in
  let s := replace_char dquote "&quot;" s in
  replace_char "'" "&#x27;" s.

End PyStr.

(* ===================================================================== *)
(** ** Python values and exceptions *)
(* ===================================================================== *)

Module Py.
Import PyStr.

Inductive exn : Type :=
| TypeError
| AttributeError
| IndexError
| KeyError
| JSONDecodeError
| RequestException
| ValueError
| OSError.

Inductive result (A : Type) : Type :=
| Ok (a : A)
| Raise (e : exn).

Arguments Ok {A} a.
Arguments Raise {A} e.

Definition bind {A B : Type} (c : result A) (k : A -> result B) : result B :=
  match c with
  | Ok a => k a
  | Raise e => Raise e
  end.

Notation "x <- c ;; k" := (bind c (fun x => k))
  (at level 61, c at next level, right associativity).

(** What [json.load] produces: [None], [bool], [int], [str], [list] and
    [dict] (insertion-ordered, keys are strings). *)
Inductive json : Type :=
| JNull
| JBool (b : bool)
| JNum (z : Z)
| JStr (s : string)
| JArr (items : list json)
| JObj (fields : list (string * json)).

Definition dict : Type := list (string * json).

(** [bool(v)] *)
Definition truthy (v : json) : bool :=
  match v with
  | JNull => false
  | JBool b => b
  | JNum z => negb (Z.eqb z 0)
  | JStr s => nonempty s
  | JArr items => match items with [] => false | _ => true end
  | JObj fields => match fields with [] => false | _ => true end
  end.

(** [a or b] *)
Definition py_or (a b : json) : json := if truthy a then a else b.

(** [bool(x)] for a value of type [str | None]. *)
Definition truthy_opt (x : option string) : bool :=
  match x with
  | Some s => nonempty s
  | None => false
  end.

Fixpoint lookup (k : string) (d : dict) : option json :=
  match d with
  | [] => None
  | (k', v) :: d' => if String.eqb k k' then Some v else lookup k d'
  end.

(** [d.get(k)] *)
Definition dict_get (k : string) (d : dict) : json :=
  match lookup k d with
  | Some v => v
  | None => JNull
  end.

(** [d.get(k, default)] *)
Definition dict_get_default (k : string) (default : json) (d : dict) : json :=
  match lookup k d with
  | Some v => v
  | None => default
  end.

(** [k in d] *)
Definition dict_has (k : string) (d : dict) : bool :=
  match lookup k d with
  | Some _ => true
  | None => false
  end.

(** [d[k] = v]: an existing key keeps its position, a new key goes last. *)
Fixpoint dict_set (k : string) (v : json) (d : dict) : dict :=
  match d with
  | [] => [(k, v)]
  | (k', v') :: d' =>
      if String.eqb k k' then (k, v) :: d' else (k', v') :: dict_set k v d'
  end.

(** [v == s] for a string [s]. *)
Definition eq_str (s : string) (v : json) : bool :=
  match v with
  | JStr s' => String.eqb s' s
  | _ => false
  end.

(** [needle in v] for a string needle: substring test on a string,
    membership on a list, key test on a dict, TypeError otherwise. *)
Definition py_in (needle : string) (v : json) : result bool :=
  match v with
  | JStr s => Ok (contains needle s)
  | JArr items => Ok (existsb (eq_str needle) items)
  | JObj fields => Ok (dict_has needle fields)
  | JNull | JBool _ | JNum _ => Raise TypeError
  end.

(** [v.get]: only a dict has the method. *)
Definition as_dict (v : json) : result dict :=
  match v with
  | JObj fields => Ok fields
  | _ => Raise AttributeError
  end.

(** *** [str(v)] and [repr(v)] *)

Definition hex_digit (n : N) : ascii :=
  if N.ltb n 10 then ascii_of_N (48 + n) else ascii_of_N (87 + n).

Definition hex_escape (c : ascii) : string :=
  String "\" (String "x"
    (String (hex_digit (N.div (code c) 16))
      (String (hex_digit (N.modulo (code c) 16)) EmptyString))).

(** Code points that [repr] writes as they are. *)
Definition printable (c : ascii) : bool :=
  (in_range 32 126 c
   || (in_range 161 255 c && negb (N.eqb (code c) 173)))%bool.

Definition squote : ascii := ascii_of_N 39.

Fixpoint repr_chars (quote : ascii) (s : string) : string :=
  match s with
  | EmptyString => EmptyString
  | String c s' =>
      (if (Ascii.eqb c quote || Ascii.eqb c "\")%bool
       then String "\" (String c EmptyString)
       else if N.eqb (code c) 9 then "\t"
       else if N.eqb (code c) 10 then "\n"
       else if N.eqb (code c) 13 then "\r"
       else if printable c then String c EmptyString
       else hex_escape c)
      ++ repr_chars quote s'
  end.

(** [repr(s)]: double quotes are chosen only when the text has a single
    quote and no double quote. *)
Definition repr_str (s : string) : string :=
  let quote :=
    if (contains (String squote EmptyString) s
        && negb (contains (String dquote EmptyString) s))%bool
    then dquote else squote in
  String quote (repr_chars quote s) ++ String quote EmptyString.

Fixpoint py_repr (v : json) : string :=
  match v with
  | JNull => "None"
  | JBool true => "True"
  | JBool false => "False"
  | JNum z => str_of_Z z
  | JStr s => repr_str s
  | JArr items => "[" ++ join ", " (map py_repr items) ++ "]"
  | JObj fields =>
      "{" ++ join ", "
               (map (fun kv => match kv with
                               | (k, x) => repr_str k ++ ": " ++ py_repr x
                               end) fields)
      ++ "}"
  end.

(** [str(v)], also what an f-string writes for [{v}]. *)
Definition py_str (v : json) : string :=
  match v with
  | JStr s => s
  | _ => py_repr v
  end.

End Py.

(* ===================================================================== *)
(** ** pathlib paths, files and the diagnostic stream *)
(* ===================================================================== *)

Module PyPath.
Import PyStr.

(** A [pathlib.Path] after its constructor has normalised it: the root
    flag and the components. *)
Record Path : Type := mkPath { absolute : bool; parts : list string }.

(** [p.as_posix()], which is also [str(p)] on a POSIX system. *)
Definition as_posix (p : Path) : string :=
  match absolute p, parts p with
  | false, [] => "."
  | false, ps => join "/" ps
  | true, ps => "/" ++ join "/" ps
  end.

(** [p / name] for a one-component name. *)
Definition joinpath (p : Path) (name : string) : Path :=
  mkPath (absolute p) (parts p ++ [name])%list.

(** [Path(name)] for a one-component name. *)
Definition of_name (name : string) : Path := mkPath false [name].

(** [p.parent] *)
Definition parent (p : Path) : Path :=
  mkPath (absolute p) (removelast (parts p)).

End PyPath.

(* ===================================================================== *)
(** ** export_json.py *)
(* ===================================================================== *)

Module ExportJson.
Import PyStr Py PyPath.

Definition BIOECOOCEAN_FUNDING : json :=
  JObj [ ("@type", JStr "MonetaryGrant");
         ("name", JStr "BioEcoOcean (Horizon Europe)");
         ("identifier", JStr "101136748");
         ("funder",
           JObj [ ("@type", JStr "FundingAgency");
                  ("name", JStr "European Commission");
                  ("legalName", JStr "European Commission");
                  ("url", JStr "https://commission.europa.eu/index_en") ]) ].

Definition LICENSE_MAP : list (string * (string * string)) :=
  [ ("cc-by-4.0",
      ("CC-BY: Creative Commons Attribution 4.0",
       "https://creativecommons.org/licenses/by/4.0/")) ].

Fixpoint license_lookup (key : string)
  (table : list (string * (string * string))) : option (string * string) :=
  match table with
  | [] => None
  | (k, v) :: rest => if String.eqb key k then Some v else license_lookup key rest
  end.

(** [load_graph], applied to the value [json.load] read from the file. *)
Definition load_graph (data : json) : list json :=
  match data with
  | JObj fields =>
      match dict_get "@graph" fields with
      | JArr graph => graph
      | _ => []
      end
  | JArr items => items
  | _ => []
  end.

Definition marker : string := "zenodo.org/record/".

(** [entry.get('url') or entry.get('@id') or ''] *)
Definition entry_url (entry : dict) : json :=
  py_or (py_or (dict_get "url" entry) (dict_get "@id" entry)) (JStr EmptyString).

Definition parse_zenodo_rec_id (entry : dict) : result (option string) :=
  let url := entry_url entry in
  found <- py_in marker url ;;
  if found then
    match url with
    | JStr s =>
        match split_after marker s with
        | Some tail =>
            let rec_id := split_before "?" (split_before "/" tail) in
            Ok (if nonempty rec_id then Some rec_id else None)
        | None => Raise IndexError
        end
    | _ => Raise AttributeError
    end
  else Ok None.

Definition slugify (text : string) : string :=
  let text := strip is_space (lower text) in
  let text := sub_runs not_alnum "-" text in
  let text := strip (mem_char "-") (sub_runs (is_char "-") "-" text) in
  if nonempty text then text else "record".

Definition doi_marker : string := "doi.org/".

Definition extract_doi (identifier : json) : option string * option string :=
  let '(doi_val, doi_url) :=
    match identifier with
    | JStr s =>
        if contains doi_marker s
        then (split_after doi_marker s, Some s)
        else (Some s, None)
    | JObj fields =>
        ( match dict_get "value" fields with
          | JStr value => Some value
          | _ => None
          end,
          match dict_get "url" fields with
          | JStr url => if contains doi_marker url then Some url else None
          | _ => None
          end )
    | _ => (None, None)
    end in
  if (truthy_opt doi_val && negb (truthy_opt doi_url))%bool
  then (doi_val,
        Some ("https://doi.org/" ++ match doi_val with Some v => v | None => EmptyString end))
  else (doi_val, doi_url).

(** The [keywords] list comprehension: one DefinedTerm per string entry. *)
Fixpoint keyword_terms (kws : list json) : list json :=
  match kws with
  | [] => []
  | JStr kw :: rest =>
      JObj [("@type", JStr "DefinedTerm"); ("name", JStr kw)] :: keyword_terms rest
  | _ :: rest => keyword_terms rest
  end.

(** [(lic_label, lic_url)] as the license block computes them. *)
Definition license_pair (lic : json) : result (option (string * string)) :=
  match lic with
  | JStr l =>
      let key := lower l in
      match license_lookup key LICENSE_MAP with
      | Some found => Ok (Some found)
      | None =>
          if contains "creativecommons.org/licenses/by/4.0" key
          then match license_lookup "cc-by-4.0" LICENSE_MAP with
               | Some found => Ok (Some found)
               | None => Raise KeyError
               end
          else Ok None
      end
  | _ => Ok None
  end.

Definition dataset_to_project (entry : dict) (base_url : option string)
  (rel_path : Path) : result dict :=
  rec_id <- parse_zenodo_rec_id entry ;;
  let url := entry_url entry in
  let name :=
    py_or (dict_get "name" entry)
          (JStr (match rec_id with
                 | Some r => if nonempty r then "Zenodo record " ++ r else "Record"
                 | None => "Record"
                 end)) in
  let desc := dict_get_default "description" (JStr EmptyString) entry in
  let desc :=
    match desc with
    | JObj fields =>
        if dict_has "@value" fields
        then py_or (dict_get "@value" fields) (JStr EmptyString)
        else desc
    | _ => desc
    end in
  let doi := extract_doi (dict_get "identifier" entry) in
  let doi_val := fst doi in
  let doi_url := snd doi in
  let url_block : option json :=
    if truthy url then
      Some (JObj [ ("@type", JStr "PropertyValue");
                   ("description", JStr "Record URL");
                   ("propertyID", JStr "url");
                   ("url", url);
                   ("value", url) ])
    else None in
  let identifier_block : option json :=
    match doi_val with
    | Some v =>
        if nonempty v then
          Some (JObj [ ("@type", JStr "PropertyValue");
                       ("description", JStr "DOI");
                       ("propertyID", JStr "https://registry.identifiers.org/registry/doi");
                       ("url", JStr (match doi_url with
                                     | Some u => if nonempty u then u else "https://doi.org/" ++ v
                                     | None => "https://doi.org/" ++ v
                                     end));
                       ("value", JStr v) ])
        else url_block
    | None => url_block
    end in
  let project : dict :=
    [ ("@context", JStr "https://schema.org/");
      ("@type", JStr "Project");
      ("name", name);
      ("description", py_or desc (JStr EmptyString));
      ("url", url) ] in
  let project :=
    match identifier_block with
    | Some block => if truthy block then dict_set "identifier" block project else project
    | None => project
    end in
  lic <- license_pair (dict_get "license" entry) ;;
  let project :=
    match lic with
    | Some (lic_label, lic_url) =>
        if nonempty lic_url then
          dict_set "publishingPrinciples"
            (JArr [ JObj [ ("@type", JStr "CreativeWork");
                           ("name", JStr (if nonempty lic_label then lic_label
                                          else "Creative Commons Attribution 4.0"));
                           ("url", JStr lic_url) ] ])
            project
        else project
    | None => project
    end in
  let kws := py_or (dict_get "keywords" entry) (JArr []) in
  let project :=
    match kws with
    | JArr items =>
        let terms := keyword_terms items in
        if truthy (JArr terms) then dict_set "keywords" (JArr terms) project
        else project
    | _ => project
    end in
  funded <- (if truthy url then py_in marker url else Ok false) ;;
  let project :=
    if funded then dict_set "funding" (JArr [BIOECOOCEAN_FUNDING]) project
    else project in
  let project :=
    match base_url with
    | Some base =>
        if nonempty base then
          let rel_str := lstrip (mem_char "./") (as_posix rel_path) in
          dict_set "@id" (JStr (rstrip (mem_char "/") base ++ "/" ++ rel_str)) project
        else project
    | None => project
    end in
  Ok project.

Definition build_sitemap_xml (ids : list string) : string :=
  let id_list := filter nonempty ids in
  let lines :=
    [ "<?xml version=" ++ String dquote "1.0" ++ String dquote " encoding="
        ++ String dquote "UTF-8" ++ String dquote "?>";
      "<urlset xmlns=" ++ String dquote "http://www.sitemaps.org/schemas/sitemap/0.9"
        ++ String dquote ">" ] in
  let lines :=
    fold_left
      (fun lines loc =>
         let esc := html_escape loc in
         app lines ["  <url><loc>" ++ esc ++ "</loc></url>"])
      id_list lines in
  let lines := app lines ["</urlset>"] in
  join (String (ascii_of_N 10) EmptyString) lines.

(** *** The command-line entry point

    [main] is run on the parsed command line, the value [json.load] read
    from [--input], and [resolve_relative], which answers
    [p.resolve().relative_to(cwd)] ([None] for its ValueError).  What it
    does to the outside is the list of its events, in order.  The
    operating system is a parameter of the run: it carries out the
    creation of a directory or the writing of a file, or raises. *)

Record Args : Type := mkArgs {
  input : Path;
  out_dir : Path;
  base_url : option string;
  sitemap : option Path
}.

Inductive content : Type :=
| JsonFile (v : json)
| TextFile (text : string).

Inductive event : Type :=
| Stderr (msg : string)
| Mkdir (dir : Path)
| Write (file : Path) (c : content).

(** What the operating system answers when the run asks it to create a
    directory or to write a file: [Ok tt] when the request is carried
    out, else the exception that ends the run (a name that is too long,
    a directory that cannot be written to, a full disk, ...). *)
Definition System : Type := event -> result unit.

(** An operating system that carries out every request. *)
Definition willing : System := fun _ => Ok tt.

Definition NUL : ascii := ascii_of_N 0.

(** [p.name] *)
Definition name_of (p : Path) : string := last (parts p) EmptyString.

(** [with out_path.open("w") as f: json.dump(...)].  Python refuses a
    name that holds a NUL character with a ValueError before the
    operating system is asked.  The directory of the file comes from the
    command line, whose arguments cannot hold that character; the name
    of the file comes from the catalogue, and can. *)
Definition write_file (sys : System) (file : Path) (c : content) : result unit :=
  if mem_char (name_of file) NUL then Raise ValueError else sys (Write file c).

(** The file name chosen for the record at position [idx] (from 1). *)
Definition record_filename (idx : nat) (entry : dict) : result string :=
  rec_id <- parse_zenodo_rec_id entry ;;
  let base_name :=
    py_or (dict_get "name" entry)
          (JStr (if truthy_opt rec_id
                 then match rec_id with Some r => r | None => EmptyString end
                 else "record-" ++ str_of_nat idx)) in
  let slug := slugify (py_str base_name) in
  match rec_id with
  | Some r =>
      if (nonempty r && negb (contains r slug))%bool
      then Ok (slug ++ "-" ++ r ++ ".json")
      else Ok (slug ++ ".json")
  | None => Ok (slug ++ ".json")
  end.

(** What one turn of the loop over the records computes: the file to
    write, its content, and the [@id] to list when there is one.  The
    file is written by [export_turn]. *)
Definition export_record (resolve_relative : Path -> option Path)
  (args : Args) (idx : nat) (entry : json)
  : result (Path * dict * option string) :=
  entry <- as_dict entry ;;
  filename <- record_filename idx entry ;;
  let out_path := joinpath (out_dir args) filename in
  let rel_for_id :=
    match resolve_relative out_path with
    | Some rel => rel
    | None => of_name filename
    end in
  project_obj <- dataset_to_project entry (base_url args) rel_for_id ;;
  let entry_id :=
    match dict_get "@id" project_obj with
    | JStr i => if nonempty i then Some i else None
    | _ => None
    end in
  Ok (out_path, project_obj, entry_id).

(** One turn of the loop: what it computes, and the write of the file. *)
Definition export_turn (sys : System) (resolve_relative : Path -> option Path)
  (args : Args) (idx : nat) (entry : json)
  : result (Path * dict * option string) :=
  match export_record resolve_relative args idx entry with
  | Raise e => Raise e
  | Ok (out_path, project_obj, entry_id) =>
      _ <- write_file sys out_path (JsonFile (JObj project_obj)) ;;
      Ok (out_path, project_obj, entry_id)
  end.

Fixpoint export_loop (sys : System) (resolve_relative : Path -> option Path)
  (args : Args) (idx : nat) (records : list json) (ids : list string)
  (log : list event) : list event * result (list string) :=
  match records with
  | [] => (log, Ok ids)
  | entry :: rest =>
      match export_turn sys resolve_relative args idx entry with
      | Raise e => (log, Raise e)
      | Ok (out_path, project_obj, entry_id) =>
          export_loop sys resolve_relative args (S idx) rest
            (match entry_id with
             | Some i => app ids [i]
             | None => ids
             end)
            (app log [Write out_path (JsonFile (JObj project_obj))])
      end
  end.

(** [main] on the operating system [sys]. *)
Definition main_on (sys : System) (resolve_relative : Path -> option Path)
  (args : Args) (data : json) : list event * result Z :=
  let records := load_graph data in
  match records with
  | [] => ([Stderr ("No records found in " ++ as_posix (input args))], Ok 1%Z)
  | _ =>
      match sys (Mkdir (out_dir args)) with
      | Raise e => ([], Raise e)
      | Ok _ =>
          let log := [Mkdir (out_dir args)] in
          match export_loop sys resolve_relative args 1 records [] log with
          | (log, Raise e) => (log, Raise e)
          | (log, Ok ids) =>
              let log :=
                app log [Stderr ("Wrote " ++ str_of_nat (List.length records)
                                 ++ " project JSON file(s) under "
                                 ++ as_posix (out_dir args))] in
              match sitemap args with
              | Some sitemap_path =>
                  let sitemap_xml := build_sitemap_xml ids in
                  match sys (Mkdir (parent sitemap_path)) with
                  | Raise e => (log, Raise e)
                  | Ok _ =>
                      match sys (Write sitemap_path (TextFile sitemap_xml)) with
                      | Raise e =>
                          (app log [Mkdir (parent sitemap_path)], Raise e)
                      | Ok _ =>
                          (app log
                             [ Mkdir (parent sitemap_path);
                               Write sitemap_path (TextFile sitemap_xml);
                               Stderr ("Wrote sitemap with "
                                       ++ str_of_nat (List.length ids)
                                       ++ " entries to "
                                       ++ as_posix sitemap_path) ],
                           Ok 0%Z)
                      end
                  end
              | None => (log, Ok 0%Z)
              end
          end
      end
  end.

(** [main] on an operating system that carries out every request. *)
Definition main (resolve_relative : Path -> option Path) (args : Args)
  (data : json) : list event * result Z :=
  main_on willing resolve_relative args data.

(** The files on disk after a run: the last write to a path wins. *)
Definition path_eqb (p q : Path) : bool :=
  (Bool.eqb (absolute p) (absolute q)
   && String.eqb (as_posix p) (as_posix q))%bool.

Fixpoint file_after (log : list event) (file : Path) : option content :=
  match log with
  | [] => None
  | Write f c :: rest =>
      match file_after rest file with
      | Some later => Some later
      | None => if path_eqb f file then Some c else None
      end
  | _ :: rest => file_after rest file
  end.

Definition writes (log : list event) : list (Path * content) :=
  flat_map (fun e => match e with Write f c => [(f, c)] | _ => [] end) log.

End ExportJson.

(* ===================================================================== *)
(** ** metadata-cat.py *)
(* ===================================================================== *)

Module MetadataCat.
Import PyStr Py.

(** An [xml.etree.ElementTree] element: tag (a namespaced tag is written
    [{uri}local]), text and children. *)
Inductive element : Type :=
| Element (tag : string) (text : option string) (children : list element).

Definition tag_of (e : element) : string :=
  match e with Element tag _ _ => tag end.

Definition text_of (e : element) : option string :=
  match e with Element _ text _ => text end.

Definition children_of (e : element) : list element :=
  match e with Element _ _ children => children end.

(** [e.find(tag)]: the first child with that tag. *)
Definition find (tag : string) (e : element) : option element :=
  List.find (fun child => String.eqb (tag_of child) tag) (children_of e).

(** [e.findall(tag)] *)
Definition findall (tag : string) (e : element) : list element :=
  filter (fun child => String.eqb (tag_of child) tag) (children_of e).

(** What a request returns: the status, the Content-Type header, and the
    body as [r.json()] and [ET.fromstring(r.text)] read it ([None] when
    the parser raises). *)
Record Response : Type := mkResponse {
  status_code : Z;
  content_type : option string;
  json_body : option json;
  xml_body : option element
}.

(** The remote services.  [search community size page] is the request to
    the records API with those parameters, [http_get url] a plain GET;
    both raise when the transport fails. *)
Record World : Type := mkWorld {
  search : string -> Z -> Z -> result Response;
  http_get : string -> result Response
}.

Definition ZENODO_API : string := "https://zenodo.org/api".
Definition RECORDS_URL : string := ZENODO_API ++ "/records".
Definition EXPORT_TEMPLATE (record_id : json) : string :=
  "https://zenodo.org/record/" ++ py_str record_id ++ "/export/schemaorg_jsonld".
Definition OBIS_IPT_RSS : string := "https://ipt.obis.org/bioecoocean/rss.do".
Definition DEFAULT_COMMUNITY : string := "bioecoocean".

(** [r.raise_for_status()] *)
Definition raise_for_status (r : Response) : result unit :=
  if (Z.leb 400 (status_code r) && Z.ltb (status_code r) 600)%bool
  then Raise RequestException else Ok tt.

(** [r.json()] where the exception is not caught. *)
Definition json_of (r : Response) : result json :=
  match json_body r with
  | Some v => Ok v
  | None => Raise JSONDecodeError
  end.

(** [for x in v] *)
Definition py_iter (v : json) : result (list json) :=
  match v with
  | JArr items => Ok items
  | JStr s => Ok (map (fun c => JStr (String c EmptyString)) (list_ascii_of_string s))
  | JObj fields => Ok (map (fun kv => JStr (fst kv)) fields)
  | JNull | JBool _ | JNum _ => Raise TypeError
  end.

(** [n >= total] for a length [n]. *)
Definition len_ge (n : nat) (total : json) : result bool :=
  match total with
  | JNum z => Ok (Z.leb z (Z.of_nat n))
  | JBool b => Ok (Z.leb (if b then 1 else 0) (Z.of_nat n))
  | _ => Raise TypeError
  end.

(** The [for h in hits] loop of the lister. *)
Fixpoint collect_hits (hits : list json) (all_hits : list json)
  : result (list json) :=
  match hits with
  | [] => Ok all_hits
  | h :: rest =>
      h <- as_dict h ;;
      let rec_id := dict_get "id" h in
      match rec_id with
      | JNull => collect_hits rest all_hits
      | _ =>
          collect_hits rest
            (app all_hits
               [JObj [ ("id", rec_id);
                       ("metadata", dict_get_default "metadata" (JObj []) h) ]])
      end
  end.

Inductive loop_step : Type :=
| Break (all_hits : list json)
| Continue (page : Z) (all_hits : list json).

(** One turn of [while True] in [list_community_records]. *)
Definition page_step (w : World) (community : string) (size : Z)
  (max_pages : option Z) (page : Z) (all_hits : list json)
  : result loop_step :=
  r <- search w community size page ;;
  _ <- raise_for_status r ;;
  data <- json_of r ;;
  data <- as_dict data ;;
  hits_obj <- as_dict (dict_get_default "hits" (JObj []) data) ;;
  let hits := dict_get_default "hits" (JArr []) hits_obj in
  hits_obj' <- as_dict (dict_get_default "hits" (JObj []) data) ;;
  let total := dict_get_default "total" (JNum 0) hits_obj' in
  items <- py_iter hits ;;
  all_hits <- collect_hits items all_hits ;;
  if negb (truthy hits) then Ok (Break all_hits)
  else if match max_pages with
          | Some m => Z.leb m page
          | None => false
          end
  then Ok (Break all_hits)
  else
    enough <- len_ge (List.length all_hits) total ;;
    if enough then Ok (Break all_hits)
    else Ok (Continue (page + 1) all_hits).

(** The loop, run for at most [fuel] requests; [None] when the loop is
    still running after them. *)
Fixpoint page_loop (fuel : nat) (w : World) (community : string) (size : Z)
  (max_pages : option Z) (page : Z) (all_hits : list json)
  : option (result (list json)) :=
  match fuel with
  | O => None
  | S fuel' =>
      match page_step w community size max_pages page all_hits with
      | Raise e => Some (Raise e)
      | Ok (Break all_hits) => Some (Ok all_hits)
      | Ok (Continue page' all_hits') =>
          page_loop fuel' w community size max_pages page' all_hits'
      end
  end.

Definition list_community_records (fuel : nat) (w : World) (community : string)
  (size : Z) (max_pages : option Z) : option (result (list json)) :=
  page_loop fuel w community size max_pages 1 [].

(** What [r.json()] gives inside [try ... except: return None]: the
    body [null] is read as Python's [None], the value the function also
    returns when the body cannot be parsed. *)
Definition json_or_none (r : Response) : option json :=
  match json_body r with
  | Some JNull => None
  | Some v => Some v
  | None => None
  end.

Definition fetch_record_jsonld (w : World) (record_id : json)
  : result (option json) :=
  let url := EXPORT_TEMPLATE record_id in
  r <- http_get w url ;;
  if negb (Z.eqb (status_code r) 200) then Ok None
  else
    let ct :=
      lower (match content_type r with
             | Some h => if nonempty h then h else EmptyString
             | None => EmptyString
             end) in
    if (negb (contains "json" ct) && negb (contains "ld+json" ct))%bool
    then Ok (json_or_none r)
    else Ok (json_or_none r).

(** The [creator] list comprehension. *)
Fixpoint creator_objects (creators : list json) : result (list json) :=
  match creators with
  | [] => Ok []
  | c :: rest =>
      c <- as_dict c ;;
      others <- creator_objects rest ;;
      Ok (JObj [ ("@type", JStr "Person");
                 ("name", dict_get_default "name" (JStr EmptyString) c) ]
          :: others)
  end.

Definition copy_if_truthy (src dst : string) (metadata stub : dict) : dict :=
  if truthy (dict_get src metadata)
  then dict_set dst (dict_get src metadata) stub
  else stub.

Definition _metadata_to_schema_stub (rec_id : json) (metadata : json)
  : result dict :=
  let url := "https://zenodo.org/record/" ++ py_str rec_id in
  metadata <- as_dict metadata ;;
  let doi := dict_get "doi" metadata in
  let identifier := if truthy doi then "https://doi.org/" ++ py_str doi else url in
  let stub : dict :=
    [ ("@context", JStr "https://schema.org/");
      ("@type", JStr "CreativeWork");
      ("@id", JStr url);
      ("name", py_or (dict_get "title" metadata)
                     (JStr ("Zenodo record " ++ py_str rec_id)));
      ("identifier", JStr identifier);
      ("url", JStr url) ] in
  let stub := copy_if_truthy "description" "description" metadata stub in
  let stub := copy_if_truthy "publication_date" "datePublished" metadata stub in
  stub <-
    (if truthy (dict_get "creators" metadata) then
       creators <- py_iter (dict_get "creators" metadata) ;;
       people <- creator_objects creators ;;
       Ok (dict_set "creator" (JArr people) stub)
     else Ok stub) ;;
  let stub := copy_if_truthy "keywords" "keywords" metadata stub in
  let stub := copy_if_truthy "license" "license" metadata stub in
  Ok stub.

(** [re.sub(r"<[^>]+>", " ", text)]: a tag starts at a [<] that is followed
    by at least one character other than [>] and, later, by a [>]; it ends
    at the first such [>]. *)
Fixpoint strip_tags (s : string) : string :=
  match s with
  | EmptyString => EmptyString
  | String c s' =>
      if Ascii.eqb c "<" then
        match s' with
        | EmptyString => String c EmptyString
        | String c1 s'' =>
            if Ascii.eqb c1 ">" then String c (strip_tags s')
            else
              match (fix scan (t : string) : option string :=
                       match t with
                       | EmptyString => None
                       | String d t' =>
                           if Ascii.eqb d ">" then Some (" " ++ strip_tags t')
                           else scan t'
                       end) s'' with
              | Some out => out
              | None => String c (strip_tags s')
              end
        end
      else String c (strip_tags s')
  end.

Definition _strip_html (text : string) : string :=
  let no_tags := strip_tags text in
  strip is_space (sub_runs is_space " " no_tags).

(** [el.text.strip() if el is not None and el.text else ''] *)
Definition stripped_text (el : option element) : string :=
  match el with
  | Some e =>
      match text_of e with
      | Some t => if nonempty t then strip is_space t else EmptyString
      | None => EmptyString
      end
  | None => EmptyString
  end.

(** [el is not None and el.text] *)
Definition has_text (el : option element) : bool :=
  match el with
  | Some e => truthy_opt (text_of e)
  | None => false
  end.

Definition IPT_NS : string := "http://ipt.gbif.org/".

Definition ipt_tag (local : string) : string := "{" ++ IPT_NS ++ "}" ++ local.

Section Harvest.

(** [parsedate_to_datetime(s).date().isoformat()], [None] when the parser
    raises. *)
Variable parsedate_iso : string -> option string.

(** The body of the loop over the feed's items. *)
Definition item_to_dataset (item : element) : result dict :=
  let title_el := find "title" item in
  let link_el := find "link" item in
  let desc_el := find "description" item in
  let pub_el := find "pubDate" item in
  let eml_el := find (ipt_tag "eml") item in
  let dwca_el := find (ipt_tag "dwca") item in
  let title := stripped_text title_el in
  let link := stripped_text link_el in
  desc <- match desc_el with
          | Some e => Ok (match text_of e with
                          | Some t => if nonempty t then t else EmptyString
                          | None => EmptyString
                          end)
          | None => Raise AttributeError
          end ;;
  let desc := _strip_html desc in
  let date_published :=
    if has_text pub_el then
      match parsedate_iso (stripped_text pub_el) with
      | Some iso => iso
      | None => stripped_text pub_el
      end
    else EmptyString in
  let identifier_val : option string :=
    if has_text eml_el then Some (stripped_text eml_el)
    else if nonempty link then Some link
    else None in
  let identifier_block : option json :=
    match identifier_val with
    | Some v =>
        if nonempty v then
          Some (JObj [ ("@type", JStr "PropertyValue");
                       ("description", JStr "OBIS IPT resource");
                       ("propertyID", JStr "url");
                       ("url", JStr v);
                       ("value", JStr v) ])
        else None
    | None => None
    end in
  let dataset : dict :=
    [ ("@context", JStr "https://schema.org/");
      ("@type", JStr "Dataset");
      ("name", JStr (if nonempty title then title else "OBIS IPT resource"));
      ("description", JStr desc);
      ("url", JStr (if nonempty link then link
                    else if truthy_opt identifier_val
                    then match identifier_val with Some v => v | None => EmptyString end
                    else EmptyString)) ] in
  let dataset :=
    match identifier_block with
    | Some block => dict_set "identifier" block dataset
    | None => dataset
    end in
  let dataset :=
    if nonempty date_published
    then dict_set "datePublished" (JStr date_published) dataset
    else dataset in
  let distributions : list json := [] in
  let distributions :=
    if has_text eml_el then
      app distributions
        [JObj [ ("@type", JStr "DataDownload");
                ("name", JStr "EML metadata");
                ("encodingFormat", JStr "application/xml");
                ("contentUrl", JStr (stripped_text eml_el)) ]]
    else distributions in
  let distributions :=
    if has_text dwca_el then
      app distributions
        [JObj [ ("@type", JStr "DataDownload");
                ("name", JStr "Darwin Core Archive");
                ("encodingFormat", JStr "application/zip");
                ("contentUrl", JStr (stripped_text dwca_el)) ]]
    else distributions in
  let dataset :=
    match distributions with
    | [] => dataset
    | _ => dict_set "distribution" (JArr distributions) dataset
    end in
  Ok dataset.

Fixpoint items_to_datasets (items : list element) (datasets : list json)
  : result (list json) :=
  match items with
  | [] => Ok datasets
  | item :: rest =>
      dataset <- item_to_dataset item ;;
      items_to_datasets rest (app datasets [JObj dataset])
  end.

Definition harvest_obis_rss (w : World) (rss_url : string) : result (list json) :=
  match (resp <- http_get w rss_url ;; _ <- raise_for_status resp ;; Ok resp) with
  | Raise _ => Ok []
  | Ok resp =>
      match xml_body resp with
      | None => Ok []
      | Some root =>
          match find "channel" root with
          | None => Ok []
          | Some channel => items_to_datasets (findall "item" channel) []
          end
      end
  end.

(** What the loop of [build_catalogue] appends for one hit. *)
Definition catalogue_entry (w : World) (hit : json) : result json :=
  hit <- as_dict hit ;;
  rec_id <- match lookup "id" hit with
            | Some v => Ok v
            | None => Raise KeyError
            end ;;
  let meta := dict_get_default "metadata" (JObj []) hit in
  ld <- fetch_record_jsonld w rec_id ;;
  let stub := (stub <- _metadata_to_schema_stub rec_id meta ;; Ok (JObj stub)) in
  match ld with
  | Some JNull | None => stub
  | Some v =>
      fields <- as_dict v ;;
      if truthy (dict_get "@type" fields) then Ok v else stub
  end.

Fixpoint catalogue_loop (w : World) (hits : list json) (catalogue : list json)
  : result (list json) :=
  match hits with
  | [] => Ok catalogue
  | hit :: rest =>
      entry <- catalogue_entry w hit ;;
      catalogue_loop w rest (app catalogue [entry])
  end.

Definition build_catalogue (fuel : nat) (w : World) (community : string)
  (max_pages : option Z) : option (result (list json)) :=
  match list_community_records fuel w community 25 max_pages with
  | None => None
  | Some listed =>
      Some (hits <- listed ;;
            catalogue <- catalogue_loop w hits [] ;;
            if String.eqb community DEFAULT_COMMUNITY then
              obis_datasets <- harvest_obis_rss w OBIS_IPT_RSS ;;
              match obis_datasets with
              | [] => Ok catalogue
              | _ => Ok (app catalogue obis_datasets)
              end
            else Ok catalogue)
  end.

End Harvest.

(** The document [main] writes: the catalogue in a graph envelope. *)
Definition catalogue_document (catalogue : list json) : json :=
  JObj [ ("@context",
           JArr [ JStr "https://schema.org/";
                  JObj [("@vocab", JStr "https://schema.org/")] ]);
         ("@graph", JArr catalogue) ].

End MetadataCat.

(* ===================================================================== *)
(** ** Notions used to state the properties *)
(* ===================================================================== *)

Module Spec.
Import PyStr Py PyPath ExportJson.

(** Regular expressions over characters, and full-string matching. *)
Inductive regex : Type :=
| Class (p : ascii -> bool)
| Cat (r1 r2 : regex)
| Star (r : regex).

Inductive matches : regex -> string -> Prop :=
| MClass p c : p c = true -> matches (Class p) (String c EmptyString)
| MCat r1 r2 s1 s2 :
    matches r1 s1 -> matches r2 s2 -> matches (Cat r1 r2) (s1 ++ s2)
| MStarNil r : matches (Star r) EmptyString
| MStarApp r s1 s2 :
    matches r s1 -> matches (Star r) s2 -> matches (Star r) (s1 ++ s2).

Definition Plus (r : regex) : regex := Cat r (Star r).

Definition hyphen_group : regex :=
  Cat (Class (is_char "-")) (Plus (Class is_alnum)).

(** [^[a-z0-9]+(-[a-z0-9]+)*$] *)
Definition slug_regex : regex := Cat (Plus (Class is_alnum)) (Star hyphen_group).

(** The same language, decided by one pass over the text. *)
Fixpoint slug_tail (s : string) : bool :=
  match s with
  | EmptyString => true
  | String c s' =>
      if is_alnum c then slug_tail s'
      else (is_char "-" c
            && match s' with
               | String c' _ => is_alnum c'
               | EmptyString => false
               end
            && slug_tail s')%bool
  end.

Definition slug_ok (s : string) : bool :=
  match s with
  | EmptyString => false
  | String c s' => (is_alnum c && slug_tail s')%bool
  end.

(** Text over [a-z0-9-] in which no two hyphens are adjacent. *)
Fixpoint single_hyphens (s : string) : bool :=
  match s with
  | EmptyString => true
  | String c s' =>
      if is_alnum c then single_hyphens s'
      else (is_char "-" c
            && match s' with
               | String c' _ => negb (is_char "-" c')
               | EmptyString => true
               end
            && single_hyphens s')%bool
  end.

Definition head_is (p : ascii -> bool) (s : string) : bool :=
  match s with
  | EmptyString => false
  | String c _ => p c
  end.

(** Number of positions of [s] at which [pat] starts. *)
Fixpoint count_at (pat s : string) : nat :=
  match s with
  | EmptyString => if startswith pat s then 1 else 0
  | String _ s' => (if startswith pat s then 1 else 0) + count_at pat s'
  end.

(** What [html.escape] writes for one character. *)
Definition escape_char (c : ascii) : string :=
  if Ascii.eqb c "&" then "&amp;"
  else if Ascii.eqb c "<" then "&lt;"
  else if Ascii.eqb c ">" then "&gt;"
  else if Ascii.eqb c dquote then "&quot;"
  else if Ascii.eqb c squote then "&#x27;"
  else String c EmptyString.

(** The characters that delimit markup and attribute values. *)
Definition markup_char (c : ascii) : bool :=
  (Ascii.eqb c "<" || Ascii.eqb c ">" || Ascii.eqb c dquote)%bool.

(** Character-wise substitution. *)
Fixpoint subst_chars (f : ascii -> string) (s : string) : string :=
  match s with
  | EmptyString => EmptyString
  | String c s' => f c ++ subst_chars f s'
  end.

Fixpoint all_chars (p : ascii -> bool) (s : string) : bool :=
  match s with
  | EmptyString => true
  | String c s' => (p c && all_chars p s')%bool
  end.

(** The line of the sitemap for one location. *)
Definition url_line (loc : string) : string :=
  "  <url><loc>" ++ html_escape loc ++ "</loc></url>".

Definition newline : string := String (ascii_of_N 10) EmptyString.

Definition xml_declaration : string :=
  "<?xml version=" ++ String dquote "1.0" ++ String dquote " encoding="
    ++ String dquote "UTF-8" ++ String dquote "?>".

Definition urlset_open : string :=
  "<urlset xmlns=" ++ String dquote "http://www.sitemaps.org/schemas/sitemap/0.9"
    ++ String dquote ">".

(** Whether the record's url (its [url], else its [@id]) is text that
    contains the record-page marker. *)
Definition url_has_marker (entry : dict) : bool :=
  match entry_url entry with
  | JStr s => contains marker s
  | _ => false
  end.

(** The [@id] the mapper computes. *)
Definition project_id (base : string) (rel_path : Path) : string :=
  rstrip (mem_char "/") base ++ "/" ++ lstrip (mem_char "./") (as_posix rel_path).

(** The mapper, block by block.  [base_project] is the dict literal;
    each [with_...] is one of the conditional assignments that follow
    it. *)
Definition base_project (entry : dict) (rec_id : option string) : dict :=
  let url := entry_url entry in
  let name :=
    py_or (dict_get "name" entry)
          (JStr (match rec_id with
                 | Some r => if nonempty r then "Zenodo record " ++ r else "Record"
                 | None => "Record"
                 end)) in
  let desc := dict_get_default "description" (JStr EmptyString) entry in
  let desc :=
    match desc with
    | JObj fields =>
        if dict_has "@value" fields
        then py_or (dict_get "@value" fields) (JStr EmptyString)
        else desc
    | _ => desc
    end in
  [ ("@context", JStr "https://schema.org/");
    ("@type", JStr "Project");
    ("name", name);
    ("description", py_or desc (JStr EmptyString));
    ("url", url) ].

Definition identifier_block_of (entry : dict) : option json :=
  let url := entry_url entry in
  let doi := extract_doi (dict_get "identifier" entry) in
  let doi_val := fst doi in
  let doi_url := snd doi in
  let url_block : option json :=
    if truthy url then
      Some (JObj [ ("@type", JStr "PropertyValue");
                   ("description", JStr "Record URL");
                   ("propertyID", JStr "url");
                   ("url", url);
                   ("value", url) ])
    else None in
  match doi_val with
  | Some v =>
      if nonempty v then
        Some (JObj [ ("@type", JStr "PropertyValue");
                     ("description", JStr "DOI");
                     ("propertyID", JStr "https://registry.identifiers.org/registry/doi");
                     ("url", JStr (match doi_url with
                                   | Some u => if nonempty u then u else "https://doi.org/" ++ v
                                   | None => "https://doi.org/" ++ v
                                   end));
                     ("value", JStr v) ])
      else url_block
  | None => url_block
  end.

Definition with_identifier (entry : dict) (project : dict) : dict :=
  match identifier_block_of entry with
  | Some block => if truthy block then dict_set "identifier" block project else project
  | None => project
  end.

Definition with_license (lic : option (string * string)) (project : dict) : dict :=
  match lic with
  | Some (lic_label, lic_url) =>
      if nonempty lic_url then
        dict_set "publishingPrinciples"
          (JArr [ JObj [ ("@type", JStr "CreativeWork");
                         ("name", JStr (if nonempty lic_label then lic_label
                                        else "Creative Commons Attribution 4.0"));
                         ("url", JStr lic_url) ] ])
          project
      else project
  | None => project
  end.

Definition with_keywords (entry : dict) (project : dict) : dict :=
  match py_or (dict_get "keywords" entry) (JArr []) with
  | JArr items =>
      let terms := keyword_terms items in
      if truthy (JArr terms) then dict_set "keywords" (JArr terms) project
      else project
  | _ => project
  end.

Definition with_funding (funded : bool) (project : dict) : dict :=
  if funded then dict_set "funding" (JArr [BIOECOOCEAN_FUNDING]) project
  else project.

Definition with_id (base_url : option string) (rel_path : Path) (project : dict)
  : dict :=
  match base_url with
  | Some base =>
      if nonempty base then dict_set "@id" (JStr (project_id base rel_path)) project
      else project
  | None => project
  end.

(** A record that has an [@id] on the record-hosting service and no
    [url]. *)
Definition id_only_record : dict :=
  [ ("@type", JStr "Dataset");
    ("name", JStr "Plankton counts");
    ("@id", JStr "https://zenodo.org/record/1") ].

Definition zenodo_record : dict :=
  [ ("@type", JStr "Dataset");
    ("name", JStr "Plankton counts");
    ("url", JStr "https://zenodo.org/record/789") ].

Definition obis_record : dict :=
  [ ("@type", JStr "Dataset");
    ("name", JStr "Benthos survey");
    ("url", JStr "https://ipt.obis.org/bioecoocean/resource?r=benthos") ].

(** An output path below a directory whose name starts with a dot. *)
Definition dot_dir_path : Path := mkPath false [".site"; "zenodo"; "plankton-counts.json"].

(** The file name of a record, given its extracted record id. *)
Definition filename_of (idx : nat) (entry : dict) (rec_id : option string)
  : string :=
  let base_name :=
    py_or (dict_get "name" entry)
          (JStr (if truthy_opt rec_id
                 then match rec_id with Some r => r | None => EmptyString end
                 else "record-" ++ str_of_nat idx)) in
  let slug := slugify (py_str base_name) in
  match rec_id with
  | Some r =>
      if (nonempty r && negb (contains r slug))%bool
      then slug ++ "-" ++ r ++ ".json"
      else slug ++ ".json"
  | None => slug ++ ".json"
  end.

(** The path handed to the mapper for a file name. *)
Definition rel_for_id (resolve_relative : Path -> option Path) (args : Args)
  (filename : string) : Path :=
  match resolve_relative (joinpath (out_dir args) filename) with
  | Some rel => rel
  | None => of_name filename
  end.

(** The [@id] listed for a record written under a file name. *)
Definition listed_id (resolve_relative : Path -> option Path) (args : Args)
  (filename : string) : option string :=
  match base_url args with
  | Some base =>
      if nonempty base
      then Some (project_id base (rel_for_id resolve_relative args filename))
      else None
  | None => None
  end.

(** What [main] does after the loop when a sitemap was asked for. *)
Definition sitemap_events (args : Args) (ids : list string) : list event :=
  match sitemap args with
  | Some sitemap_path =>
      [ Mkdir (parent sitemap_path);
        Write sitemap_path (TextFile (build_sitemap_xml ids));
        Stderr ("Wrote sitemap with " ++ str_of_nat (List.length ids)
                ++ " entries to " ++ as_posix sitemap_path) ]
  | None => []
  end.

Definition wrote_message (args : Args) (n : nat) : event :=
  Stderr ("Wrote " ++ str_of_nat n ++ " project JSON file(s) under "
          ++ as_posix (out_dir args)).

(** Command lines and catalogues used as examples. *)
Definition sample_args : Args :=
  mkArgs (mkPath false ["bioecoocean-catalogue.jsonld"])
         (mkPath false ["jsonFiles"; "zenodo"])
         (Some "https://x.org/repo")
         (Some (mkPath false ["sitemap.xml"])).

Definition under_cwd (p : Path) : option Path :=
  if absolute p then None else Some p.

(** A run that writes below a directory whose name starts with a dot. *)
Definition dot_dir_args : Args :=
  mkArgs (mkPath false ["bioecoocean-catalogue.jsonld"])
         (mkPath false [".site"; "zenodo"])
         (Some "https://x.org/repo/")
         None.


Definition two_record_catalogue : json :=
  JObj [ ("@context", JStr "https://schema.org/");
         ("@graph", JArr [JObj zenodo_record; JObj obis_record]) ].

Definition unnamed_record : dict :=
  [("name", JStr EmptyString); ("description", JStr "Trawl data")].

Definition nameless_record : dict :=
  [("@type", JStr "Dataset"); ("name", JStr EmptyString)].

Definition titled_record : dict :=
  [ ("name", JStr "Benthos Survey (2021)");
    ("url", JStr "https://ipt.obis.org/bioecoocean/resource?r=benthos") ].

Definition retitled_record : dict :=
  [ ("name", JStr "benthos survey 2021");
    ("url", JStr "https://ipt.obis.org/bioecoocean/resource?r=benthos_v2") ].

(** [mapM] in the exception monad. *)
Fixpoint map_result {A B : Type} (f : A -> result B) (l : list A)
  : result (list B) :=
  match l with
  | [] => Ok []
  | x :: rest =>
      y <- f x ;;
      ys <- map_result f rest ;;
      Ok (y :: ys)
  end.

End Spec.

Module HarvestSpec.
Import PyStr Py MetadataCat Spec.

(** What the lister keeps of one hit: nothing for a hit whose [id] is
    null. *)
Definition hit_summary (h : json) : list json :=
  match h with
  | JObj fields =>
      match dict_get "id" fields with
      | JNull => []
      | rec_id =>
          [JObj [ ("id", rec_id);
                  ("metadata", dict_get_default "metadata" (JObj []) fields) ]]
      end
  | _ => []
  end.

(** The shape of the hits the lister returns. *)
Definition listed_hit (h : json) : Prop :=
  exists rec_id meta,
    h = JObj [("id", rec_id); ("metadata", meta)] /\ rec_id <> JNull.

(** The search answers page [p] with a body whose list of hits is empty. *)
Definition zero_hits (w : World) (community : string) (size : Z) (p : Z) : Prop :=
  exists r data hits_obj,
    search w community size p = Ok r
    /\ json_body r = Some (JObj data)
    /\ dict_get_default "hits" (JObj []) data = JObj hits_obj
    /\ truthy (dict_get_default "hits" (JArr []) hits_obj) = false.

(** The loop does not go past page [p]. *)
Definition stops_at (w : World) (community : string) (size : Z)
  (max_pages : option Z) (p : Z) : Prop :=
  forall all_hits page' all_hits',
    page_step w community size max_pages p all_hits
    <> Ok (Continue page' all_hits').

(** The stub synthesized for a hit. *)
Definition stub_for (rec_id : json) (hit : dict) : result json :=
  stub <- _metadata_to_schema_stub rec_id
            (dict_get_default "metadata" (JObj []) hit) ;;
  Ok (JObj stub).

(** The record page of a record id. *)
Definition record_page (rec_id : json) : string :=
  "https://zenodo.org/record/" ++ py_str rec_id.

(** The link and the EML address of a feed item, as the harvester reads
    them. *)
Definition item_link (item : element) : string :=
  stripped_text (find "link" item).

Definition item_eml (item : element) : string :=
  stripped_text (find (ipt_tag "eml") item).

(** A record has a non-empty [url] or [@id]. *)
Definition has_link_key (rec : json) : bool :=
  match rec with
  | JObj fields =>
      (truthy (dict_get "url" fields) || truthy (dict_get "@id" fields))%bool
  | _ => false
  end.

(** *** Sample services *)

Definition json_response (body : json) : Response :=
  mkResponse 200 (Some "application/json") (Some body) None.

Definition search_body (hits : list json) (total : Z) : json :=
  JObj [("hits", JObj [("hits", JArr hits); ("total", JNum total)])].

(** A search service every page of which holds one hit without an id,
    and reports one record in total. *)
Definition idless_world : World :=
  mkWorld
    (fun _ _ _ => Ok (json_response (search_body [JObj [("metadata", JObj [])]] 1)))
    (fun _ => Raise RequestException).

Definition first_page : json :=
  search_body
    [ JObj [ ("id", JNum 11);
             ("metadata", JObj [ ("title", JStr "Plankton counts");
                                 ("doi", JStr "10.5281/zenodo.11") ]) ];
      JObj [ ("id", JNum 12); ("metadata", JObj [("title", JStr "Benthos")]) ];
      JObj [ ("metadata", JObj [("title", JStr "Draft")]) ] ]
    3.

(** A feed item with a title and a description only. *)
Definition bare_item : element :=
  Element "item" None
    [ Element "title" (Some "Fish survey") [];
      Element "description" (Some "<p>Trawl data</p>") [] ].

Definition linked_item : element :=
  Element "item" None
    [ Element "title" (Some "Bird counts") [];
      Element "link" (Some "https://ipt.obis.org/bioecoocean/resource?r=birds") [];
      Element "description" (Some "Counts") [] ].

Definition sample_feed : element :=
  Element "rss" None [Element "channel" None [bare_item; linked_item]].

(** Two pages of search results, the second empty; the export of record
    11 is a Dataset, that of record 12 is missing; the feed has two
    items. *)
Definition sample_world : World :=
  mkWorld
    (fun _ _ page =>
       Ok (json_response (if Z.eqb page 1 then first_page else search_body [] 3)))
    (fun url =>
       if String.eqb url (EXPORT_TEMPLATE (JNum 11))
       then Ok (mkResponse 200 (Some "application/ld+json")
                  (Some (JObj [ ("@type", JStr "Dataset");
                                ("name", JStr "Plankton counts") ]))
                  None)
       else if String.eqb url OBIS_IPT_RSS
       then Ok (mkResponse 200 (Some "text/xml") None (Some sample_feed))
       else Ok (mkResponse 404 None None None)).

Definition no_date_parser (s : string) : option string := None.

End HarvestSpec.

(* ===================================================================== *)
(** ** Further notions: file names, field rules, normalised text *)
(* ===================================================================== *)

Module FieldSpec.
Import PyStr Py PyPath ExportJson Spec.

Definition not_char (x : ascii) (c : ascii) : bool := negb (Ascii.eqb c x).

(** Neither a path separator nor the start of a query string. *)
Definition id_char (c : ascii) : bool :=
  (negb (Ascii.eqb c "/") && negb (Ascii.eqb c "?"))%bool.

(** The block written for a DOI. *)
Definition doi_block (value url : string) : json :=
  JObj [ ("@type", JStr "PropertyValue");
         ("description", JStr "DOI");
         ("propertyID", JStr "https://registry.identifiers.org/registry/doi");
         ("url", JStr url);
         ("value", JStr value) ].

(** The block written for a record that has a url and no DOI. *)
Definition record_url_block (url : json) : json :=
  JObj [ ("@type", JStr "PropertyValue");
         ("description", JStr "Record URL");
         ("propertyID", JStr "url");
         ("url", url);
         ("value", url) ].

(** The one license block the mapper can write. *)
Definition cc_by_block : json :=
  JArr [ JObj [ ("@type", JStr "CreativeWork");
                ("name", JStr "CC-BY: Creative Commons Attribution 4.0");
                ("url", JStr "https://creativecommons.org/licenses/by/4.0/") ] ].

(** A license value the mapper recognises: text that, in lower case, is
    the Zenodo identifier or contains the address of the license. *)
Definition is_cc_by (lic : json) : bool :=
  match lic with
  | JStr l =>
      (String.eqb (lower l) "cc-by-4.0"
       || contains "creativecommons.org/licenses/by/4.0" (lower l))%bool
  | _ => false
  end.

Definition is_str (v : json) : bool :=
  match v with JStr _ => true | _ => false end.

Definition defined_term (kw : string) : json :=
  JObj [("@type", JStr "DefinedTerm"); ("name", JStr kw)].

(** The strings of a list, in order. *)
Fixpoint strings_of (items : list json) : list string :=
  match items with
  | [] => []
  | JStr s :: rest => s :: strings_of rest
  | _ :: rest => strings_of rest
  end.

(** A write of a project file directly below a directory. *)
Definition project_write (dir : Path) (e : event) : Prop :=
  exists filename project,
    e = Write (joinpath dir filename) (JsonFile (JObj project))
    /\ all_chars (not_char "/") filename = true.

(** A record with a DOI, a license address, and mixed keywords. *)
Definition rich_record : dict :=
  [ ("@type", JStr "Dataset");
    ("name", JStr "Plankton counts");
    ("description", JObj [("@value", JStr "Weekly counts")]);
    ("identifier", JStr "https://doi.org/10.5281/zenodo.789");
    ("url", JStr "https://zenodo.org/record/789");
    ("license", JStr "HTTPS://CreativeCommons.org/licenses/by/4.0/legalcode");
    ("keywords", JArr [JStr "plankton"; JNum 7; JStr "time series"; JNull]) ].

(** A record with nothing but a type. *)
Definition blank_record : dict := [("@type", JStr "Dataset")].

(** A catalogue whose second record has a number as url. *)
Definition half_bad_catalogue : json :=
  JArr [ JObj zenodo_record;
         JObj [("name", JStr "Broken"); ("url", JNum 5)];
         JObj obis_record ].

(** The Person written for a creator: its [name], else the empty
    string. *)
Definition person_of (creator : json) : json :=
  JObj [ ("@type", JStr "Person");
         ("name", match creator with
                  | JObj fields => dict_get_default "name" (JStr EmptyString) fields
                  | _ => JStr EmptyString
                  end) ].

(** Summary metadata with a DOI, two creators and an empty keyword
    list. *)
Definition sample_metadata : dict :=
  [ ("title", JStr "Plankton counts");
    ("doi", JStr "10.5281/zenodo.11");
    ("creators", JArr [JObj [("name", JStr "A. Diatom")]; JObj []]);
    ("keywords", JArr []) ].

End FieldSpec.

Module FeedSpec.
Import PyStr Py MetadataCat Spec HarvestSpec.

(** The identifier block of a feed dataset. *)
Definition obis_block (v : string) : json :=
  JObj [ ("@type", JStr "PropertyValue");
         ("description", JStr "OBIS IPT resource");
         ("propertyID", JStr "url");
         ("url", JStr v);
         ("value", JStr v) ].

Definition download (name format url : string) : json :=
  JObj [ ("@type", JStr "DataDownload");
         ("name", JStr name);
         ("encodingFormat", JStr format);
         ("contentUrl", JStr url) ].

Definition item_title (item : element) : string :=
  stripped_text (find "title" item).

Definition item_dwca (item : element) : string :=
  stripped_text (find (ipt_tag "dwca") item).

(** The address the identifier of a feed dataset is built from: the EML
    address whenever the item has an EML element with text, else the
    link. *)
Definition item_identifier_value (item : element) : string :=
  if has_text (find (ipt_tag "eml") item) then item_eml item else item_link item.

Definition item_distributions (item : element) : list json :=
  app (if has_text (find (ipt_tag "eml") item)
       then [download "EML metadata" "application/xml" (item_eml item)]
       else [])
      (if has_text (find (ipt_tag "dwca") item)
       then [download "Darwin Core Archive" "application/zip" (item_dwca item)]
       else []).

(** An item the harvester can map: it has a [description] element. *)
Definition has_description (item : element) : bool :=
  match find "description" item with Some _ => true | None => false end.

(** A linked item whose EML element holds only blanks. *)
Definition blank_eml_item : element :=
  Element "item" None
    [ Element "title" (Some "Bird counts") [];
      Element "link" (Some "https://ipt.obis.org/bioecoocean/resource?r=birds") [];
      Element "description" (Some "Counts") [];
      Element (ipt_tag "eml") (Some "   ") [] ].

Definition archived_item : element :=
  Element "item" None
    [ Element "link" (Some "https://ipt.obis.org/bioecoocean/resource?r=seals") [];
      Element "description" None [];
      Element (ipt_tag "eml") (Some " https://ipt.obis.org/bioecoocean/eml.do?r=seals ") [];
      Element (ipt_tag "dwca") (Some "https://ipt.obis.org/bioecoocean/archive.do?r=seals") [] ].

(** An item without a description element. *)
Definition undescribed_item : element :=
  Element "item" None [Element "title" (Some "Whale sightings") []].

Definition feed_world (root : element) : World :=
  mkWorld (fun _ _ _ => Raise RequestException)
          (fun _ => Ok (mkResponse 200 (Some "text/xml") None (Some root))).

End FeedSpec.

Module TextSpec.
Import PyStr Py MetadataCat Spec HarvestSpec FeedSpec.

(** The text after the first [>] of [t], if there is one. *)
Fixpoint after_gt (t : string) : option string :=
  match t with
  | EmptyString => None
  | String d t' => if Ascii.eqb d ">" then Some t' else after_gt t'
  end.

(** No tag starts right before [s']: a [<] in front of [s'] is the last
    character, or is followed by [>], or has no [>] further on. *)
Definition no_tag_ahead (s' : string) : bool :=
  match s' with
  | EmptyString => true
  | String c1 s'' =>
      (Ascii.eqb c1 ">"
       || match after_gt s'' with Some _ => false | None => true end)%bool
  end.

(** The pattern [<[^>]+>] matches nowhere in [s]. *)
Fixpoint tag_free (s : string) : bool :=
  match s with
  | EmptyString => true
  | String c s' =>
      ((if Ascii.eqb c "<" then no_tag_ahead s' else true) && tag_free s')%bool
  end.

(** Every white-space character of [s] is a space that is not followed
    by white space. *)
Fixpoint single_spaces (s : string) : bool :=
  match s with
  | EmptyString => true
  | String c s' =>
      ((if is_space c then (Ascii.eqb c " " && negb (head_is is_space s'))%bool
        else true)
       && single_spaces s')%bool
  end.

(** Every white-space character of [s] is a space that has a character
    other than white space on its right. *)
Fixpoint spaced (s : string) : bool :=
  match s with
  | EmptyString => true
  | String c s' =>
      ((if is_space c then (Ascii.eqb c " " && head_is (fun x => negb (is_space x)) s')%bool
        else true)
       && spaced s')%bool
  end.

(** Text without white space at either end in which words are separated
    by single spaces. *)
Definition normalised (s : string) : bool :=
  (negb (head_is is_space s) && spaced s)%bool.

(** [re.sub(r"\s+", " ", text).strip()] *)
Definition squeeze (text : string) : string :=
  strip is_space (sub_runs is_space " " text).

(** The text of an item's description element, empty without one. *)
Definition item_description_text (item : element) : string :=
  match find "description" item with
  | Some e => match text_of e with Some t => t | None => EmptyString end
  | None => EmptyString
  end.

(** The publication date of a feed dataset: the ISO date when the date
    parser accepts the text of [pubDate], that text otherwise. *)
Definition item_date (parsedate_iso : string -> option string) (item : element)
  : string :=
  if has_text (find "pubDate" item) then
    match parsedate_iso (stripped_text (find "pubDate" item)) with
    | Some iso => iso
    | None => stripped_text (find "pubDate" item)
    end
  else EmptyString.

(** A date parser that knows one date. *)
Definition march_parser (s : string) : option string :=
  if String.eqb s "Mon, 02 Mar 2026 10:00:00 +0000" then Some "2026-03-02"
  else None.

Definition dated_item : element :=
  Element "item" None
    [ Element "title" (Some "Seal counts") [];
      Element "description" (Some "<p>Counts of  <b>seals</b>, 2 < 3</p> ") [];
      Element "pubDate" (Some " Mon, 02 Mar 2026 10:00:00 +0000 ") [];
      Element (ipt_tag "eml") (Some "https://ipt.obis.org/bioecoocean/eml.do?r=seals") [] ].

Definition undated_item : element :=
  Element "item" None
    [ Element "link" (Some "https://ipt.obis.org/bioecoocean/resource?r=seals") [];
      Element "description" None [];
      Element "pubDate" (Some "yesterday") [];
      Element (ipt_tag "eml") (Some "https://ipt.obis.org/bioecoocean/eml.do?r=seals") [] ].

End TextSpec.

Module CatalogueSpec.
Import PyStr Py PyPath ExportJson MetadataCat Spec HarvestSpec.


(** The hits of one page of search results, as a turn of the lister's
    loop reads them. *)
Definition page_items (w : World) (community : string) (size page : Z)
  : result (list json) :=
  r <- search w community size page ;;
  _ <- raise_for_status r ;;
  data <- json_of r ;;
  data <- as_dict data ;;
  hits_obj <- as_dict (dict_get_default "hits" (JObj []) data) ;;
  py_iter (dict_get_default "hits" (JArr []) hits_obj).

(** The pages from [page] on hold the lists [pages], one after the
    other. *)
Fixpoint pages_from (w : World) (community : string) (size page : Z)
  (pages : list (list json)) : Prop :=
  match pages with
  | [] => True
  | items :: rest =>
      page_items w community size page = Ok items
      /\ pages_from w community size (page + 1) rest
  end.

(** A search service with one page and no export. *)
Definition one_page_world (hits : list json) : World :=
  mkWorld (fun _ _ _ => Ok (json_response (search_body hits 1)))
          (fun _ => Raise RequestException).


(** An export service that answers with a JSON body under the given
    status and Content-Type. *)
Definition export_world (status : Z) (header : option string) (body : json)
  : World :=
  mkWorld (fun _ _ _ => Raise RequestException)
          (fun _ => Ok (mkResponse status header (Some body) None)).

End CatalogueSpec.

(* ===================================================================== *)
(** ** metadata-cat.py: the command line *)
(* ===================================================================== *)

Module MetadataCatMain.
Import PyStr Py PyPath ExportJson MetadataCat.

Record Args : Type := mkArgs {
  community : string;
  output : Path;
  max_pages : option Z
}.

(** [main] on the operating system [sys]: the directory and the file it
    creates, and the exit status.  The progress lines on the diagnostic
    stream are not part of this model. *)
Definition main (sys : System) (parsedate_iso : string -> option string)
  (fuel : nat) (w : World) (args : Args) : option (list event * result Z) :=
  match build_catalogue parsedate_iso fuel w (community args) (max_pages args) with
  | None => None
  | Some (Raise e) => Some ([], Raise e)
  | Some (Ok catalogue) =>
      let document := JsonFile (catalogue_document catalogue) in
      match sys (Mkdir (parent (output args))) with
      | Raise e => Some ([], Raise e)
      | Ok _ =>
          match sys (Write (output args) document) with
          | Raise e => Some ([Mkdir (parent (output args))], Raise e)
          | Ok _ =>
              Some ([ Mkdir (parent (output args));
                      Write (output args) document ],
                    Ok 0%Z)
          end
      end
  end.


End MetadataCatMain.

Module FailureSpec.
Import PyStr Py PyPath ExportJson Spec.








(** An operating system that refuses every request. *)
Definition unwilling : System := fun _ => Raise OSError.

End FailureSpec.

(* ===================================================================== *)
(** ** Strings: basic facts *)
(* ===================================================================== *)

Import PyStr Py PyPath Spec.

Section StringFacts.

Lemma append_nil_r (s : string) : s ++ EmptyString = s.
Proof. induction s; simpl; congruence. Qed.

Lemma append_assoc (a b c : string) : (a ++ b) ++ c = a ++ (b ++ c).
Proof. induction a; simpl; congruence. Qed.

Lemma startswith_refl_app (p s : string) : startswith p (p ++ s) = true.
Proof.
  induction p as [|a p IH]; simpl; [reflexivity|].
  now rewrite Ascii.eqb_refl, IH.
Qed.

Lemma startswith_split (p s : string) :
  startswith p s = true -> p ++ drop (String.length p) s = s.
Proof.
  revert s. induction p as [|a p IH]; intros s H; simpl in *; [reflexivity|].
  destruct s as [|b s]; [discriminate|].
  apply andb_true_iff in H as [Hab Hp].
  apply Ascii.eqb_eq in Hab. subst b. simpl. now rewrite IH.
Qed.

(** [split_after] finds the text after the first occurrence, which
    [split_before] precedes. *)
Lemma split_after_spec (sep s tail : string) :
  split_after sep s = Some tail -> s = split_before sep s ++ sep ++ tail.
Proof.
  revert tail. induction s as [|c s IH]; intros tail H.
  - simpl in *. destruct (startswith sep EmptyString) eqn:E; [|discriminate].
    injection H as <-. simpl. symmetry. now apply startswith_split.
  - unfold split_after in H. fold split_after in H.
    unfold split_before. fold split_before.
    destruct (startswith sep (String c s)) eqn:E.
    + injection H as <-. simpl. symmetry. now apply startswith_split.
    + simpl. f_equal. now apply IH.
Qed.

Lemma contains_split_after (sep s : string) :
  contains sep s = true -> exists tail, split_after sep s = Some tail.
Proof.
  induction s as [|c s IH]; intros H.
  - simpl in *. rewrite orb_false_r in H. rewrite H. eauto.
  - unfold contains in H. fold contains in H.
    unfold split_after. fold split_after.
    destruct (startswith sep (String c s)); [eauto|].
    simpl in H. auto.
Qed.

Lemma startswith_contains (sep s : string) :
  startswith sep s = true -> contains sep s = true.
Proof. intros H. destruct s; simpl; rewrite H; reflexivity. Qed.

Lemma contains_app (sep pre post : string) :
  contains sep (pre ++ sep ++ post) = true.
Proof.
  induction pre as [|c pre IH].
  - change (contains sep (sep ++ post) = true).
    apply startswith_contains, startswith_refl_app.
  - simpl. rewrite IH. apply orb_true_r.
Qed.

Lemma contains_empty (sep : string) :
  contains sep EmptyString = true -> sep = EmptyString.
Proof. destruct sep; simpl; [reflexivity|discriminate]. Qed.

End StringFacts.

(* ===================================================================== *)
(** ** export_json.py: the DOI extractor *)
(* ===================================================================== *)

Import ExportJson.

Example extract_doi_resolver_url :
  extract_doi (JStr "https://doi.org/10.5281/zenodo.123")
  = (Some "10.5281/zenodo.123", Some "https://doi.org/10.5281/zenodo.123").
Proof. reflexivity. Qed.

Example extract_doi_plain :
  extract_doi (JStr "10.5281/zenodo.123")
  = (Some "10.5281/zenodo.123", Some "https://doi.org/10.5281/zenodo.123").
Proof. reflexivity. Qed.

Example extract_doi_empty_object : extract_doi (JObj []) = (None, None).
Proof. reflexivity. Qed.

(** C2, as stated, fails on the empty string: it is a plain string, yet
    no resolver URL is synthesized for it. *)
Lemma extract_doi_empty_string_no_url :
  contains doi_marker EmptyString = false
  /\ extract_doi (JStr EmptyString) = (Some EmptyString, None)
  /\ extract_doi (JStr EmptyString)
     <> (Some EmptyString, Some ("https://doi.org/" ++ EmptyString)).
Proof. repeat split; discriminate. Qed.

(** C2 (amended): a string containing the marker gives the text after its
    first occurrence and the whole string; a non-empty plain string gives
    itself and the synthesized resolver URL, the empty string gives itself
    and no URL; an object gives its string [value] and its [url] when that
    is a string containing the marker, the URL being synthesized when the
    value is non-empty and no such [url] exists; an object with neither
    gives no value and no URL. *)
Theorem extract_doi_cases :
  (forall s, contains doi_marker s = true ->
     exists v, split_after doi_marker s = Some v
               /\ s = split_before doi_marker s ++ doi_marker ++ v
               /\ extract_doi (JStr s) = (Some v, Some s))
  /\ (forall s, contains doi_marker s = false -> s <> EmptyString ->
        extract_doi (JStr s) = (Some s, Some ("https://doi.org/" ++ s)))
  /\ extract_doi (JStr EmptyString) = (Some EmptyString, None)
  /\ (forall fields,
        let value := match dict_get "value" fields with
                     | JStr v => Some v
                     | _ => None
                     end in
        let url := match dict_get "url" fields with
                   | JStr u => if contains doi_marker u then Some u else None
                   | _ => None
                   end in
        extract_doi (JObj fields)
        = (value,
           match url, value with
           | Some u, _ => Some u
           | None, Some v => if nonempty v then Some ("https://doi.org/" ++ v) else None
           | None, None => None
           end))
  /\ (forall fields,
        (forall v, dict_get "value" fields <> JStr v) ->
        (forall u, dict_get "url" fields = JStr u -> contains doi_marker u = false) ->
        extract_doi (JObj fields) = (None, None)).
Proof.
  split; [|split; [|split; [reflexivity|split]]].
  - intros s Hs. destruct (contains_split_after _ _ Hs) as [v Hv].
    exists v. split; [exact Hv|]. split; [now apply split_after_spec|].
    unfold extract_doi. rewrite Hs, Hv.
    destruct s as [|c s]; [apply contains_empty in Hs; discriminate|].
    destruct v; reflexivity.
  - intros s Hs Hne. unfold extract_doi. rewrite Hs.
    destruct s; [congruence|reflexivity].
  - intros fields value url. subst value url. unfold extract_doi.
    destruct (dict_get "value" fields) as [| | |v| |]; simpl;
      destruct (dict_get "url" fields) as [| | |u| |]; simpl;
      try reflexivity;
      try (destruct v; reflexivity);
      destruct (contains doi_marker u) eqn:Hu; simpl;
      try reflexivity;
      try (destruct v; simpl; try reflexivity);
      destruct u; try reflexivity;
      apply contains_empty in Hu; discriminate.
  - intros fields Hv Hu. unfold extract_doi.
    destruct (dict_get "value" fields) as [| | |v| |];
      try (exfalso; eapply Hv; reflexivity);
      destruct (dict_get "url" fields) as [| | |u| |];
      try reflexivity;
      rewrite (Hu u eq_refl); reflexivity.
Qed.

Lemma extract_doi_cases_witness :
  extract_doi (JStr "doi:10.1/x") = (Some "doi:10.1/x", Some "https://doi.org/doi:10.1/x")
  /\ (exists v, split_after doi_marker "http://dx.doi.org/10.1/x" = Some v
                /\ "http://dx.doi.org/10.1/x"
                   = split_before doi_marker "http://dx.doi.org/10.1/x" ++ doi_marker ++ v
                /\ extract_doi (JStr "http://dx.doi.org/10.1/x")
                   = (Some v, Some "http://dx.doi.org/10.1/x"))
  /\ extract_doi (JObj [("value", JNum 7); ("url", JStr "https://example.org")])
     = (None, None).
Proof.
  destruct extract_doi_cases as (Hmark & Hplain & _ & _ & Hnone).
  split; [|split].
  - apply Hplain; [reflexivity|discriminate].
  - apply Hmark. reflexivity.
  - apply Hnone.
    + intros v; discriminate.
    + intros u Hu. injection Hu as <-. reflexivity.
Defined.

(* ===================================================================== *)
(** ** export_json.py: the catalogue-to-project mapper *)
(* ===================================================================== *)

Lemma license_pair_ok (lic : json) : exists p, license_pair lic = Ok p.
Proof.
  destruct lic as [| | |l| |]; simpl; eauto.
  destruct (lower l =? "cc-by-4.0")%string; [eauto|].
  destruct (contains _ (lower l)); eauto.
Qed.

(** The record id is extracted without an exception from a url that is
    text. *)
Lemma parse_zenodo_rec_id_text (entry : dict) (s : string) :
  entry_url entry = JStr s -> exists r, parse_zenodo_rec_id entry = Ok r.
Proof.
  intros Hu. unfold parse_zenodo_rec_id. rewrite Hu. simpl.
  destruct (contains marker s) eqn:Hc; [|eauto].
  destruct (contains_split_after _ _ Hc) as [tail ->]. eauto.
Qed.

(** When the record id is extracted without an exception, the later test
    of the marker in the mapper does not raise and agrees with
    [url_has_marker]. *)
Lemma funding_test_after_parse (entry : dict) (r : option string) :
  parse_zenodo_rec_id entry = Ok r ->
  (if truthy (entry_url entry) then py_in marker (entry_url entry) else Ok false)
  = Ok (url_has_marker entry).
Proof.
  unfold parse_zenodo_rec_id, url_has_marker.
  destruct (entry_url entry) as [|b|z|s|items|fields]; simpl;
    try discriminate.
  - intros _. destruct s; reflexivity.
  - destruct (existsb (eq_str marker) items); [discriminate|].
    intros _. destruct items; reflexivity.
  - destruct (dict_has marker fields); [discriminate|].
    intros _. destruct fields; reflexivity.
Qed.

(** The mapper is the composition of its blocks. *)
Lemma dataset_to_project_blocks (entry : dict) (base_url : option string)
  (rel_path : Path) :
  dataset_to_project entry base_url rel_path
  = (rec_id <- parse_zenodo_rec_id entry ;;
     lic <- license_pair (dict_get "license" entry) ;;
     funded <- (if truthy (entry_url entry)
                then py_in marker (entry_url entry) else Ok false) ;;
     Ok (with_id base_url rel_path
           (with_funding funded
              (with_keywords entry
                 (with_license lic
                    (with_identifier entry (base_project entry rec_id))))))).
Proof. reflexivity. Qed.

Lemma lookup_dict_set (k k' : string) (v : json) (d : dict) :
  lookup k (dict_set k' v d) = if String.eqb k' k then Some v else lookup k d.
Proof.
  induction d as [|[k0 v0] d IH]; simpl.
  - rewrite String.eqb_sym. reflexivity.
  - destruct (String.eqb k' k0) eqn:E0; simpl.
    + apply String.eqb_eq in E0. subst k0.
      rewrite (String.eqb_sym k k'). destruct (String.eqb k' k); reflexivity.
    + rewrite IH. destruct (String.eqb k k0) eqn:E1; [|reflexivity].
      apply String.eqb_eq in E1. subst k0. rewrite E0. reflexivity.
Qed.

Lemma lookup_with_identifier (k : string) (entry project : dict) :
  String.eqb "identifier" k = false ->
  lookup k (with_identifier entry project) = lookup k project.
Proof.
  intros Hk. unfold with_identifier.
  destruct (identifier_block_of entry) as [block|]; [|reflexivity].
  destruct (truthy block); [|reflexivity].
  now rewrite lookup_dict_set, Hk.
Qed.

Lemma lookup_with_license (k : string) lic (project : dict) :
  String.eqb "publishingPrinciples" k = false ->
  lookup k (with_license lic project) = lookup k project.
Proof.
  intros Hk. unfold with_license.
  destruct lic as [[lic_label lic_url]|]; [|reflexivity].
  destruct (nonempty lic_url); [|reflexivity].
  now rewrite lookup_dict_set, Hk.
Qed.

Lemma lookup_with_keywords (k : string) (entry project : dict) :
  String.eqb "keywords" k = false ->
  lookup k (with_keywords entry project) = lookup k project.
Proof.
  intros Hk. unfold with_keywords.
  destruct (py_or _ _); try reflexivity.
  destruct (truthy _); [|reflexivity].
  now rewrite lookup_dict_set, Hk.
Qed.

Lemma lookup_with_funding (k : string) (funded : bool) (project : dict) :
  lookup k (with_funding funded project)
  = if (funded && String.eqb "funding" k)%bool
    then Some (JArr [BIOECOOCEAN_FUNDING]) else lookup k project.
Proof.
  unfold with_funding. destruct funded; [|reflexivity].
  now rewrite lookup_dict_set.
Qed.

Lemma lookup_with_id (k : string) (base_url : option string) (rel_path : Path)
  (project : dict) :
  lookup k (with_id base_url rel_path project)
  = if (truthy_opt base_url && String.eqb "@id" k)%bool
    then Some (JStr (project_id
                       (match base_url with Some b => b | None => EmptyString end)
                       rel_path))
    else lookup k project.
Proof.
  unfold with_id. destruct base_url as [base|]; [|reflexivity].
  simpl. destruct (nonempty base); [|reflexivity].
  now rewrite lookup_dict_set.
Qed.

(** The mapper returns for every record whose extraction of the record
    id returns. *)
Lemma dataset_to_project_returns (entry : dict) (base_url : option string)
  (rel_path : Path) (r : option string) :
  parse_zenodo_rec_id entry = Ok r ->
  exists lic,
    license_pair (dict_get "license" entry) = Ok lic
    /\ dataset_to_project entry base_url rel_path
       = Ok (with_id base_url rel_path
               (with_funding (url_has_marker entry)
                  (with_keywords entry
                     (with_license lic
                        (with_identifier entry (base_project entry r)))))).
Proof.
  intros Hp. destruct (license_pair_ok (dict_get "license" entry)) as [lic Hl].
  exists lic. split; [exact Hl|].
  rewrite dataset_to_project_blocks, Hp, Hl.
  simpl. rewrite (funding_test_after_parse _ _ Hp). reflexivity.
Qed.

Lemma dataset_to_project_inv (entry : dict) (base_url : option string)
  (rel_path : Path) (project : dict) :
  dataset_to_project entry base_url rel_path = Ok project ->
  exists r lic,
    parse_zenodo_rec_id entry = Ok r
    /\ project
       = with_id base_url rel_path
           (with_funding (url_has_marker entry)
              (with_keywords entry
                 (with_license lic
                    (with_identifier entry (base_project entry r))))).
Proof.
  intros H.
  destruct (parse_zenodo_rec_id entry) as [r|e] eqn:Hp.
  - destruct (dataset_to_project_returns entry base_url rel_path r Hp)
      as (lic & _ & Hd).
    exists r, lic. split; [reflexivity|]. congruence.
  - rewrite dataset_to_project_blocks, Hp in H. discriminate.
Qed.

(** The fields of the mapper's result that depend on the url and on the
    base URL. *)
Lemma dataset_to_project_fields (entry : dict) (base_url : option string)
  (rel_path : Path) (project : dict) :
  dataset_to_project entry base_url rel_path = Ok project ->
  lookup "url" project = Some (entry_url entry)
  /\ lookup "funding" project
     = (if url_has_marker entry then Some (JArr [BIOECOOCEAN_FUNDING]) else None)
  /\ lookup "@id" project
     = (if truthy_opt base_url
        then Some (JStr (project_id
                           (match base_url with Some b => b | None => EmptyString end)
                           rel_path))
        else None).
Proof.
  intros H. apply dataset_to_project_inv in H as (r & lic & _ & ->).
  repeat split;
    rewrite lookup_with_id, lookup_with_funding, lookup_with_keywords,
      lookup_with_license, lookup_with_identifier by reflexivity;
    simpl; rewrite ?andb_false_r, ?andb_true_r; reflexivity.
Qed.

Example funding_identifier :
  match BIOECOOCEAN_FUNDING with
  | JObj fields => dict_get "identifier" fields
  | _ => JNull
  end = JStr "101136748".
Proof. reflexivity. Qed.

Example funding_for_zenodo_url :
  exists project,
    dataset_to_project zenodo_record None dot_dir_path = Ok project
    /\ lookup "funding" project = Some (JArr [BIOECOOCEAN_FUNDING]).
Proof. eexists. split; reflexivity. Qed.

Example no_funding_for_obis_url :
  exists project,
    dataset_to_project obis_record None dot_dir_path = Ok project
    /\ lookup "funding" project = None.
Proof. eexists. split; reflexivity. Qed.

(** C1, as stated, fails on a record that has no [url] field and whose
    [@id] is a record page of the hosting service: the funding block is
    attached although the record's [url] does not contain the marker. *)
Lemma funding_from_id_without_url :
  lookup "url" id_only_record = None
  /\ exists project,
       dataset_to_project id_only_record None dot_dir_path = Ok project
       /\ lookup "funding" project = Some (JArr [BIOECOOCEAN_FUNDING])
       /\ ~ (lookup "funding" project <> None
             <-> exists s, lookup "url" id_only_record = Some (JStr s)
                           /\ contains marker s = true).
Proof.
  split; [reflexivity|]. eexists. split; [reflexivity|]. split; [reflexivity|].
  intros [H _]. destruct H as (s & Hs & _); discriminate.
Qed.

(** C1 (amended): for every record the mapper maps, the result has the
    [funding] field, equal to the one fixed grant block, if and only if
    the url the mapper uses for the record -- the [url] field or, when
    that is missing or empty, the [@id] field -- is text containing
    [zenodo.org/record/]. *)
Theorem funding_iff_url_or_id_has_marker (entry : dict)
  (base_url : option string) (rel_path : Path) (project : dict) :
  dataset_to_project entry base_url rel_path = Ok project ->
  ((exists s, entry_url entry = JStr s /\ contains marker s = true) ->
   lookup "funding" project = Some (JArr [BIOECOOCEAN_FUNDING]))
  /\ (~ (exists s, entry_url entry = JStr s /\ contains marker s = true) ->
      lookup "funding" project = None).
Proof.
  intros H. apply dataset_to_project_fields in H as (_ & Hf & _).
  rewrite Hf. unfold url_has_marker. split.
  - intros (s & -> & ->). reflexivity.
  - intros Hn. destruct (entry_url entry) as [| | |s| |]; try reflexivity.
    destruct (contains marker s) eqn:Hc; [|reflexivity].
    exfalso. apply Hn. eauto.
Qed.

Lemma funding_iff_url_or_id_has_marker_witness :
  (exists project,
     dataset_to_project zenodo_record None dot_dir_path = Ok project
     /\ lookup "funding" project = Some (JArr [BIOECOOCEAN_FUNDING]))
  /\ (exists project,
        dataset_to_project obis_record None dot_dir_path = Ok project
        /\ lookup "funding" project = None).
Proof.
  split.
  - eexists. split; [reflexivity|].
    apply (funding_iff_url_or_id_has_marker zenodo_record None dot_dir_path);
      [reflexivity|].
    eexists. split; reflexivity.
  - eexists. split; [reflexivity|].
    apply (funding_iff_url_or_id_has_marker obis_record None dot_dir_path);
      [reflexivity|].
    intros (s & Hs & Hc). injection Hs as <-. discriminate.
Defined.

(** The mapper maps every record whose url is text. *)
Lemma dataset_to_project_total_on_text_url (entry : dict)
  (base_url : option string) (rel_path : Path) (s : string) :
  entry_url entry = JStr s ->
  exists project, dataset_to_project entry base_url rel_path = Ok project.
Proof.
  intros Hu. destruct (parse_zenodo_rec_id_text _ _ Hu) as [r Hr].
  destruct (dataset_to_project_returns entry base_url rel_path r Hr)
    as (lic & _ & Hd).
  eauto.
Qed.

(** The [@id] is present exactly when the base URL is a non-empty string,
    and is then the base URL without its trailing slashes, a slash, and
    the path without its leading run of dots and slashes. *)
Lemma project_id_field (entry : dict) (base_url : option string)
  (rel_path : Path) (project : dict) :
  dataset_to_project entry base_url rel_path = Ok project ->
  lookup "@id" project
  = match base_url with
    | Some base =>
        if nonempty base
        then Some (JStr (rstrip (mem_char "/") base ++ "/"
                         ++ lstrip (mem_char "./") (as_posix rel_path)))
        else None
    | None => None
    end.
Proof.
  intros H. apply dataset_to_project_fields in H as (_ & _ & Hi).
  rewrite Hi. destruct base_url as [base|]; reflexivity.
Qed.

Lemma lstrip_no_head (p : ascii -> bool) (s : string) :
  head_is p s = false -> lstrip p s = s.
Proof. destruct s as [|c s]; simpl; [reflexivity|]. now intros ->. Qed.

(** For a path that starts with neither a dot nor a slash the [@id] is
    the base URL without its trailing slashes, a slash, and the path. *)
Lemma project_id_plain_path (base : string) (rel_path : Path) :
  head_is (mem_char "./") (as_posix rel_path) = false ->
  project_id base rel_path
  = rstrip (mem_char "/") base ++ "/" ++ as_posix rel_path.
Proof. intros H. unfold project_id. now rewrite lstrip_no_head. Qed.

(** C8: for an output path below a directory whose name starts with a
    dot, the [@id] is not the base URL, a slash and the posix path: the
    leading dot of the path is removed as well.  A run with such an
    output directory writes the file below [.site] and gives it an [@id]
    below [site]. *)
Theorem project_id_drops_leading_dot :
  as_posix dot_dir_path = ".site/zenodo/plankton-counts.json"
  /\ (exists project,
        dataset_to_project zenodo_record (Some "https://x.org/repo/") dot_dir_path
        = Ok project
        /\ lookup "@id" project
           = Some (JStr "https://x.org/repo/site/zenodo/plankton-counts.json")
        /\ lookup "@id" project
           <> Some (JStr ("https://x.org/repo" ++ "/" ++ as_posix dot_dir_path)))
  /\ (exists file project,
        writes (fst (main under_cwd dot_dir_args (JArr [JObj zenodo_record])))
        = [(file, JsonFile (JObj project))]
        /\ as_posix file = ".site/zenodo/plankton-counts-789.json"
        /\ lookup "@id" project
           = Some (JStr "https://x.org/repo/site/zenodo/plankton-counts-789.json")).
Proof.
  split; [reflexivity|]. split.
  - eexists. split; [reflexivity|]. split; [reflexivity|discriminate].
  - eexists. eexists. split; [reflexivity|]. split; reflexivity.
Qed.

(* ===================================================================== *)
(** ** export_json.py: the slug generator *)
(* ===================================================================== *)

Section Slug.

#[local] Abbreviation dash := (mem_char "-").
#[local] Abbreviation R := (sub_runs_from not_alnum "-").
#[local] Abbreviation D := (sub_runs_from (is_char "-") "-").

#[local] Arguments mem_char : simpl never.

Ltac all_chars c := destruct c as [[] [] [] [] [] [] [] []]; vm_compute; intuition congruence.

Lemma alnum_lower c : is_alnum c = true -> char_lower c = c.
Proof. all_chars c. Qed.

Lemma alnum_not_space c : is_alnum c = true -> is_space c = false.
Proof. all_chars c. Qed.

Lemma alnum_not_dash c : is_alnum c = true -> is_char "-" c = false.
Proof. all_chars c. Qed.

Lemma dash_is c : is_char "-" c = true -> c = "-"%char.
Proof. unfold is_char. apply Ascii.eqb_eq. Qed.

Lemma mem_dash c : dash c = is_char "-" c.
Proof. unfold is_char, mem_char. apply orb_false_r. Qed.

Lemma not_alnum_alnum c : is_alnum c = true -> not_alnum c = false.
Proof. unfold not_alnum. now intros ->. Qed.

(** Either an alphanumeric character or the hyphen. *)
Lemma single_hyphens_head c s :
  single_hyphens (String c s) = true ->
  (is_alnum c = true \/ (is_alnum c = false /\ c = "-"%char /\ head_is (is_char "-") s = false))
  /\ single_hyphens s = true.
Proof.
  simpl. destruct (is_alnum c) eqn:Ha; [auto|].
  intros H. apply andb_true_iff in H as [H Hs].
  apply andb_true_iff in H as [Hd Hh].
  split; [|exact Hs]. right. split; [reflexivity|]. split; [now apply dash_is|].
  destruct s; [reflexivity|]. simpl. now apply negb_true_iff.
Qed.

(** After the first substitution the text is over [a-z0-9-] and has no
    two adjacent hyphens. *)
Lemma sub_runs_not_alnum_shape s :
  single_hyphens (R false s) = true
  /\ single_hyphens (R true s) = true
  /\ head_is (is_char "-") (R true s) = false.
Proof.
  induction s as [|c s (IHf & IHt & IHh)]; [repeat split|].
  simpl. destruct (is_alnum c) eqn:Ha.
  - rewrite (not_alnum_alnum _ Ha). simpl. rewrite Ha.
    repeat split; auto using alnum_not_dash.
  - assert (Hn : not_alnum c = true) by (unfold not_alnum; now rewrite Ha).
    rewrite Hn. repeat split; auto.
    simpl. rewrite IHt, andb_true_r.
    destruct (R true s); [reflexivity|].
    simpl in IHh. now rewrite IHh.
Qed.

(** The second substitution then changes nothing. *)
Lemma sub_runs_dash_id s :
  single_hyphens s = true ->
  D false s = s /\ (head_is (is_char "-") s = false -> D true s = s).
Proof.
  induction s as [|c s IH]; [auto|].
  intros H. apply single_hyphens_head in H as [Hc Hs].
  destruct (IH Hs) as [IHf IHt]. simpl.
  destruct Hc as [Ha|(Ha & -> & Hh)].
  - rewrite (alnum_not_dash _ Ha), IHf. auto.
  - simpl. rewrite (IHt Hh). split; [reflexivity|discriminate].
Qed.

Lemma lstrip_dash_shape s :
  single_hyphens s = true ->
  single_hyphens (lstrip dash s) = true
  /\ head_is (is_char "-") (lstrip dash s) = false.
Proof.
  induction s as [|c s IH]; [auto|].
  intros H. pose proof H as H0. apply single_hyphens_head in H as [Hc Hs].
  unfold lstrip. fold lstrip. rewrite mem_dash.
  destruct (is_char "-" c) eqn:Hd; [auto|].
  split; [exact H0|]. exact Hd.
Qed.

Lemma rstrip_head p s c r :
  rstrip p s = String c r -> exists s', s = String c s'.
Proof.
  destruct s as [|c0 s]; [discriminate|]. simpl.
  destruct (rstrip p s); [destruct (p c0)|]; intros H; inversion H; eauto.
Qed.

Lemma rstrip_dash_tail s :
  single_hyphens s = true -> slug_tail (rstrip dash s) = true.
Proof.
  induction s as [|c s IH]; [reflexivity|].
  intros H. apply single_hyphens_head in H as [Hc Hs].
  specialize (IH Hs). simpl.
  destruct (rstrip dash s) as [|d r] eqn:Er.
  - rewrite mem_dash. destruct Hc as [Ha|(Ha & -> & Hh)].
    + rewrite (alnum_not_dash _ Ha). simpl. now rewrite Ha.
    + reflexivity.
  - destruct Hc as [Ha|(Ha & -> & Hh)].
    + simpl. rewrite Ha. exact IH.
    + destruct (rstrip_head _ _ _ _ Er) as [s' ->].
      apply single_hyphens_head in Hs as [[Hd|(_ & -> & _)] _];
        [|discriminate Hh].
      change (slug_tail (String "-" (String d r)))
        with (is_alnum d && slug_tail (String d r))%bool.
      now rewrite Hd, IH.
Qed.

Lemma strip_dash_result s :
  single_hyphens s = true ->
  strip dash s = EmptyString \/ slug_ok (strip dash s) = true.
Proof.
  intros H. unfold strip.
  destruct (lstrip_dash_shape _ H) as [Hs Hh].
  pose proof (rstrip_dash_tail _ Hs) as Ht.
  destruct (rstrip dash (lstrip dash s)) as [|c r] eqn:Er; [auto|].
  right. destruct (rstrip_head _ _ _ _ Er) as [s' Es].
  rewrite Es in Hs, Hh. simpl in Hh.
  apply single_hyphens_head in Hs as [[Ha|(_ & -> & _)] _]; [|discriminate Hh].
  simpl in *. now rewrite Ha in *.
Qed.

(** The slug always has the shape of the regular expression. *)
Lemma slugify_ok s : slug_ok (slugify s) = true.
Proof.
  unfold slugify.
  set (t := sub_runs not_alnum "-" (strip is_space (lower s))).
  destruct (sub_runs_not_alnum_shape (strip is_space (lower s))) as [Ht _].
  fold (sub_runs not_alnum "-" (strip is_space (lower s))) in Ht. fold t in Ht.
  assert (Hd : sub_runs (is_char "-") "-" t = t)
    by (unfold sub_runs at 1; apply sub_runs_dash_id, Ht).
  rewrite Hd.
  destruct (strip_dash_result _ Ht) as [->|Hok]; [reflexivity|].
  destruct (strip dash t); [discriminate|exact Hok].
Qed.

(** *** A text of that shape is its own slug *)

Lemma slug_tail_inv c s :
  slug_tail (String c s) = true ->
  slug_tail s = true
  /\ (is_alnum c = true
      \/ (c = "-"%char /\ exists c' s', s = String c' s' /\ is_alnum c' = true)).
Proof.
  simpl. destruct (is_alnum c) eqn:Ha; [auto|].
  intros H. apply andb_true_iff in H as [H Hs].
  apply andb_true_iff in H as [Hd Hh].
  split; [exact Hs|]. right. split; [now apply dash_is|].
  destruct s as [|c' s']; [discriminate|]. eauto.
Qed.

Lemma slug_tail_lower s : slug_tail s = true -> lower s = s.
Proof.
  induction s as [|c s IH]; [reflexivity|].
  intros H. apply slug_tail_inv in H as [Hs Hc]. simpl. rewrite (IH Hs).
  destruct Hc as [Ha|[-> _]]; [now rewrite alnum_lower|reflexivity].
Qed.

Lemma slug_tail_rstrip_space s :
  slug_tail s = true -> rstrip is_space s = s.
Proof.
  induction s as [|c s IH]; [reflexivity|].
  intros H. apply slug_tail_inv in H as [Hs Hc]. simpl. rewrite (IH Hs).
  destruct s; [|reflexivity].
  destruct Hc as [Ha|[-> _]]; [now rewrite alnum_not_space|reflexivity].
Qed.

Lemma slug_tail_rstrip_dash s :
  slug_tail s = true -> rstrip dash s = s.
Proof.
  induction s as [|c s IH]; [reflexivity|].
  intros H. apply slug_tail_inv in H as [Hs Hc]. simpl. rewrite (IH Hs).
  destruct s; [|reflexivity].
  destruct Hc as [Ha|(_ & c' & s' & E & _)]; [|discriminate].
  now rewrite mem_dash, alnum_not_dash.
Qed.

Lemma slug_tail_sub_runs s :
  slug_tail s = true -> R false s = s.
Proof.
  induction s as [|c s IH]; [reflexivity|].
  intros H. apply slug_tail_inv in H as [Hs Hc]. simpl.
  destruct Hc as [Ha|(-> & c' & s' & -> & Ha)].
  - now rewrite (not_alnum_alnum _ Ha), (IH Hs).
  - specialize (IH Hs). simpl in *.
    rewrite (not_alnum_alnum _ Ha) in *. now rewrite IH.
Qed.

Lemma slug_tail_single_hyphens s :
  slug_tail s = true -> single_hyphens s = true.
Proof.
  induction s as [|c s IH]; [reflexivity|].
  intros H. apply slug_tail_inv in H as [Hs Hc]. simpl.
  rewrite (IH Hs), andb_true_r.
  destruct Hc as [Ha|(-> & c' & s' & -> & Ha)]; [now rewrite Ha|].
  simpl. now rewrite (alnum_not_dash _ Ha).
Qed.

Lemma slug_ok_tail s : slug_ok s = true -> slug_tail s = true.
Proof.
  destruct s as [|c s]; [discriminate|]. simpl.
  intros H. apply andb_true_iff in H as [Ha Hs]. now rewrite Ha.
Qed.

Lemma slugify_fixes_slugs s : slug_ok s = true -> slugify s = s.
Proof.
  intros Hok. pose proof (slug_ok_tail _ Hok) as Ht.
  destruct s as [|c s]; [discriminate|].
  pose proof Hok as Hc. simpl in Hc. apply andb_true_iff in Hc as [Ha _].
  unfold slugify. rewrite (slug_tail_lower _ Ht).
  assert (Hsp : strip is_space (String c s) = String c s).
  { unfold strip. simpl lstrip. rewrite (alnum_not_space _ Ha).
    now apply slug_tail_rstrip_space. }
  rewrite Hsp. unfold sub_runs. rewrite (slug_tail_sub_runs _ Ht).
  destruct (sub_runs_dash_id _ (slug_tail_single_hyphens _ Ht)) as [-> _].
  assert (Hsd : strip dash (String c s) = String c s).
  { unfold strip. simpl lstrip. rewrite mem_dash, (alnum_not_dash _ Ha).
    now apply slug_tail_rstrip_dash. }
  rewrite Hsd. reflexivity.
Qed.

(** *** The one-pass test and the regular expression agree *)

Lemma slug_tail_matches n s :
  String.length s <= n ->
  slug_tail s = true ->
  exists w r, s = w ++ r
              /\ matches (Star (Class is_alnum)) w
              /\ matches (Star hyphen_group) r.
Proof.
  revert s. induction n as [|n IH]; intros s Hn Ht.
  - destruct s; [|simpl in Hn; lia].
    exists EmptyString, EmptyString. repeat split; constructor.
  - destruct s as [|c s].
    { exists EmptyString, EmptyString. repeat split; constructor. }
    simpl in Hn. apply slug_tail_inv in Ht as [Hs Hc].
    destruct Hc as [Ha|(-> & c' & s' & -> & Ha)].
    + destruct (IH s ltac:(lia) Hs) as (w & r & -> & Hw & Hr).
      exists (String c w), r. repeat split; [|exact Hr].
      change (String c w) with (String c EmptyString ++ w).
      constructor; [now constructor|exact Hw].
    + simpl in Hs. rewrite Ha in Hs. simpl in Hn.
      destruct (IH s' ltac:(lia) Hs) as (w & r & -> & Hw & Hr).
      exists EmptyString, (String "-" (String c' (w ++ r))).
      repeat split; [constructor|].
      change (String "-" (String c' (w ++ r)))
        with ((String "-" EmptyString ++ (String c' EmptyString ++ w)) ++ r).
      constructor; [|exact Hr].
      constructor; [now constructor|].
      constructor; [now constructor|exact Hw].
Qed.

Lemma slug_ok_matches s : slug_ok s = true -> matches slug_regex s.
Proof.
  destruct s as [|c s]; [discriminate|]. simpl.
  intros H. apply andb_true_iff in H as [Ha Hs].
  destruct (slug_tail_matches _ s (le_n _) Hs) as (w & r & -> & Hw & Hr).
  change (String c (w ++ r)) with ((String c EmptyString ++ w) ++ r).
  constructor; [|exact Hr].
  constructor; [now constructor|exact Hw].
Qed.

(** Conversely, only texts that pass the one-pass test match. *)

Lemma matches_class_inv p s :
  matches (Class p) s -> exists c, s = String c EmptyString /\ p c = true.
Proof. intros H. inversion H; subst. eauto. Qed.

Lemma matches_star_class p s :
  matches (Star (Class p)) s -> all_chars p s = true.
Proof.
  intros H. remember (Star (Class p)) as re eqn:E.
  induction H as [| | |r s1 s2 H1 _ H2 IH2]; try discriminate; [reflexivity|].
  injection E as ->. specialize (IH2 eq_refl).
  apply matches_class_inv in H1 as (c & -> & Hc). simpl. now rewrite Hc.
Qed.

Lemma slug_tail_after_alnum w r :
  all_chars is_alnum w = true -> slug_tail r = true -> slug_tail (w ++ r) = true.
Proof.
  induction w as [|c w IH]; simpl; [auto|].
  intros H Hr. apply andb_true_iff in H as [Hc Hw]. rewrite Hc. auto.
Qed.

Lemma matches_hyphen_group g :
  matches hyphen_group g ->
  exists c w, g = String "-" (String c w)
              /\ is_alnum c = true /\ all_chars is_alnum w = true.
Proof.
  intros H. inversion H as [|r1 r2 s1 s2 Hd Hp| |]; subst.
  apply matches_class_inv in Hd as (d & -> & Hd). apply dash_is in Hd. subst d.
  inversion Hp as [|r1 r2 t1 t2 Hc Hw| |]; subst.
  apply matches_class_inv in Hc as (c & -> & Hc).
  apply matches_star_class in Hw. exists c, t2. auto.
Qed.

Lemma matches_groups_tail r :
  matches (Star hyphen_group) r -> slug_tail r = true.
Proof.
  intros H. remember (Star hyphen_group) as re eqn:E.
  induction H as [| | |r0 s1 s2 H1 _ H2 IH2]; try discriminate; [reflexivity|].
  injection E as ->. specialize (IH2 eq_refl).
  apply matches_hyphen_group in H1 as (c & w & -> & Hc & Hw).
  change (slug_tail (String "-" (String c (w ++ s2))) = true).
  change (slug_tail (String "-" (String c (w ++ s2))))
    with (is_alnum c && slug_tail (String c (w ++ s2)))%bool.
  rewrite Hc. simpl. rewrite Hc. now apply slug_tail_after_alnum.
Qed.

Lemma matches_slug_ok s : matches slug_regex s -> slug_ok s = true.
Proof.
  intros H. inversion H as [|r1 r2 s1 s2 Hp Hg| |]; subst.
  inversion Hp as [|r1 r2 t1 t2 Hc Hw| |]; subst.
  apply matches_class_inv in Hc as (c & -> & Hc).
  apply matches_star_class in Hw. apply matches_groups_tail in Hg.
  simpl. rewrite Hc. now apply slug_tail_after_alnum.
Qed.

End Slug.

Example slugify_title : slugify "  Hello, World!! 42 " = "hello-world-42".
Proof. reflexivity. Qed.

Example slugify_punctuation : slugify "--!!--" = "record".
Proof. reflexivity. Qed.

Example double_hyphen_is_no_slug : ~ matches slug_regex "a--b".
Proof. intros H. apply matches_slug_ok in H. discriminate. Qed.

Example leading_hyphen_is_no_slug : ~ matches slug_regex "-a".
Proof. intros H. apply matches_slug_ok in H. discriminate. Qed.

(** Every slug matches the regular expression; the fallback token does
    too. *)
Lemma slugify_matches (s : string) : matches slug_regex (slugify s).
Proof. apply slug_ok_matches, slugify_ok. Qed.

(** C4: the slug of any text matches [^[a-z0-9]+(-[a-z0-9]+)*$] or is the
    fallback token, and the slug generator is idempotent. *)
Theorem slugify_shape_and_idempotent (s : string) :
  (matches slug_regex (slugify s) \/ slugify s = "record")
  /\ slugify (slugify s) = slugify s.
Proof.
  split.
  - left. apply slugify_matches.
  - apply slugify_fixes_slugs, slugify_ok.
Qed.

(* ===================================================================== *)
(** ** export_json.py: the sitemap builder *)
(* ===================================================================== *)

Section Sitemap.

Lemma fold_left_append_map {A : Type} (f : A -> string) (l : list A)
  (init : list string) :
  fold_left (fun lines x => app lines [f x]) l init = app init (map f l).
Proof.
  revert init. induction l as [|x l IH]; intros init; simpl.
  - now rewrite app_nil_r.
  - rewrite IH, <- app_assoc. reflexivity.
Qed.

Lemma build_sitemap_xml_lines (ids : list string) :
  build_sitemap_xml ids
  = join newline
      (xml_declaration :: urlset_open
         :: app (map url_line (filter nonempty ids)) ["</urlset>"]).
Proof.
  unfold build_sitemap_xml.
  rewrite (fold_left_append_map (fun loc => "  <url><loc>" ++ html_escape loc ++ "</loc></url>")).
  rewrite <- app_assoc. reflexivity.
Qed.

(** *** Escaping, character by character *)

Lemma replace_char_subst (c : ascii) (rep s : string) :
  replace_char c rep s
  = subst_chars (fun x => if Ascii.eqb x c then rep else String x EmptyString) s.
Proof.
  induction s as [|x s IH]; simpl; [reflexivity|].
  rewrite IH. destruct (Ascii.eqb x c); reflexivity.
Qed.

Lemma subst_chars_app (f : ascii -> string) (a b : string) :
  subst_chars f (a ++ b) = subst_chars f a ++ subst_chars f b.
Proof.
  induction a as [|x a IH]; simpl; [reflexivity|].
  now rewrite IH, append_assoc.
Qed.

Lemma subst_chars_comp (f g : ascii -> string) (s : string) :
  subst_chars g (subst_chars f s) = subst_chars (fun c => subst_chars g (f c)) s.
Proof.
  induction s as [|x s IH]; simpl; [reflexivity|].
  now rewrite subst_chars_app, IH.
Qed.

Lemma subst_chars_ext (f g : ascii -> string) (s : string) :
  (forall c, f c = g c) -> subst_chars f s = subst_chars g s.
Proof.
  intros E. induction s as [|x s IH]; simpl; [reflexivity|].
  now rewrite E, IH.
Qed.

Lemma html_escape_chars (s : string) :
  html_escape s = subst_chars escape_char s.
Proof.
  unfold html_escape. rewrite !replace_char_subst, !subst_chars_comp.
  apply subst_chars_ext. intros c.
  destruct c as [[] [] [] [] [] [] [] []]; reflexivity.
Qed.

Lemma all_chars_app (p : ascii -> bool) (a b : string) :
  all_chars p (a ++ b) = (all_chars p a && all_chars p b)%bool.
Proof.
  induction a as [|x a IH]; simpl; [reflexivity|].
  now rewrite IH, andb_assoc.
Qed.

Lemma html_escape_no_markup (s : string) :
  all_chars (fun c => negb (markup_char c)) (html_escape s) = true.
Proof.
  rewrite html_escape_chars.
  induction s as [|x s IH]; simpl; [reflexivity|].
  rewrite all_chars_app, IH, andb_true_r.
  destruct x as [[] [] [] [] [] [] [] []]; reflexivity.
Qed.

(** *** Counting the [<url>] elements *)

Lemma count_at_skip (w s : string) :
  all_chars (fun c => negb (markup_char c)) w = true ->
  count_at "<url>" (w ++ s) = count_at "<url>" s.
Proof.
  induction w as [|c w IH]; [reflexivity|].
  simpl all_chars. intros H. apply andb_true_iff in H as [Hc Hw].
  change (String c w ++ s) with (String c (w ++ s)).
  unfold count_at. fold count_at. rewrite (IH Hw).
  unfold markup_char in Hc.
  apply negb_true_iff, orb_false_iff in Hc as [Hc _].
  apply orb_false_iff in Hc as [Hc _].
  change (startswith "<url>" (String c (w ++ s)))
    with (Ascii.eqb "<" c && startswith "url>" (w ++ s))%bool.
  rewrite Ascii.eqb_sym, Hc. reflexivity.
Qed.

Lemma join_cons (sep x : string) (l : list string) :
  l <> [] -> join sep (x :: l) = x ++ sep ++ join sep l.
Proof. destruct l; [congruence|reflexivity]. Qed.

Lemma count_url_lines (locs : list string) :
  count_at "<url>" (join newline (app (map url_line locs) ["</urlset>"]))
  = List.length locs.
Proof.
  induction locs as [|loc locs IH]; [reflexivity|].
  change (app (map url_line (loc :: locs)) ["</urlset>"])
    with (url_line loc :: app (map url_line locs) ["</urlset>"]).
  rewrite join_cons by (destruct locs; discriminate).
  unfold url_line at 1. rewrite !append_assoc.
  set (rest := join newline (app (map url_line locs) ["</urlset>"])) in *.
  change ("  <url><loc>" ++ html_escape loc ++ "</loc></url>" ++ newline ++ rest)
    with (String " " (String " " (String "<" (String "u" (String "r"
            (String "l" (String ">" (String "<" (String "l" (String "o"
            (String "c" (String ">"
               (html_escape loc ++ "</loc></url>" ++ newline ++ rest))))))))))))).
  cbn [count_at startswith Ascii.eqb Bool.eqb andb Nat.add].
  rewrite (count_at_skip _ _ (html_escape_no_markup loc)).
  unfold newline. cbn [append count_at startswith Ascii.eqb Bool.eqb andb Nat.add ascii_of_N ascii_of_pos].
  now rewrite IH.
Qed.

Lemma count_sitemap_urls (ids : list string) :
  count_at "<url>" (build_sitemap_xml ids)
  = List.length (filter nonempty ids).
Proof.
  rewrite build_sitemap_xml_lines.
  rewrite join_cons by discriminate.
  rewrite join_cons by (destruct (filter nonempty ids); discriminate).
  rewrite <- count_url_lines.
  set (rest := join newline _).
  unfold xml_declaration, urlset_open, newline, dquote.
  cbn [append count_at startswith Ascii.eqb Bool.eqb andb Nat.add ascii_of_N ascii_of_pos].
  reflexivity.
Qed.

End Sitemap.

Example sitemap_one_url :
  build_sitemap_xml ["https://a/b"; EmptyString]
  = join newline [ xml_declaration; urlset_open;
                   "  <url><loc>https://a/b</loc></url>"; "</urlset>" ]
  /\ count_at "<url>" (build_sitemap_xml ["https://a/b"; EmptyString]) = 1.
Proof. split; reflexivity. Qed.

Example sitemap_keeps_duplicates :
  count_at "<url>" (build_sitemap_xml ["https://a/b"; "https://a/b"]) = 2.
Proof. reflexivity. Qed.

Example sitemap_escapes :
  url_line ("https://a/b?x=1&y=<2>" ++ String dquote EmptyString)
  = "  <url><loc>https://a/b?x=1&amp;y=&lt;2&gt;&quot;</loc></url>".
Proof. reflexivity. Qed.

(** C5: the sitemap is the XML declaration, the [urlset] element with the
    fixed namespace, and inside it one [<url><loc>...</loc></url>] line per
    non-empty entry, in the order of the input, repeated entries repeated;
    the text of each entry is escaped character by character, so that no
    [<], [>] or double quote of an entry is left; the number of [<url>]
    elements is the number of non-empty entries. *)
Theorem build_sitemap_xml_spec (ids : list string) :
  build_sitemap_xml ids
  = join newline
      (xml_declaration :: urlset_open
         :: app (map url_line (filter nonempty ids)) ["</urlset>"])
  /\ (forall loc,
        url_line loc = "  <url><loc>" ++ subst_chars escape_char loc ++ "</loc></url>"
        /\ all_chars (fun c => negb (markup_char c)) (subst_chars escape_char loc) = true)
  /\ count_at "<url>" (build_sitemap_xml ids) = List.length (filter nonempty ids)
  /\ count_at "<url>" (build_sitemap_xml ["https://a/b"; EmptyString]) = 1.
Proof.
  split; [apply build_sitemap_xml_lines|].
  split; [|split; [apply count_sitemap_urls|reflexivity]].
  intros loc. unfold url_line. rewrite <- html_escape_chars.
  split; [reflexivity|apply html_escape_no_markup].
Qed.

Import FieldSpec FailureSpec.

(* ===================================================================== *)
(** ** export_json.py: the characters of a file name *)
(* ===================================================================== *)

Section NameChars.

Lemma all_chars_weaken (p q : ascii -> bool) (s : string) :
  (forall c, p c = true -> q c = true) ->
  all_chars p s = true -> all_chars q s = true.
Proof.
  intros Hpq. induction s as [|c s IH]; simpl; [auto|].
  intros H. apply andb_true_iff in H as [Hc Hs]. now rewrite (Hpq c Hc), IH.
Qed.

Lemma slug_tail_chars (s : string) :
  slug_tail s = true ->
  all_chars (fun c => (is_alnum c || is_char "-" c)%bool) s = true.
Proof.
  induction s as [|c s IH]; [reflexivity|].
  intros H. apply slug_tail_inv in H as [Hs Hc]. simpl. rewrite (IH Hs).
  destruct Hc as [->|[-> _]]; reflexivity.
Qed.

Lemma mem_char_app (a b : string) (x : ascii) :
  mem_char (a ++ b) x = (mem_char a x || mem_char b x)%bool.
Proof.
  induction a as [|c a IH]; [reflexivity|].
  simpl. now rewrite IH, orb_assoc.
Qed.

Lemma slug_char_not_nul (c : ascii) :
  (is_alnum c || is_char "-" c)%bool = true -> Ascii.eqb NUL c = false.
Proof.
  destruct c as [[] [] [] [] [] [] [] []]; vm_compute; intuition congruence.
Qed.

Lemma slugify_no_nul (text : string) : mem_char (slugify text) NUL = false.
Proof.
  pose proof (slug_tail_chars _ (slug_ok_tail _ (slugify_ok text))) as H.
  induction (slugify text) as [|c s IH]; [reflexivity|].
  simpl in H. apply andb_true_iff in H as [Hc Hs].
  change (mem_char (String c s) NUL)
    with (Ascii.eqb NUL c || mem_char s NUL)%bool.
  now rewrite (slug_char_not_nul c Hc), IH.
Qed.

Lemma startswith_mem (r s : string) (x : ascii) :
  startswith r s = true -> mem_char r x = true -> mem_char s x = true.
Proof.
  revert s. induction r as [|a r IH]; intros s Hs Hm; [discriminate|].
  destruct s as [|b s]; [discriminate|]. simpl in *.
  apply andb_true_iff in Hs as [Hab Hs]. apply Ascii.eqb_eq in Hab. subst b.
  apply orb_true_iff in Hm as [Hm|Hm]; [now rewrite Hm|].
  rewrite (IH s Hs Hm). apply orb_true_r.
Qed.

(** The characters of a substring are characters of the string. *)
Lemma contains_mem (r s : string) (x : ascii) :
  contains r s = true -> mem_char r x = true -> mem_char s x = true.
Proof.
  intros Hc Hm. induction s as [|b s IH].
  - apply contains_empty in Hc. subst r. discriminate.
  - unfold contains in Hc. fold contains in Hc.
    apply orb_true_iff in Hc as [Hc|Hc].
    + exact (startswith_mem r (String b s) x Hc Hm).
    + simpl. rewrite (IH Hc). apply orb_true_r.
Qed.

(** The file name holds NUL exactly when the record id does. *)
Lemma filename_nul (idx : nat) (entry : dict) (r : option string) :
  mem_char (filename_of idx entry r) NUL
  = match r with Some id => mem_char id NUL | None => false end.
Proof.
  unfold filename_of. set (slug := slugify _).
  assert (Hslug : mem_char slug NUL = false) by apply slugify_no_nul.
  destruct r as [id|]; [|now rewrite mem_char_app, Hslug].
  destruct (nonempty id && negb (contains id slug))%bool eqn:Hb.
  - rewrite !mem_char_app, Hslug. simpl. now rewrite orb_false_r.
  - rewrite mem_char_app, Hslug. simpl.
    destruct (mem_char id NUL) eqn:Hm; [|reflexivity].
    apply andb_false_iff in Hb as [Hb|Hb].
    + destruct id; [discriminate Hm|discriminate Hb].
    + apply negb_false_iff in Hb.
      now rewrite (contains_mem id slug NUL Hb Hm) in Hslug.
Qed.

Lemma name_of_joinpath (dir : Path) (filename : string) :
  name_of (joinpath dir filename) = filename.
Proof. unfold name_of, joinpath. simpl. apply last_last. Qed.

End NameChars.

(* ===================================================================== *)
(** ** export_json.py: what makes a record fail *)
(* ===================================================================== *)

Section Failures.




End Failures.

(* ===================================================================== *)
(** ** export_json.py: the command-line entry point *)
(* ===================================================================== *)

Section Main.

Variable sys : System.
Variable resolve_relative : Path -> option Path.
Variable args : Args.

Lemma record_filename_after_parse (idx : nat) (entry : dict) (r : option string) :
  parse_zenodo_rec_id entry = Ok r ->
  record_filename idx entry = Ok (filename_of idx entry r).
Proof.
  intros Hp. unfold record_filename, filename_of. rewrite Hp. simpl.
  destruct r as [r|]; [|reflexivity].
  destruct (nonempty r && negb (contains r _))%bool; reflexivity.
Qed.

Lemma nonempty_project_id (base : string) (rel : Path) :
  nonempty (project_id base rel) = true.
Proof.
  unfold project_id. destruct (rstrip (mem_char "/") base); reflexivity.
Qed.

(** What one turn computes, for a record whose record id is extracted
    without an exception. *)
Lemma export_record_after_parse (idx : nat) (entry : dict) (r : option string) :
  parse_zenodo_rec_id entry = Ok r ->
  let filename := filename_of idx entry r in
  exists project,
    dataset_to_project entry (base_url args)
      (rel_for_id resolve_relative args filename) = Ok project
    /\ export_record resolve_relative args idx (JObj entry)
       = Ok (joinpath (out_dir args) filename, project,
             listed_id resolve_relative args filename).
Proof.
  intros Hp filename.
  destruct (dataset_to_project_returns entry (base_url args)
              (rel_for_id resolve_relative args filename) r Hp)
    as (lic & _ & Hd).
  eexists. split; [exact Hd|].
  unfold export_record. simpl.
  rewrite (record_filename_after_parse idx entry r Hp). simpl.
  fold filename. fold (rel_for_id resolve_relative args filename).
  rewrite Hd. simpl.
  pose proof (dataset_to_project_fields _ _ _ _ Hd) as (_ & _ & Hi).
  unfold dict_get. rewrite Hi. unfold listed_id.
  destruct (base_url args) as [base|]; [|reflexivity].
  simpl. destruct (nonempty base); [|reflexivity].
  now rewrite nonempty_project_id.
Qed.

(** One turn of the loop, for such a record: the write is refused by
    Python when the record id holds NUL, and is else up to the operating
    system. *)
Lemma export_turn_after_parse (idx : nat) (entry : dict) (r : option string) :
  parse_zenodo_rec_id entry = Ok r ->
  let filename := filename_of idx entry r in
  let file := joinpath (out_dir args) filename in
  exists project,
    dataset_to_project entry (base_url args)
      (rel_for_id resolve_relative args filename) = Ok project
    /\ export_turn sys resolve_relative args idx (JObj entry)
       = if match r with Some id => mem_char id NUL | None => false end
         then Raise ValueError
         else (_ <- sys (Write file (JsonFile (JObj project))) ;;
               Ok (file, project, listed_id resolve_relative args filename)).
Proof.
  intros Hp filename file.
  destruct (export_record_after_parse idx entry r Hp) as (project & Hd & He).
  exists project. split; [exact Hd|].
  unfold export_turn, write_file. rewrite He.
  fold filename. fold file. unfold file at 1.
  rewrite name_of_joinpath. unfold filename at 1. rewrite filename_nul.
  destruct (match r with Some id => mem_char id NUL | None => false end);
    reflexivity.
Qed.





Lemma writes_app (a b : list event) : writes (app a b) = app (writes a) (writes b).
Proof. unfold writes. apply flat_map_app. Qed.


Hypothesis carried_out : forall ev, sys ev = Ok tt.



End Main.

Section Exit.

Variable sys : System.
Variable resolve_relative : Path -> option Path.
Variable args : Args.



(** The outcome of a run on a non-empty catalogue, step by step. *)
Lemma main_on_records (data : json) :
  load_graph data <> [] ->
  main_on sys resolve_relative args data
  = match sys (Mkdir (out_dir args)) with
    | Raise e => ([], Raise e)
    | Ok _ =>
        match export_loop sys resolve_relative args 1 (load_graph data) []
                [Mkdir (out_dir args)] with
        | (log, Raise e) => (log, Raise e)
        | (log, Ok ids) =>
            let log := app log [wrote_message args (List.length (load_graph data))] in
            match sitemap args with
            | Some sitemap_path =>
                match sys (Mkdir (parent sitemap_path)) with
                | Raise e => (log, Raise e)
                | Ok _ =>
                    match sys (Write sitemap_path
                                 (TextFile (build_sitemap_xml ids))) with
                    | Raise e => (app log [Mkdir (parent sitemap_path)], Raise e)
                    | Ok _ => (app log (sitemap_events args ids), Ok 0%Z)
                    end
                end
            | None => (log, Ok 0%Z)
            end
        end
    end.
Proof.
  intros Hne. unfold main_on, sitemap_events, wrote_message.
  destruct (load_graph data) as [|e records] eqn:Hg; [congruence|].
  destruct (sys (Mkdir (out_dir args))); [|reflexivity].
  destruct (export_loop _ _ _ _ _ _ _) as [log [ids|err]]; [|reflexivity].
  destruct (sitemap args) as [sitemap_path|]; reflexivity.
Qed.


Hypothesis carried_out : forall ev, sys ev = Ok tt.



End Exit.




(* ===================================================================== *)
(** ** export_json.py: records that share a file name *)
(* ===================================================================== *)

Lemma path_eqb_refl (p : Path) : path_eqb p p = true.
Proof. unfold path_eqb. now rewrite Bool.eqb_reflx, String.eqb_refl. Qed.

Lemma filename_of_named (idx : nat) (entry : dict) :
  truthy (dict_get "name" entry) = true ->
  filename_of idx entry None = slugify (py_str (dict_get "name" entry)) ++ ".json".
Proof. intros H. unfold filename_of, py_or. now rewrite H. Qed.

Example two_titles_one_file :
  titled_record <> retitled_record
  /\ record_filename 1 titled_record = Ok "benthos-survey-2021.json"
  /\ record_filename 2 retitled_record = Ok "benthos-survey-2021.json".
Proof. repeat split; discriminate. Qed.

(** C10, as stated, fails on two records whose [name] is empty: the
    names have the same slug and no record id is extractable, yet the
    file names carry the positions of the records and differ. *)
Lemma empty_names_get_distinct_files :
  slugify (py_str (dict_get "name" unnamed_record))
  = slugify (py_str (dict_get "name" nameless_record))
  /\ parse_zenodo_rec_id unnamed_record = Ok None
  /\ parse_zenodo_rec_id nameless_record = Ok None
  /\ record_filename 1 unnamed_record = Ok "record-1.json"
  /\ record_filename 2 nameless_record = Ok "record-2.json"
  /\ record_filename 1 unnamed_record <> record_filename 2 nameless_record
  /\ map (fun w => as_posix (fst w))
       (writes (fst (main under_cwd sample_args
                       (JArr [JObj unnamed_record; JObj nameless_record]))))
     = [ "jsonFiles/zenodo/record-1.json"; "jsonFiles/zenodo/record-2.json";
         "sitemap.xml" ].
Proof. repeat split; discriminate. Qed.

(** C10 (amended): two records with non-empty names that have the same
    slug, and from which no record id is extractable, get the same file
    name whatever their positions; run on a catalogue of these two, the
    projector writes both projections to that one file, the later over
    the earlier, and with a non-empty base URL it lists the same [@id]
    twice in the sitemap. *)
Theorem same_slug_same_file (resolve_relative : Path -> option Path)
  (args : Args) (i j : nat) (e1 e2 : dict) :
  parse_zenodo_rec_id e1 = Ok None ->
  parse_zenodo_rec_id e2 = Ok None ->
  truthy (dict_get "name" e1) = true ->
  truthy (dict_get "name" e2) = true ->
  slugify (py_str (dict_get "name" e1)) = slugify (py_str (dict_get "name" e2)) ->
  let filename := slugify (py_str (dict_get "name" e1)) ++ ".json" in
  let file := joinpath (out_dir args) filename in
  let rel := rel_for_id resolve_relative args filename in
  record_filename i e1 = Ok filename
  /\ record_filename j e2 = Ok filename
  /\ exists proj1 proj2 ids,
       dataset_to_project e1 (base_url args) rel = Ok proj1
       /\ dataset_to_project e2 (base_url args) rel = Ok proj2
       /\ main resolve_relative args (JArr [JObj e1; JObj e2])
          = (Mkdir (out_dir args)
               :: Write file (JsonFile (JObj proj1))
               :: Write file (JsonFile (JObj proj2))
               :: wrote_message args 2
               :: sitemap_events args ids,
             Ok 0%Z)
       /\ file_after [ Write file (JsonFile (JObj proj1));
                       Write file (JsonFile (JObj proj2)) ] file
          = Some (JsonFile (JObj proj2))
       /\ (forall base, base_url args = Some base -> nonempty base = true ->
             ids = [project_id base rel; project_id base rel]
             /\ count_at "<url>" (build_sitemap_xml ids) = 2).
Proof.
  intros Hp1 Hp2 Hn1 Hn2 Hslug filename file rel.
  assert (Hf1 : forall idx, filename_of idx e1 None = filename)
    by (intros idx; now apply filename_of_named).
  assert (Hf2 : forall idx, filename_of idx e2 None = filename)
    by (intros idx; unfold filename; rewrite Hslug; now apply filename_of_named).
  split; [now rewrite (record_filename_after_parse i e1 None Hp1), Hf1|].
  split; [now rewrite (record_filename_after_parse j e2 None Hp2), Hf2|].
  destruct (export_turn_after_parse willing resolve_relative args 1 e1 None Hp1)
    as (proj1 & Hd1 & He1).
  destruct (export_turn_after_parse willing resolve_relative args 2 e2 None Hp2)
    as (proj2 & Hd2 & He2).
  cbv beta iota delta [bind] in He1, He2.
  change (willing (Write ?f ?c)) with (@Ok unit tt) in He1, He2.
  cbv beta iota in He1, He2.
  rewrite Hf1 in Hd1, He1. rewrite Hf2 in Hd2, He2.
  exists proj1, proj2.
  exists (match listed_id resolve_relative args filename with
          | Some id => [id; id]
          | None => []
          end).
  split; [exact Hd1|]. split; [exact Hd2|]. split; [|split].
  - unfold main, main_on.
    change (load_graph (JArr [JObj e1; JObj e2])) with [JObj e1; JObj e2].
    cbv beta iota zeta. change (willing (Mkdir (out_dir args))) with (@Ok unit tt).
    cbv beta iota. unfold export_loop. rewrite He1, He2. simpl.
    unfold sitemap_events, wrote_message. fold file.
    destruct (listed_id resolve_relative args filename);
      destruct (sitemap args); reflexivity.
  - simpl. now rewrite path_eqb_refl.
  - intros base Hb Hne. unfold listed_id. rewrite Hb, Hne. fold rel.
    split; [reflexivity|].
    rewrite count_sitemap_urls. simpl. now rewrite nonempty_project_id.
Qed.

Lemma same_slug_same_file_witness :
  record_filename 1 titled_record = Ok "benthos-survey-2021.json"
  /\ record_filename 2 retitled_record = Ok "benthos-survey-2021.json".
Proof.
  pose proof (same_slug_same_file under_cwd sample_args 1 2
                titled_record retitled_record
                eq_refl eq_refl eq_refl eq_refl eq_refl) as H.
  destruct H as (H1 & H2 & _). split; [exact H1|exact H2].
Defined.

(* ===================================================================== *)
(** ** metadata-cat.py: the record lister *)
(* ===================================================================== *)

Import MetadataCat HarvestSpec.

Section Lister.

Variable w : World.
Variable community : string.
Variable size : Z.

(** Only hits with a non-null id are collected. *)
Lemma collect_hits_spec (items all_hits all_hits' : list json) :
  collect_hits items all_hits = Ok all_hits' ->
  all_hits' = app all_hits (flat_map hit_summary items).
Proof.
  revert all_hits. induction items as [|h items IH]; intros all_hits H; simpl in *.
  - injection H as <-. now rewrite app_nil_r.
  - destruct h as [| | | | |fields]; try discriminate. simpl in *.
    destruct (dict_get "id" fields); apply IH in H; subst all_hits';
      simpl; rewrite <- ?app_assoc; reflexivity.
Qed.

(** The three tests that end the loop, in the order of the code. *)
Lemma page_step_tests (max_pages : option Z) (page : Z) (all_hits : list json)
  (r : Response) (data hits_obj : dict) (items all_hits' : list json) :
  search w community size page = Ok r ->
  raise_for_status r = Ok tt ->
  json_body r = Some (JObj data) ->
  dict_get_default "hits" (JObj []) data = JObj hits_obj ->
  py_iter (dict_get_default "hits" (JArr []) hits_obj) = Ok items ->
  collect_hits items all_hits = Ok all_hits' ->
  page_step w community size max_pages page all_hits
  = if negb (truthy (dict_get_default "hits" (JArr []) hits_obj))
    then Ok (Break all_hits')
    else if match max_pages with Some m => Z.leb m page | None => false end
    then Ok (Break all_hits')
    else
      enough <- len_ge (List.length all_hits')
                  (dict_get_default "total" (JNum 0) hits_obj) ;;
      if enough then Ok (Break all_hits') else Ok (Continue (page + 1) all_hits').
Proof.
  intros Hs Hr Hj Hh Hi Hc. unfold page_step, json_of.
  rewrite Hs. simpl. rewrite Hr. simpl. rewrite Hj. simpl. rewrite Hh. simpl.
  rewrite Hi. simpl. rewrite Hc. reflexivity.
Qed.

(** A turn that does not raise ends or continues with the hits collected
    so far and those of the page. *)
Lemma page_step_inv (max_pages : option Z) (page : Z) (all_hits : list json)
  (step : loop_step) :
  page_step w community size max_pages page all_hits = Ok step ->
  exists items,
    let all_hits' := app all_hits (flat_map hit_summary items) in
    step = Break all_hits' \/ step = Continue (page + 1) all_hits'.
Proof.
  unfold page_step.
  destruct (search w community size page) as [r|]; simpl; [|discriminate].
  destruct (raise_for_status r); simpl; [|discriminate].
  destruct (json_of r) as [data|]; simpl; [|discriminate].
  destruct (as_dict data) as [fields|]; simpl; [|discriminate].
  destruct (as_dict (dict_get_default "hits" (JObj []) fields)) as [hits_obj|];
    simpl; [|discriminate].
  destruct (py_iter _) as [items|]; simpl; [|discriminate].
  destruct (collect_hits items all_hits) as [collected|] eqn:Hc; simpl;
    [|discriminate].
  apply collect_hits_spec in Hc. subst collected. intros H. exists items.
  destruct (negb _); [injection H as <-; auto|].
  destruct (match max_pages with Some m => Z.leb m page | None => false end);
    [injection H as <-; auto|].
  destruct (len_ge _ _) as [[|]|]; simpl in H; try discriminate;
    injection H as <-; auto.
Qed.

Lemma page_step_continue (max_pages : option Z) (page page' : Z)
  (all_hits all_hits' : list json) :
  page_step w community size max_pages page all_hits = Ok (Continue page' all_hits') ->
  page' = (page + 1)%Z.
Proof.
  intros H. apply page_step_inv in H as (items & [H|H]); [discriminate|].
  now injection H.
Qed.

Lemma hit_summary_listed (h : json) : Forall listed_hit (hit_summary h).
Proof.
  destruct h as [| | | | |fields]; simpl; try constructor.
  destruct (dict_get "id" fields) eqn:E; repeat constructor;
    eexists; eexists; (split; [reflexivity|discriminate]).
Qed.

Lemma flat_map_summary_listed (items : list json) :
  Forall listed_hit (flat_map hit_summary items).
Proof.
  induction items as [|h items IH]; simpl; [constructor|].
  apply Forall_app. split; [apply hit_summary_listed|exact IH].
Qed.

(** Every hit the lister returns is an object with a non-null [id] and a
    [metadata] field. *)
Lemma page_loop_listed (max_pages : option Z) (fuel : nat) :
  forall page all_hits hits,
    Forall listed_hit all_hits ->
    page_loop fuel w community size max_pages page all_hits = Some (Ok hits) ->
    Forall listed_hit hits.
Proof.
  induction fuel as [|fuel IH]; intros page all_hits hits Hall; [discriminate|].
  simpl. destruct (page_step _ _ _ _ page all_hits) as [step|e] eqn:E;
    [|discriminate].
  apply page_step_inv in E as (items & [->| ->]).
  - intros H. injection H as <-.
    apply Forall_app. split; [exact Hall|apply flat_map_summary_listed].
  - apply IH. apply Forall_app. split; [exact Hall|apply flat_map_summary_listed].
Qed.

(** More requests do not change the outcome of a loop that has ended. *)
Lemma page_loop_more_fuel (max_pages : option Z) (fuel extra : nat) :
  forall page all_hits r,
    page_loop fuel w community size max_pages page all_hits = Some r ->
    page_loop (fuel + extra) w community size max_pages page all_hits = Some r.
Proof.
  induction fuel as [|fuel IH]; intros page all_hits r; [discriminate|].
  simpl. destruct (page_step _ _ _ _ page all_hits) as [[hits|page' hits]|e];
    auto.
Qed.

(** The loop ends within [n + 1] requests when it cannot go past the
    page that is [n] pages ahead. *)
Lemma page_loop_bounded (max_pages : option Z) (n : nat) :
  forall page all_hits,
    stops_at w community size max_pages (page + Z.of_nat n) ->
    exists r, page_loop (S n) w community size max_pages page all_hits = Some r.
Proof.
  induction n as [|n IH]; intros page all_hits Hstop.
  - simpl. destruct (page_step _ _ _ _ page all_hits) as [[hits|page' hits]|e] eqn:E;
      eauto.
    exfalso. apply (Hstop all_hits page' hits).
    replace (page + Z.of_nat 0)%Z with page by lia. exact E.
  - change (page_loop (S (S n)) w community size max_pages page all_hits)
      with (match page_step w community size max_pages page all_hits with
            | Raise e => Some (Raise e)
            | Ok (Break hits) => Some (Ok hits)
            | Ok (Continue page' hits') =>
                page_loop (S n) w community size max_pages page' hits'
            end).
    destruct (page_step _ _ _ _ page all_hits) as [[hits|page' hits]|e] eqn:E;
      eauto.
    apply page_step_continue in E. subst page'.
    apply IH. replace (page + 1 + Z.of_nat n)%Z with (page + Z.of_nat (S n))%Z by lia.
    exact Hstop.
Qed.

Lemma limit_stops (m p : Z) :
  (m <= p)%Z -> stops_at w community size (Some m) p.
Proof.
  intros Hm all_hits page' all_hits'. unfold page_step.
  destruct (search w community size p) as [r|]; simpl; [|discriminate].
  destruct (raise_for_status r); simpl; [|discriminate].
  destruct (json_of r) as [data|]; simpl; [|discriminate].
  destruct (as_dict data) as [fields|]; simpl; [|discriminate].
  destruct (as_dict (dict_get_default "hits" (JObj []) fields)) as [hits_obj|];
    simpl; [|discriminate].
  destruct (py_iter _) as [items|]; simpl; [|discriminate].
  destruct (collect_hits items all_hits) as [collected|]; simpl; [|discriminate].
  destruct (negb _); [discriminate|].
  apply Z.leb_le in Hm. rewrite Hm. discriminate.
Qed.

Lemma zero_hits_stops (max_pages : option Z) (p : Z) :
  zero_hits w community size p -> stops_at w community size max_pages p.
Proof.
  intros (r & data & hits_obj & Hs & Hj & Hh & Ht) all_hits page' all_hits'.
  unfold page_step, json_of. rewrite Hs. simpl.
  destruct (raise_for_status r); simpl; [|discriminate].
  rewrite Hj. simpl. rewrite Hh. simpl.
  destruct (py_iter _) as [items|]; simpl; [|discriminate].
  destruct (collect_hits items all_hits) as [collected|]; simpl; [|discriminate].
  rewrite Ht. discriminate.
Qed.

End Lister.

(** With [idless_world] and no page limit the loop never ends. *)
Lemma idless_loop_runs (fuel : nat) :
  forall page,
    page_loop fuel idless_world "bioecoocean" 25 None page [] = None.
Proof.
  induction fuel as [|fuel IH]; intros page; [reflexivity|].
  change (page_loop (S fuel) idless_world "bioecoocean" 25 None page [])
    with (page_loop fuel idless_world "bioecoocean" 25 None (page + 1) []).
  apply IH.
Qed.

(** C6, as stated, fails for a search service whose pages each hold one
    hit with a null id and report a total of one: no page is empty, no
    hit is collected, and without a page limit no number of requests ends
    the loop. *)
Lemma lister_runs_forever_on_idless_hits :
  ~ exists fuel,
      list_community_records fuel idless_world "bioecoocean" 25 None <> None.
Proof.
  intros [fuel H]. apply H. apply idless_loop_runs.
Qed.

(** C6 (amended): one turn of the loop collects the hits of the page that
    have a non-null id and then stops if the page has zero hits, else if
    the page limit is reached, else if the count of collected hits has
    reached the total the page reports; so the loop ends within
    [max 1 m] requests under a page limit [m], and within [p] requests
    when page [p] has zero hits. *)
Theorem lister_stops (w : World) (community : string) (size : Z) :
  (forall max_pages page all_hits r data hits_obj items all_hits',
     search w community size page = Ok r ->
     raise_for_status r = Ok tt ->
     json_body r = Some (JObj data) ->
     dict_get_default "hits" (JObj []) data = JObj hits_obj ->
     py_iter (dict_get_default "hits" (JArr []) hits_obj) = Ok items ->
     collect_hits items all_hits = Ok all_hits' ->
     all_hits' = app all_hits (flat_map hit_summary items)
     /\ page_step w community size max_pages page all_hits
        = if negb (truthy (dict_get_default "hits" (JArr []) hits_obj))
          then Ok (Break all_hits')
          else if match max_pages with Some m => Z.leb m page | None => false end
          then Ok (Break all_hits')
          else
            enough <- len_ge (List.length all_hits')
                        (dict_get_default "total" (JNum 0) hits_obj) ;;
            if enough then Ok (Break all_hits')
            else Ok (Continue (page + 1) all_hits'))
  /\ (forall m, exists r,
        list_community_records (Z.to_nat (Z.max 1 m)) w community size (Some m)
        = Some r)
  /\ (forall max_pages p,
        (1 <= p)%Z -> zero_hits w community size p ->
        exists r,
          list_community_records (Z.to_nat p) w community size max_pages = Some r).
Proof.
  split; [|split].
  - intros max_pages page all_hits r data hits_obj items all_hits' Hs Hr Hj Hh Hi Hc.
    split; [now apply collect_hits_spec|].
    now apply (page_step_tests w community size max_pages page all_hits r data hits_obj items).
  - intros m. unfold list_community_records.
    replace (Z.to_nat (Z.max 1 m)) with (S (Z.to_nat (Z.max 1 m - 1))) by lia.
    apply page_loop_bounded, limit_stops. lia.
  - intros max_pages p Hp Hz. unfold list_community_records.
    replace (Z.to_nat p) with (S (Z.to_nat (p - 1))) by lia.
    apply page_loop_bounded.
    replace (1 + Z.of_nat (Z.to_nat (p - 1)))%Z with p by lia.
    now apply zero_hits_stops.
Qed.

Lemma lister_stops_witness :
  (exists r, list_community_records 2 sample_world "bioecoocean" 25 None = Some r)
  /\ exists first second,
       page_step sample_world "bioecoocean" 25 None 1 []
       = Ok (Continue 2 [first; second]).
Proof.
  destruct (lister_stops sample_world "bioecoocean" 25) as (Hstep & _ & Hzero).
  split.
  - apply (Hzero None 2%Z).
    + lia.
    + eexists. eexists. eexists. repeat split.
  - edestruct (Hstep None 1%Z []) as [_ H];
      [reflexivity|reflexivity|reflexivity|reflexivity|reflexivity|reflexivity|].
    eexists. eexists. exact H.
Defined.

(* ===================================================================== *)
(** ** metadata-cat.py: the catalogue builder *)
(* ===================================================================== *)

Import CatalogueSpec.

Section Builder.

Variable parsedate_iso : string -> option string.
Variable w : World.

Lemma catalogue_entry_kept (hit : dict) (rec_id : json) (fields : dict) :
  lookup "id" hit = Some rec_id ->
  fetch_record_jsonld w rec_id = Ok (Some (JObj fields)) ->
  catalogue_entry w (JObj hit)
  = if truthy (dict_get "@type" fields) then Ok (JObj fields)
    else stub_for rec_id hit.
Proof.
  intros Hid Hf. unfold catalogue_entry, stub_for. simpl.
  rewrite Hid. simpl. rewrite Hf. reflexivity.
Qed.

Lemma catalogue_entry_absent (hit : dict) (rec_id : json) :
  lookup "id" hit = Some rec_id ->
  fetch_record_jsonld w rec_id = Ok None ->
  catalogue_entry w (JObj hit) = stub_for rec_id hit.
Proof.
  intros Hid Hf. unfold catalogue_entry, stub_for. simpl.
  rewrite Hid. simpl. rewrite Hf. reflexivity.
Qed.

Lemma catalogue_loop_map (hits catalogue : list json) :
  catalogue_loop w hits catalogue
  = (entries <- map_result (catalogue_entry w) hits ;;
     Ok (app catalogue entries)).
Proof.
  revert catalogue. induction hits as [|hit hits IH]; intros catalogue; simpl.
  - now rewrite app_nil_r.
  - destruct (catalogue_entry w hit) as [entry|e]; simpl; [|reflexivity].
    rewrite IH. destruct (map_result (catalogue_entry w) hits); simpl;
      [|reflexivity].
    now rewrite <- app_assoc.
Qed.

Lemma build_catalogue_after_listing (fuel : nat) (community : string)
  (max_pages : option Z) (hits : list json) :
  list_community_records fuel w community 25 max_pages = Some (Ok hits) ->
  build_catalogue parsedate_iso fuel w community max_pages
  = Some (entries <- map_result (catalogue_entry w) hits ;;
          if String.eqb community DEFAULT_COMMUNITY
          then (obis_datasets <- harvest_obis_rss parsedate_iso w OBIS_IPT_RSS ;;
                Ok (app entries obis_datasets))
          else Ok entries).
Proof.
  intros Hl. unfold build_catalogue. rewrite Hl. f_equal. simpl.
  rewrite catalogue_loop_map.
  destruct (map_result (catalogue_entry w) hits) as [entries|e]; simpl;
    [|reflexivity].
  destruct (String.eqb community DEFAULT_COMMUNITY); [|reflexivity].
  destruct (harvest_obis_rss parsedate_iso w OBIS_IPT_RSS) as [[|d ds]|e]; simpl;
    try reflexivity.
  now rewrite app_nil_r.
Qed.

End Builder.

(** The detail fetch never returns the JSON value null: it returns
    nothing instead. *)
Lemma fetch_record_jsonld_cases (w : World) (record_id : json) :
  fetch_record_jsonld w record_id
  = match http_get w (EXPORT_TEMPLATE record_id) with
    | Ok r => Ok (if Z.eqb (status_code r) 200 then json_or_none r else None)
    | Raise e => Raise e
    end.
Proof.
  unfold fetch_record_jsonld.
  destruct (http_get w (EXPORT_TEMPLATE record_id)) as [r|e]; [|reflexivity].
  simpl. destruct (Z.eqb (status_code r) 200); simpl; [|reflexivity].
  match goal with |- (if ?b then _ else _) = _ => destruct b end; reflexivity.
Qed.

Lemma fetch_record_jsonld_not_null (w : World) (record_id : json) :
  fetch_record_jsonld w record_id <> Ok (Some JNull).
Proof.
  rewrite fetch_record_jsonld_cases.
  destruct (http_get w (EXPORT_TEMPLATE record_id)) as [r|e]; [|discriminate].
  destruct (Z.eqb (status_code r) 200); [|discriminate].
  unfold json_or_none. destruct (json_body r) as [[| | | | |]|]; discriminate.
Qed.

(** What the builder appends for a hit, for every outcome of the detail
    fetch. *)
Lemma catalogue_entry_cases (w : World) (hit : dict) (rec_id : json) :
  lookup "id" hit = Some rec_id ->
  catalogue_entry w (JObj hit)
  = match fetch_record_jsonld w rec_id with
    | Ok (Some (JObj fields)) =>
        if truthy (dict_get "@type" fields) then Ok (JObj fields)
        else stub_for rec_id hit
    | Ok (Some JNull) | Ok None => stub_for rec_id hit
    | Ok (Some _) => Raise AttributeError
    | Raise e => Raise e
    end.
Proof.
  intros Hid. unfold catalogue_entry, stub_for. simpl. rewrite Hid. simpl.
  destruct (fetch_record_jsonld w rec_id) as [[[| | | | |fields]|]|e]; reflexivity.
Qed.




(** The projector reads back the records the harvester wrote. *)
Lemma load_graph_catalogue_document (catalogue : list json) :
  load_graph (catalogue_document catalogue) = catalogue.
Proof. reflexivity. Qed.

(* ===================================================================== *)
(** ** metadata-cat.py: the link key of a catalogue record *)
(* ===================================================================== *)

Section LinkKey.

Lemma lookup_copy_if_truthy (k src dst : string) (metadata stub : dict) :
  String.eqb dst k = false ->
  lookup k (copy_if_truthy src dst metadata stub) = lookup k stub.
Proof.
  intros Hk. unfold copy_if_truthy.
  destruct (truthy (dict_get src metadata)); [|reflexivity].
  now rewrite lookup_dict_set, Hk.
Qed.

(** The stub always carries the record page as [url] and as [@id]. *)
Lemma stub_link_key (rec_id metadata : json) (stub : dict) :
  _metadata_to_schema_stub rec_id metadata = Ok stub ->
  lookup "url" stub = Some (JStr (record_page rec_id))
  /\ lookup "@id" stub = Some (JStr (record_page rec_id)).
Proof.
  unfold _metadata_to_schema_stub.
  destruct (as_dict metadata) as [fields|]; simpl; [|discriminate].
  match goal with
  | |- context [bind ?c _] => destruct c as [staged|] eqn:Hc; simpl; [|discriminate]
  end.
  intros H. injection H as <-.
  assert (Hs : lookup "url" staged = Some (JStr (record_page rec_id))
               /\ lookup "@id" staged = Some (JStr (record_page rec_id))).
  { destruct (truthy (dict_get "creators" fields)).
    - destruct (py_iter _) as [creators|]; simpl in Hc; [|discriminate].
      destruct (creator_objects creators) as [people|]; simpl in Hc; [|discriminate].
      injection Hc as <-.
      split; rewrite lookup_dict_set, !lookup_copy_if_truthy by reflexivity;
        reflexivity.
    - injection Hc as <-.
      split; rewrite !lookup_copy_if_truthy by reflexivity; reflexivity. }
  split; rewrite !lookup_copy_if_truthy by reflexivity; apply Hs.
Qed.

Lemma nonempty_record_page (rec_id : json) : nonempty (record_page rec_id) = true.
Proof. reflexivity. Qed.

Variable parsedate_iso : string -> option string.

(** A feed item's dataset has the link as [url], else the EML address,
    else the empty string, and never an [@id]. *)
Lemma item_to_dataset_url (item : element) (dataset : dict) :
  item_to_dataset parsedate_iso item = Ok dataset ->
  lookup "url" dataset
  = Some (JStr (if nonempty (item_link item) then item_link item
                else item_eml item))
  /\ lookup "@id" dataset = None.
Proof.
  unfold item_to_dataset, item_link, item_eml.
  destruct (find "description" item) as [desc_el|]; simpl; [|discriminate].
  intros H. injection H as <-.
  set (link := stripped_text (find "link" item)).
  set (eml_el := find (ipt_tag "eml") item).
  assert (Heml : has_text eml_el = false -> stripped_text eml_el = EmptyString).
  { unfold has_text, stripped_text. destruct eml_el as [e|]; [|reflexivity].
    destruct (text_of e) as [[|c t]|]; simpl; [reflexivity|discriminate|reflexivity]. }
  assert (Hurl : (if nonempty link then link
                  else if truthy_opt (if has_text eml_el then Some (stripped_text eml_el)
                                      else if nonempty link then Some link else None)
                       then match (if has_text eml_el then Some (stripped_text eml_el)
                                   else if nonempty link then Some link else None) with
                            | Some v => v
                            | None => EmptyString
                            end
                       else EmptyString)
                 = (if nonempty link then link else stripped_text eml_el)).
  { destruct (nonempty link) eqn:Hl; [reflexivity|].
    destruct (has_text eml_el) eqn:Hh; [|now rewrite Heml].
    simpl. destruct (stripped_text eml_el); reflexivity. }
  rewrite <- Hurl. clear Hurl Heml.
  repeat match goal with
         | |- context [lookup _ (dict_set _ _ _)] => rewrite lookup_dict_set
         | |- context [lookup _ (match ?x with _ => _ end)] => destruct x
         end;
    split; reflexivity.
Qed.

End LinkKey.

Example kept_export_without_link_key :
  exists kept rest,
    build_catalogue no_date_parser 2 sample_world "other-community" None
    = Some (Ok (kept :: rest))
    /\ has_link_key kept = false.
Proof. eexists. eexists. split; reflexivity. Qed.

(** C7, as stated, fails for the dataset mapped from a feed item that has
    neither a link nor an EML element: its [url] is the empty string and
    it has no [@id]. *)
Lemma bare_feed_item_has_no_link_key :
  find "link" bare_item = None
  /\ find (ipt_tag "eml") bare_item = None
  /\ exists dataset rest,
       harvest_obis_rss no_date_parser sample_world OBIS_IPT_RSS
       = Ok (JObj dataset :: rest)
       /\ item_to_dataset no_date_parser bare_item = Ok dataset
       /\ lookup "url" dataset = Some (JStr EmptyString)
       /\ lookup "@id" dataset = None
       /\ has_link_key (JObj dataset) = false.
Proof.
  split; [reflexivity|]. split; [reflexivity|].
  eexists. eexists. repeat split.
Qed.

(** C7 (amended): a synthesized stub always has the record page as its
    [url] and [@id]; a dataset mapped from a feed item has no [@id], and
    its [url] is the item's link, else its EML address, so it is non-empty
    exactly when the item has one of the two; an export kept by the
    builder is passed on unchanged, with whatever [url] or [@id] it
    carries. *)
Theorem link_key_by_producer :
  (forall rec_id metadata stub,
     _metadata_to_schema_stub rec_id metadata = Ok stub ->
     lookup "url" stub = Some (JStr (record_page rec_id))
     /\ lookup "@id" stub = Some (JStr (record_page rec_id))
     /\ has_link_key (JObj stub) = true)
  /\ (forall parsedate_iso item dataset,
        item_to_dataset parsedate_iso item = Ok dataset ->
        lookup "url" dataset
        = Some (JStr (if nonempty (item_link item) then item_link item
                      else item_eml item))
        /\ lookup "@id" dataset = None
        /\ has_link_key (JObj dataset)
           = (nonempty (item_link item) || nonempty (item_eml item))%bool)
  /\ (forall w hit rec_id fields,
        lookup "id" hit = Some rec_id ->
        fetch_record_jsonld w rec_id = Ok (Some (JObj fields)) ->
        truthy (dict_get "@type" fields) = true ->
        catalogue_entry w (JObj hit) = Ok (JObj fields)).
Proof.
  split; [|split].
  - intros rec_id metadata stub H.
    destruct (stub_link_key _ _ _ H) as [Hu Hi].
    split; [exact Hu|]. split; [exact Hi|].
    unfold has_link_key, dict_get. rewrite Hu. reflexivity.
  - intros parsedate_iso item dataset H.
    destruct (item_to_dataset_url parsedate_iso _ _ H) as [Hu Hi].
    split; [exact Hu|]. split; [exact Hi|].
    unfold has_link_key, dict_get. rewrite Hu, Hi. simpl.
    rewrite orb_false_r.
    destruct (nonempty (item_link item)) eqn:Hl; [exact Hl|reflexivity].
  - intros w hit rec_id fields Hid Hf Ht.
    rewrite (catalogue_entry_kept w hit rec_id fields Hid Hf), Ht. reflexivity.
Qed.

Lemma link_key_by_producer_witness :
  (exists stub,
     _metadata_to_schema_stub (JNum 12) (JObj [("title", JStr "Benthos")]) = Ok stub
     /\ has_link_key (JObj stub) = true)
  /\ (exists dataset,
        item_to_dataset no_date_parser linked_item = Ok dataset
        /\ has_link_key (JObj dataset) = true)
  /\ (exists kept,
        catalogue_entry sample_world
          (JObj [("id", JNum 11); ("metadata", JObj [])]) = Ok kept
        /\ has_link_key kept = false).
Proof.
  destruct link_key_by_producer as (Hstub & Hitem & Hkept).
  split; [|split].
  - eexists. split; [reflexivity|].
    apply (Hstub (JNum 12) (JObj [("title", JStr "Benthos")])). reflexivity.
  - eexists. split; [reflexivity|].
    edestruct (Hitem no_date_parser linked_item) as (_ & _ & H); [reflexivity|].
    rewrite H. reflexivity.
  - eexists. split.
    + apply (Hkept sample_world [("id", JNum 11); ("metadata", JObj [])] (JNum 11));
        reflexivity.
    + reflexivity.
Defined.

(* ===================================================================== *)
(** ** export_json.py: the record id and the file name *)
(* ===================================================================== *)

Import FieldSpec.

Section RecordId.

Lemma split_before_char (x : ascii) (s : string) :
  all_chars (not_char x) (split_before (String x EmptyString) s) = true
  /\ exists rest,
       s = split_before (String x EmptyString) s ++ rest
       /\ (rest = EmptyString \/ exists rest', rest = String x rest').
Proof.
  induction s as [|c s (IHa & rest & IHs & IHr)].
  - split; [reflexivity|]. exists EmptyString. auto.
  - unfold split_before. fold split_before.
    change (startswith (String x EmptyString) (String c s))
      with (Ascii.eqb x c && true)%bool.
    rewrite andb_true_r. destruct (Ascii.eqb x c) eqn:E.
    + apply Ascii.eqb_eq in E. subst c. split; [reflexivity|].
      exists (String x s). split; [reflexivity|]. right. eauto.
    + split.
      * simpl. unfold not_char at 1. rewrite Ascii.eqb_sym, E. simpl. exact IHa.
      * exists rest. split; [|exact IHr]. simpl. now rewrite <- IHs.
Qed.

Lemma all_chars_and (p q : ascii -> bool) (s : string) :
  all_chars p s = true -> all_chars q s = true ->
  all_chars (fun c => (p c && q c)%bool) s = true.
Proof.
  induction s as [|c s IH]; simpl; [auto|].
  intros Hp Hq. apply andb_true_iff in Hp as [Hc Hs].
  apply andb_true_iff in Hq as [Hc' Hs']. now rewrite Hc, Hc', IH.
Qed.

(** The record id is the text between the marker and the next slash or
    question mark. *)
Lemma rec_id_of_tail (tail : string) :
  let rec_id := split_before "?" (split_before "/" tail) in
  all_chars id_char rec_id = true
  /\ exists rest,
       tail = rec_id ++ rest
       /\ (rest = EmptyString
           \/ exists c rest', rest = String c rest' /\ id_char c = false).
Proof.
  intros rec_id.
  destruct (split_before_char "/" tail) as (Ha & r1 & Hs1 & Hr1).
  destruct (split_before_char "?" (split_before "/" tail)) as (Hb & r2 & Hs2 & Hr2).
  fold rec_id in Hb, Hs2. split.
  - assert (Hslash : all_chars (not_char "/") rec_id = true).
    { rewrite Hs2, all_chars_app in Ha. now apply andb_true_iff in Ha as [Ha _]. }
    apply (all_chars_and _ _ _ Hslash Hb).
  - exists (r2 ++ r1). split.
    + rewrite <- append_assoc, <- Hs2. exact Hs1.
    + destruct Hr2 as [->|(r2' & ->)].
      * destruct Hr1 as [->|(r1' & ->)]; [auto|]. right.
        exists "/"%char, r1'. split; reflexivity.
      * right. exists "?"%char, (r2' ++ r1). split; reflexivity.
Qed.

End RecordId.

(** An extracted record id and the url it comes from. *)
Lemma rec_id_shape (entry : dict) (r : string) :
  parse_zenodo_rec_id entry = Ok (Some r) ->
  r <> EmptyString
  /\ all_chars id_char r = true
  /\ exists url rest,
       entry_url entry = JStr url
       /\ url = split_before marker url ++ marker ++ r ++ rest
       /\ (rest = EmptyString
           \/ exists c rest', rest = String c rest' /\ id_char c = false).
Proof.
  unfold parse_zenodo_rec_id. intros H.
  destruct (entry_url entry) as [| | |url|items|fields]; simpl in H;
    try discriminate.
  - destruct (contains marker url); [|discriminate].
    destruct (split_after marker url) as [tail|] eqn:Hs; [|discriminate].
    destruct (rec_id_of_tail tail) as (Ha & rest & Ht & Hr).
    destruct (split_before "?" (split_before "/" tail)) eqn:Hid; [discriminate|].
    injection H as <-. split; [discriminate|]. split; [exact Ha|].
    exists url, rest. split; [reflexivity|]. split; [|exact Hr].
    rewrite <- Ht. now apply split_after_spec.
  - destruct (existsb _ items); discriminate.
  - destruct (dict_has _ fields); discriminate.
Qed.

(** X1: when a record id is extracted, the record's url is text of the
    form [pre ++ "zenodo.org/record/" ++ id ++ rest], the id is not empty
    and holds neither a slash nor a question mark, and [rest] is empty or
    starts with one of the two; a text url never makes the extraction
    raise and gives no id when it lacks the marker; a url that is a number
    or a boolean raises TypeError. *)
Theorem parse_zenodo_rec_id_shape (entry : dict) :
  (forall r,
     parse_zenodo_rec_id entry = Ok (Some r) ->
     r <> EmptyString
     /\ all_chars id_char r = true
     /\ exists url rest,
          entry_url entry = JStr url
          /\ url = split_before marker url ++ marker ++ r ++ rest
          /\ (rest = EmptyString
              \/ exists c rest', rest = String c rest' /\ id_char c = false))
  /\ (forall url,
        entry_url entry = JStr url -> contains marker url = false ->
        parse_zenodo_rec_id entry = Ok None)
  /\ (forall url,
        entry_url entry = JStr url ->
        exists r, parse_zenodo_rec_id entry = Ok r)
  /\ ((exists z, entry_url entry = JNum z) \/ (exists b, entry_url entry = JBool b) ->
      parse_zenodo_rec_id entry = Raise TypeError).
Proof.
  split; [apply rec_id_shape|]. unfold parse_zenodo_rec_id. repeat split.
  - intros url -> Hc. simpl. now rewrite Hc.
  - intros url Hu. now apply (parse_zenodo_rec_id_text entry url).
  - intros [[z ->]|[b ->]]; reflexivity.
Qed.

Lemma parse_zenodo_rec_id_shape_witness :
  parse_zenodo_rec_id [("url", JStr "https://zenodo.org/record/456?x=1")]
  = Ok (Some "456")
  /\ all_chars id_char "456" = true
  /\ parse_zenodo_rec_id obis_record = Ok None
  /\ parse_zenodo_rec_id [("url", JNum 5)] = Raise TypeError.
Proof.
  destruct (parse_zenodo_rec_id_shape [("url", JStr "https://zenodo.org/record/456?x=1")])
    as (Hshape & _).
  destruct (Hshape "456" eq_refl) as (_ & Hchars & _).
  destruct (parse_zenodo_rec_id_shape obis_record) as (_ & Hnone & _).
  destruct (parse_zenodo_rec_id_shape [("url", JNum 5)]) as (_ & _ & _ & Hraise).
  split; [reflexivity|]. split; [exact Hchars|]. split.
  - eapply Hnone; reflexivity.
  - apply Hraise. left. eexists. reflexivity.
Defined.

Section FileName.

Lemma startswith_append (p s t : string) :
  startswith p s = true -> startswith p (s ++ t) = true.
Proof.
  revert s. induction p as [|a p IH]; intros s H; [reflexivity|].
  destruct s as [|b s]; [discriminate|]. simpl in *.
  apply andb_true_iff in H as [Hab Hp]. now rewrite Hab, IH.
Qed.

Lemma contains_append (p s t : string) :
  contains p s = true -> contains p (s ++ t) = true.
Proof.
  induction s as [|c s IH]; intros H.
  - apply contains_empty in H. subst p. destruct t; reflexivity.
  - unfold contains in H. fold contains in H.
    change (String c s ++ t) with (String c (s ++ t)).
    unfold contains. fold contains.
    apply orb_true_iff in H as [H|H].
    + pose proof (startswith_append _ _ t H) as H'.
      change (String c s ++ t) with (String c (s ++ t)) in H'. now rewrite H'.
    + rewrite (IH H). apply orb_true_r.
Qed.

Lemma slug_char_no_slash (c : ascii) :
  (is_alnum c || is_char "-" c)%bool = true -> not_char "/" c = true.
Proof.
  destruct c as [[] [] [] [] [] [] [] []]; vm_compute; intuition congruence.
Qed.

Lemma slugify_no_slash (text : string) :
  all_chars (not_char "/") (slugify text) = true.
Proof.
  apply (all_chars_weaken _ _ _ slug_char_no_slash).
  apply slug_tail_chars, slug_ok_tail, slugify_ok.
Qed.

Lemma id_char_no_slash (c : ascii) : id_char c = true -> not_char "/" c = true.
Proof.
  unfold id_char, not_char. intros H. now apply andb_true_iff in H as [H _].
Qed.

Lemma slugify_head (text : string) : head_is is_alnum (slugify text) = true.
Proof.
  pose proof (slugify_ok text) as H.
  destruct (slugify text) as [|c s]; [discriminate|].
  simpl in *. now apply andb_true_iff in H as [H _].
Qed.

Lemma head_is_append (p : ascii -> bool) (s t : string) :
  head_is p s = true -> head_is p (s ++ t) = true.
Proof. destruct s; [discriminate|auto]. Qed.

End FileName.

(** The shape of a file name. *)
Lemma record_filename_facts (idx : nat) (entry : dict) (filename : string) :
  record_filename idx entry = Ok filename ->
  all_chars (not_char "/") filename = true
  /\ head_is is_alnum filename = true
  /\ (exists stem, filename = stem ++ ".json")
  /\ (forall r, parse_zenodo_rec_id entry = Ok (Some r) ->
                contains r filename = true).
Proof.
  intros H.
  destruct (parse_zenodo_rec_id entry) as [r0|e] eqn:Hp;
    [|unfold record_filename in H; rewrite Hp in H; discriminate].
  rewrite (record_filename_after_parse idx entry r0 Hp) in H.
  injection H as <-. unfold filename_of.
  set (slug := slugify _).
  pose proof (slugify_no_slash
                (py_str (py_or (dict_get "name" entry)
                           (JStr (if truthy_opt r0
                                  then match r0 with Some r => r | None => EmptyString end
                                  else "record-" ++ str_of_nat idx))))) as Hslug.
  pose proof (slugify_head
                (py_str (py_or (dict_get "name" entry)
                           (JStr (if truthy_opt r0
                                  then match r0 with Some r => r | None => EmptyString end
                                  else "record-" ++ str_of_nat idx))))) as Hhead.
  fold slug in Hslug, Hhead.
  destruct r0 as [r|].
  - pose proof (rec_id_shape entry) as Hshape.
    destruct (Hshape r Hp) as (_ & Hid & _).
    apply (all_chars_weaken _ _ _ id_char_no_slash) in Hid.
    destruct (nonempty r && negb (contains r slug))%bool eqn:Hb.
    + repeat split.
      * rewrite !all_chars_app, Hslug, Hid. reflexivity.
      * now apply head_is_append.
      * exists (slug ++ "-" ++ r). now rewrite !append_assoc.
      * intros r' Hr'. injection Hr' as <-.
        change (slug ++ "-" ++ r ++ ".json") with (slug ++ "-" ++ (r ++ ".json")).
        rewrite <- (append_assoc slug "-" (r ++ ".json")).
        apply (contains_app r (slug ++ "-") ".json").
    + repeat split.
      * rewrite all_chars_app, Hslug. reflexivity.
      * now apply head_is_append.
      * eauto.
      * intros r' Hr'. injection Hr' as <-.
        apply contains_append.
        apply andb_false_iff in Hb as [Hb|Hb].
        -- destruct (Hshape r Hp) as (Hne & _). destruct r; [congruence|discriminate].
        -- now apply negb_false_iff in Hb.
  - repeat split.
    + rewrite all_chars_app, Hslug. reflexivity.
    + now apply head_is_append.
    + eauto.
    + intros r Hr. discriminate.
Qed.

(** X2: the file name of a record has no slash, so the file is written
    directly in the output directory; it starts with a letter or digit,
    ends in [.json], and contains the record id whenever one is
    extracted. *)
Theorem record_filename_safe (idx : nat) (entry : dict) (filename : string) :
  record_filename idx entry = Ok filename ->
  all_chars (not_char "/") filename = true
  /\ head_is is_alnum filename = true
  /\ (exists stem, filename = stem ++ ".json")
  /\ (forall r, parse_zenodo_rec_id entry = Ok (Some r) ->
                contains r filename = true).
Proof. apply record_filename_facts. Qed.

Lemma record_filename_safe_witness :
  record_filename 3 zenodo_record = Ok "plankton-counts-789.json"
  /\ all_chars (not_char "/") "plankton-counts-789.json" = true
  /\ contains "789" "plankton-counts-789.json" = true.
Proof.
  destruct (record_filename_safe 3 zenodo_record "plankton-counts-789.json" eq_refl)
    as (Hslash & _ & _ & Hid).
  split; [reflexivity|]. split; [exact Hslash|].
  apply Hid. reflexivity.
Defined.

(* ===================================================================== *)
(** ** export_json.py: what the DOI extractor returns *)
(* ===================================================================== *)

(** The URL of a DOI contains the resolver, and a non-empty value has a
    URL. *)
Lemma extract_doi_facts (identifier : json) :
  (forall u, snd (extract_doi identifier) = Some u ->
             contains doi_marker u = true)
  /\ (truthy_opt (fst (extract_doi identifier)) = true ->
      truthy_opt (snd (extract_doi identifier)) = true)
  /\ (is_str identifier = false ->
      (forall fields, identifier <> JObj fields) ->
      extract_doi identifier = (None, None)).
Proof.
  assert (Hsyn : forall v, contains doi_marker ("https://doi.org/" ++ v) = true)
    by (intros v; apply (contains_app doi_marker "https://" v)).
  assert (Hne : forall s, contains doi_marker s = true -> truthy_opt (Some s) = true)
    by (intros [|c s] H; [apply contains_empty in H; discriminate|reflexivity]).
  unfold extract_doi.
  match goal with
  | |- context [let '(a, b) := ?r in _] => destruct r as [v u] eqn:Hraw
  end.
  assert (Hu : forall x, u = Some x -> contains doi_marker x = true).
  { intros x ->. destruct identifier as [|b|z|s|items|fields]; try discriminate.
    - destruct (contains doi_marker s) eqn:Hc; inversion Hraw; subst; exact Hc.
    - destruct (dict_get "url" fields) as [| | |u0| |]; try discriminate.
      destruct (contains doi_marker u0) eqn:Hc; inversion Hraw; subst; exact Hc. }
  split; [|split].
  - destruct (truthy_opt v && negb (truthy_opt u))%bool; simpl snd.
    + intros x Hx. injection Hx as <-. apply Hsyn.
    + exact Hu.
  - destruct (truthy_opt v) eqn:Hv; simpl.
    + destruct u as [x|]; [|reflexivity].
      rewrite (Hne x (Hu x eq_refl)). simpl. intros _. now apply Hne, Hu.
    + rewrite Hv. discriminate.
  - intros Hs Ho.
    destruct identifier as [|b|z|s|items|fields]; try discriminate;
      try (injection Hraw as <- <-; reflexivity).
    exfalso. eapply Ho. reflexivity.
Qed.

(** X3: every URL the DOI extractor returns contains [doi.org/]; a
    non-empty value always comes with a URL; and an identifier that is
    neither text nor an object gives no value and no URL. *)
Theorem extract_doi_url_invariant (identifier : json) :
  (forall u, snd (extract_doi identifier) = Some u ->
             contains doi_marker u = true)
  /\ (truthy_opt (fst (extract_doi identifier)) = true ->
      truthy_opt (snd (extract_doi identifier)) = true)
  /\ (is_str identifier = false ->
      (forall fields, identifier <> JObj fields) ->
      extract_doi identifier = (None, None)).
Proof. apply extract_doi_facts. Qed.

Lemma extract_doi_url_invariant_witness :
  contains doi_marker "https://doi.org/10.5281/zenodo.11" = true
  /\ extract_doi (JArr [JStr "10.5281/zenodo.11"]) = (None, None).
Proof.
  split.
  - apply (extract_doi_url_invariant (JStr "10.5281/zenodo.11")). reflexivity.
  - apply (extract_doi_url_invariant (JArr [JStr "10.5281/zenodo.11"]));
      [reflexivity|intros fields; discriminate].
Defined.

(* ===================================================================== *)
(** ** export_json.py: the fields of a project record *)
(* ===================================================================== *)

Section ProjectFields.

Variable entry : dict.
Variable base_url : option string.
Variable rel_path : Path.
Variable project : dict.
Hypothesis mapped : dataset_to_project entry base_url rel_path = Ok project.

(** A field that is not one of the conditional ones is read from the
    block it is set in. *)
Lemma lookup_project (k : string) (r : option string) lic :
  project
  = with_id base_url rel_path
      (with_funding (url_has_marker entry)
         (with_keywords entry
            (with_license lic (with_identifier entry (base_project entry r))))) ->
  String.eqb "@id" k = false ->
  String.eqb "funding" k = false ->
  lookup k project
  = lookup k (with_keywords entry
                (with_license lic (with_identifier entry (base_project entry r)))).
Proof.
  intros -> Hid Hf.
  now rewrite lookup_with_id, lookup_with_funding, Hid, Hf, !andb_false_r.
Qed.

Lemma project_fixed_fields :
  lookup "@context" project = Some (JStr "https://schema.org/")
  /\ lookup "@type" project = Some (JStr "Project")
  /\ lookup "url" project = Some (entry_url entry).
Proof.
  destruct (dataset_to_project_inv _ _ _ _ mapped) as (r & lic & _ & E).
  repeat split;
    rewrite (lookup_project _ r lic E), lookup_with_keywords,
      lookup_with_license, lookup_with_identifier by reflexivity;
    reflexivity.
Qed.

Lemma project_name :
  exists r name,
    parse_zenodo_rec_id entry = Ok r
    /\ lookup "name" project = Some name
    /\ truthy name = true
    /\ name = (if truthy (dict_get "name" entry) then dict_get "name" entry
               else JStr (match r with
                          | Some id => "Zenodo record " ++ id
                          | None => "Record"
                          end)).
Proof.
  destruct (dataset_to_project_inv _ _ _ _ mapped) as (r & lic & Hp & E).
  exists r. eexists. split; [exact Hp|]. split.
  - rewrite (lookup_project _ r lic E), lookup_with_keywords,
      lookup_with_license, lookup_with_identifier by reflexivity.
    reflexivity.
  - unfold py_or. destruct (truthy (dict_get "name" entry)) eqn:Hn.
    + split; [exact Hn|reflexivity].
    + destruct r as [id|]; [|split; reflexivity].
      destruct (rec_id_shape entry id Hp) as (Hne & _).
      destruct id; [congruence|]. split; reflexivity.
Qed.

Lemma project_description :
  exists desc,
    lookup "description" project = Some desc
    /\ (truthy desc = true \/ desc = JStr EmptyString).
Proof.
  destruct (dataset_to_project_inv _ _ _ _ mapped) as (r & lic & _ & E).
  eexists. split.
  - rewrite (lookup_project _ r lic E), lookup_with_keywords,
      lookup_with_license, lookup_with_identifier by reflexivity.
    reflexivity.
  - match goal with
    | |- truthy (py_or ?d _) = true \/ _ => generalize d
    end.
    intros d. unfold py_or. destruct (truthy d) eqn:Hd; auto.
Qed.

Lemma project_identifier :
  lookup "identifier" project = identifier_block_of entry.
Proof.
  destruct (dataset_to_project_inv _ _ _ _ mapped) as (r & lic & _ & E).
  rewrite (lookup_project _ r lic E), lookup_with_keywords,
    lookup_with_license by reflexivity.
  unfold with_identifier.
  destruct (identifier_block_of entry) as [block|] eqn:Hb; [|reflexivity].
  assert (Ht : truthy block = true).
  { unfold identifier_block_of in Hb.
    destruct (fst (extract_doi (dict_get "identifier" entry))) as [v|];
      [destruct (nonempty v)|];
      try destruct (truthy (entry_url entry));
      inversion Hb; reflexivity. }
  rewrite Ht, lookup_dict_set. reflexivity.
Qed.

Lemma project_license :
  lookup "publishingPrinciples" project
  = if is_cc_by (dict_get "license" entry) then Some cc_by_block else None.
Proof.
  destruct (dataset_to_project_returns entry base_url rel_path)
    with (r := match parse_zenodo_rec_id entry with Ok r => r | Raise _ => None end)
    as (lic & Hl & Hd).
  { destruct (dataset_to_project_inv _ _ _ _ mapped) as (r & _ & -> & _).
    reflexivity. }
  rewrite mapped in Hd. injection Hd as E.
  rewrite (lookup_project _ _ lic E), lookup_with_keywords by reflexivity.
  unfold license_pair in Hl. unfold is_cc_by, with_license.
  destruct (dict_get "license" entry) as [| | |l| |];
    try (injection Hl as <-; rewrite lookup_with_identifier by reflexivity;
         reflexivity).
  cbn [license_lookup LICENSE_MAP] in Hl.
  destruct (String.eqb (lower l) "cc-by-4.0"); simpl orb.
  - injection Hl as <-. cbv beta iota delta [nonempty is_empty negb].
    rewrite lookup_dict_set. reflexivity.
  - destruct (contains "creativecommons.org/licenses/by/4.0" (lower l));
      injection Hl as <-.
    + cbv beta iota delta [nonempty is_empty negb].
      rewrite lookup_dict_set. reflexivity.
    + now rewrite lookup_with_identifier by reflexivity.
Qed.

Lemma keyword_terms_strings (items : list json) :
  keyword_terms items = map defined_term (strings_of items).
Proof.
  induction items as [|[| | |s| |] items IH]; simpl; try exact IH; [reflexivity|].
  now rewrite IH.
Qed.

Lemma project_keywords :
  lookup "keywords" project
  = match dict_get "keywords" entry with
    | JArr items =>
        match strings_of items with
        | [] => None
        | kws => Some (JArr (map defined_term kws))
        end
    | _ => None
    end.
Proof.
  destruct (dataset_to_project_inv _ _ _ _ mapped) as (r & lic & _ & E).
  rewrite (lookup_project _ r lic E) by reflexivity.
  unfold with_keywords, py_or.
  assert (Hbase : lookup "keywords"
                    (with_license lic (with_identifier entry (base_project entry r)))
                  = None)
    by (rewrite lookup_with_license, lookup_with_identifier by reflexivity;
        reflexivity).
  destruct (dict_get "keywords" entry) as [|b|z|s|items|fields]; simpl truthy;
    cbv iota.
  - simpl. exact Hbase.
  - destruct b; simpl; exact Hbase.
  - destruct (negb (Z.eqb z 0)); simpl; exact Hbase.
  - destruct (nonempty s); simpl; exact Hbase.
  - destruct items as [|x items]; [simpl; exact Hbase|].
    rewrite keyword_terms_strings.
    destruct (strings_of (x :: items)) as [|kw kws]; simpl map; simpl truthy;
      cbv iota; [exact Hbase|].
    now rewrite lookup_dict_set.
  - destruct fields; simpl; exact Hbase.
Qed.

End ProjectFields.

(** X4: every project record has the schema.org context, the type
    [Project], the record's url ([url], else [@id], else the empty
    string), a [description] that is a non-empty value or the empty
    string, and a non-empty [name]: the record's name, else
    [Zenodo record <id>] when a record id is extracted, else [Record]. *)
Theorem project_core_fields (entry : dict) (base_url : option string)
  (rel_path : Path) (project : dict) :
  dataset_to_project entry base_url rel_path = Ok project ->
  lookup "@context" project = Some (JStr "https://schema.org/")
  /\ lookup "@type" project = Some (JStr "Project")
  /\ lookup "url" project = Some (entry_url entry)
  /\ (exists desc,
        lookup "description" project = Some desc
        /\ (truthy desc = true \/ desc = JStr EmptyString))
  /\ (exists r name,
        parse_zenodo_rec_id entry = Ok r
        /\ lookup "name" project = Some name
        /\ truthy name = true
        /\ name = (if truthy (dict_get "name" entry) then dict_get "name" entry
                   else JStr (match r with
                              | Some id => "Zenodo record " ++ id
                              | None => "Record"
                              end))).
Proof.
  intros H.
  destruct (project_fixed_fields _ _ _ _ H) as (Hc & Ht & Hu).
  split; [exact Hc|]. split; [exact Ht|]. split; [exact Hu|].
  split; [now apply (project_description entry base_url rel_path)|].
  now apply (project_name entry base_url rel_path).
Qed.

Lemma project_core_fields_witness :
  exists project,
    dataset_to_project blank_record None dot_dir_path = Ok project
    /\ lookup "@type" project = Some (JStr "Project")
    /\ lookup "url" project = Some (JStr EmptyString)
    /\ lookup "name" project = Some (JStr "Record").
Proof.
  eexists. split; [reflexivity|].
  destruct (project_core_fields blank_record None dot_dir_path _ eq_refl)
    as (_ & Ht & Hu & _ & (r & name & Hr & Hn & _ & ->)).
  split; [exact Ht|]. split; [exact Hu|].
  injection Hr as <-. exact Hn.
Defined.

(** X5: the [identifier] block is the DOI block, with the extractor's
    value and URL, whenever the extractor finds a non-empty value; the
    URL it carries always contains [doi.org/]; without such a value it is
    the record-URL block when the record has a non-empty url, and is
    absent otherwise. *)
Theorem project_identifier_block (entry : dict) (base_url : option string)
  (rel_path : Path) (project : dict) :
  dataset_to_project entry base_url rel_path = Ok project ->
  (forall v,
     fst (extract_doi (dict_get "identifier" entry)) = Some v ->
     v <> EmptyString ->
     exists u,
       snd (extract_doi (dict_get "identifier" entry)) = Some u
       /\ contains doi_marker u = true
       /\ lookup "identifier" project = Some (doi_block v u))
  /\ (truthy_opt (fst (extract_doi (dict_get "identifier" entry))) = false ->
      lookup "identifier" project
      = if truthy (entry_url entry)
        then Some (record_url_block (entry_url entry))
        else None).
Proof.
  intros H. rewrite (project_identifier _ _ _ _ H).
  unfold identifier_block_of.
  destruct (extract_doi_facts (dict_get "identifier" entry)) as (Hu & Hv & _).
  destruct (extract_doi (dict_get "identifier" entry)) as [doi_val doi_url].
  simpl fst in *. simpl snd in *. split.
  - intros v -> Hne.
    assert (Ht : nonempty v = true) by (destruct v; [congruence|reflexivity]).
    simpl in Hv. specialize (Hv Ht).
    destruct doi_url as [u|]; [|discriminate]. simpl in Hv.
    exists u. split; [reflexivity|]. split; [now apply Hu|].
    rewrite Ht, Hv. reflexivity.
  - intros Hf. destruct doi_val as [v|]; [|reflexivity].
    simpl in Hf. rewrite Hf. reflexivity.
Qed.

Lemma project_identifier_block_witness :
  (exists project,
     dataset_to_project rich_record None dot_dir_path = Ok project
     /\ lookup "identifier" project
        = Some (doi_block "10.5281/zenodo.789" "https://doi.org/10.5281/zenodo.789"))
  /\ (exists project,
        dataset_to_project obis_record None dot_dir_path = Ok project
        /\ lookup "identifier" project
           = Some (record_url_block
                     (JStr "https://ipt.obis.org/bioecoocean/resource?r=benthos"))).
Proof.
  split.
  - eexists. split; [reflexivity|].
    destruct (project_identifier_block rich_record None dot_dir_path _ eq_refl)
      as (Hdoi & _).
    assert (Hv : fst (extract_doi (dict_get "identifier" rich_record))
                 = Some "10.5281/zenodo.789") by reflexivity.
    assert (Hne : "10.5281/zenodo.789" <> EmptyString)
      by (intros E; discriminate E).
    destruct (Hdoi _ Hv Hne) as (u & Hu & _ & Hb).
    injection Hu as <-. exact Hb.
  - eexists. split; [reflexivity|].
    destruct (project_identifier_block obis_record None dot_dir_path _ eq_refl)
      as (_ & Hurl).
    apply Hurl. reflexivity.
Defined.

(** X6: a project record has [publishingPrinciples] exactly when the
    record's license is text that, in lower case, is [cc-by-4.0] or
    contains [creativecommons.org/licenses/by/4.0]; the field is then the
    one fixed CC-BY block, whatever the spelling of the license. *)
Theorem project_license_block (entry : dict) (base_url : option string)
  (rel_path : Path) (project : dict) :
  dataset_to_project entry base_url rel_path = Ok project ->
  lookup "publishingPrinciples" project
  = if is_cc_by (dict_get "license" entry) then Some cc_by_block else None.
Proof. apply project_license. Qed.

Lemma project_license_block_witness :
  (exists project,
     dataset_to_project rich_record None dot_dir_path = Ok project
     /\ lookup "publishingPrinciples" project = Some cc_by_block)
  /\ (exists project,
        dataset_to_project [("license", JStr "cc-by-nc-4.0")] None dot_dir_path
        = Ok project
        /\ lookup "publishingPrinciples" project = None).
Proof.
  split; eexists; (split; [reflexivity|]).
  - apply (project_license_block rich_record None dot_dir_path). reflexivity.
  - apply (project_license_block [("license", JStr "cc-by-nc-4.0")] None
             dot_dir_path).
    reflexivity.
Defined.

(** X7: the [keywords] of a project record are one DefinedTerm per string
    entry of the record's keyword list, in order; entries that are not
    strings are dropped, and the field is absent when no string is left
    or when the record's keywords are not a list. *)
Theorem project_keyword_terms (entry : dict) (base_url : option string)
  (rel_path : Path) (project : dict) :
  dataset_to_project entry base_url rel_path = Ok project ->
  lookup "keywords" project
  = match dict_get "keywords" entry with
    | JArr items =>
        match strings_of items with
        | [] => None
        | kws => Some (JArr (map defined_term kws))
        end
    | _ => None
    end.
Proof. apply project_keywords. Qed.

Lemma project_keyword_terms_witness :
  (exists project,
     dataset_to_project rich_record None dot_dir_path = Ok project
     /\ lookup "keywords" project
        = Some (JArr [defined_term "plankton"; defined_term "time series"]))
  /\ (exists project,
        dataset_to_project [("keywords", JStr "plankton, benthos")] None
          dot_dir_path = Ok project
        /\ lookup "keywords" project = None).
Proof.
  split; eexists; (split; [reflexivity|]).
  - apply (project_keyword_terms rich_record None dot_dir_path). reflexivity.
  - apply (project_keyword_terms [("keywords", JStr "plankton, benthos")] None
             dot_dir_path).
    reflexivity.
Defined.

(* ===================================================================== *)
(** ** export_json.py: what a run writes *)
(* ===================================================================== *)

Section Runs.

Variable sys : System.
Variable resolve_relative : Path -> option Path.
Variable args : Args.

Lemma export_record_inv (idx : nat) (e : json) (file : Path) (project : dict)
  (entry_id : option string) :
  export_record resolve_relative args idx e = Ok (file, project, entry_id) ->
  exists filename,
    file = joinpath (out_dir args) filename
    /\ all_chars (not_char "/") filename = true
    /\ entry_id = listed_id resolve_relative args filename.
Proof.
  intros H. destruct e as [| | | | |entry]; try discriminate.
  destruct (parse_zenodo_rec_id entry) as [r|err] eqn:Hp.
  - destruct (export_record_after_parse resolve_relative args idx entry r Hp)
      as (project' & _ & He).
    rewrite He in H. injection H as <- <- <-.
    exists (filename_of idx entry r). split; [reflexivity|]. split; [|reflexivity].
    apply (record_filename_facts idx entry).
    now apply record_filename_after_parse.
  - unfold export_record, record_filename in H. simpl in H.
    rewrite Hp in H. discriminate.
Qed.

(** A turn that does not raise has computed what it wrote. *)
Lemma export_turn_record (idx : nat) (e : json) out :
  export_turn sys resolve_relative args idx e = Ok out ->
  export_record resolve_relative args idx e = Ok out.
Proof.
  unfold export_turn.
  destruct (export_record resolve_relative args idx e)
    as [[[file project] entry_id]|err]; [|discriminate].
  destruct (write_file sys file (JsonFile (JObj project))); [|discriminate].
  intros H. exact H.
Qed.

Lemma listed_id_some (filename : string) :
  (exists i, listed_id resolve_relative args filename = Some i)
  <-> truthy_opt (base_url args) = true.
Proof.
  unfold listed_id. destruct (base_url args) as [base|]; simpl.
  - destruct (nonempty base); split; eauto; try discriminate.
    intros [i H]. discriminate.
  - split; [intros [i H]|]; discriminate.
Qed.

(** The loop appends one project write per record it gets through, and
    one [@id] per record when a base URL is given. *)
Lemma export_loop_structure (records : list json) :
  forall idx ids log,
  exists new,
    fst (export_loop sys resolve_relative args idx records ids log) = app log new
    /\ Forall (project_write (out_dir args)) new
    /\ match snd (export_loop sys resolve_relative args idx records ids log) with
       | Ok ids' =>
           List.length new = List.length records
           /\ List.length ids'
              = List.length ids
                + (if truthy_opt (base_url args) then List.length records else 0)
       | Raise _ => List.length new < List.length records
       end.
Proof.
  induction records as [|e records IH]; intros idx ids log.
  - exists []. simpl. rewrite app_nil_r.
    split; [reflexivity|]. split; [constructor|].
    destruct (truthy_opt (base_url args)); lia.
  - simpl export_loop.
    destruct (export_turn sys resolve_relative args idx e)
      as [[[file project] entry_id]|err] eqn:Ht.
    + apply export_turn_record in Ht.
      destruct (export_record_inv _ _ _ _ _ Ht) as (filename & -> & Hslash & ->).
      match goal with
      | |- context [export_loop _ _ _ ?i _ ?l ?g] =>
          destruct (IH i l g) as (new & Hlog & Hall & Hres)
      end.
      exists (Write (joinpath (out_dir args) filename) (JsonFile (JObj project)) :: new).
      rewrite Hlog, <- app_assoc. split; [reflexivity|]. split.
      * constructor; [|exact Hall]. exists filename, project. auto.
      * destruct (snd (export_loop _ _ _ _ _ _ _)) as [ids'|]; [|simpl; lia].
        destruct Hres as [Hn Hi]. split; [simpl; lia|]. rewrite Hi.
        pose proof (listed_id_some filename) as Hsome.
        destruct (truthy_opt (base_url args)).
        -- destruct (proj2 Hsome eq_refl) as [i ->]. rewrite length_app. simpl. lia.
        -- destruct (listed_id resolve_relative args filename) as [i|] eqn:El;
             [|lia].
           assert (Habs : false = true) by (apply Hsome; eauto).
           discriminate Habs.
    + exists []. simpl. rewrite app_nil_r.
      split; [reflexivity|]. split; [constructor|lia].
Qed.

End Runs.

(** X8: a run on a non-empty catalogue first creates the output
    directory and then performs one write per record in turn, each to a
    file directly in that directory.  If a turn raises, for its record
    or because the operating system refuses the write, the run stops
    there: the earlier writes stay, and neither the closing message nor
    the sitemap is produced.  Otherwise the closing message follows the
    writes, and the run exits with code 0 after the sitemap events,
    where the sitemap lists one [@id] per record when a non-empty base
    URL was given and none when it was not; it raises after the closing
    message only when the operating system refuses the directory or the
    file of the sitemap. *)
Theorem main_outcomes (sys : System) (resolve_relative : Path -> option Path)
  (args : Args) (data : json) :
  load_graph data <> [] ->
  let run := main_on sys resolve_relative args data in
  let records := List.length (load_graph data) in
  exists new,
    Forall (project_write (out_dir args)) new
    /\ match snd run with
       | Raise e =>
           (fst run = [] /\ sys (Mkdir (out_dir args)) = Raise e)
           \/ (fst run = Mkdir (out_dir args) :: new
               /\ List.length new < records)
           \/ (List.length new = records
               /\ exists sitemap_path,
                    sitemap args = Some sitemap_path
                    /\ ((fst run
                         = app (Mkdir (out_dir args) :: new)
                             [wrote_message args records]
                         /\ sys (Mkdir (parent sitemap_path)) = Raise e)
                        \/ (exists ids,
                              fst run
                              = app (Mkdir (out_dir args) :: new)
                                  [ wrote_message args records;
                                    Mkdir (parent sitemap_path) ]
                              /\ sys (Write sitemap_path
                                        (TextFile (build_sitemap_xml ids)))
                                 = Raise e)))
       | Ok code =>
           code = 0%Z
           /\ List.length new = records
           /\ exists ids,
                fst run
                = app (Mkdir (out_dir args) :: new)
                    (wrote_message args records :: sitemap_events args ids)
                /\ List.length ids
                   = (if truthy_opt (base_url args) then records else 0)
       end.
Proof.
  intros Hne run records. unfold run.
  rewrite (main_on_records sys resolve_relative args data Hne).
  destruct (export_loop_structure sys resolve_relative args (load_graph data) 1 []
              [Mkdir (out_dir args)]) as (new & Hlog & Hall & Hres).
  exists new. split; [exact Hall|].
  destruct (sys (Mkdir (out_dir args))) as [[]|e] eqn:Hm; [|simpl; auto].
  destruct (export_loop sys resolve_relative args 1 (load_graph data) []
              [Mkdir (out_dir args)]) as [log [ids|err]].
  - simpl in Hlog, Hres. destruct Hres as [Hn Hi]. subst log. cbv zeta.
    destruct (sitemap args) as [sitemap_path|] eqn:Hs.
    + destruct (sys (Mkdir (parent sitemap_path))) as [[]|e] eqn:Hd.
      * destruct (sys (Write sitemap_path (TextFile (build_sitemap_xml ids))))
          as [[]|e] eqn:Hw.
        -- simpl. split; [reflexivity|]. split; [exact Hn|].
           exists ids. split; [|exact Hi].
           unfold sitemap_events. rewrite Hs, <- app_assoc. reflexivity.
        -- simpl. right. right. split; [exact Hn|].
           exists sitemap_path. split; [reflexivity|]. right. exists ids.
           split; [|exact Hw]. rewrite <- app_assoc. reflexivity.
      * simpl. right. right. split; [exact Hn|].
        exists sitemap_path. split; [reflexivity|]. left.
        split; [reflexivity|exact Hd].
    + simpl. split; [reflexivity|]. split; [exact Hn|].
      exists ids. split; [|exact Hi].
      unfold sitemap_events. rewrite Hs. reflexivity.
  - simpl in Hlog, Hres. simpl. right. left. split; [exact Hlog|exact Hres].
Qed.

Lemma main_outcomes_witness :
  (exists first,
     main_on willing under_cwd sample_args half_bad_catalogue
     = ([Mkdir (out_dir sample_args); first], Raise TypeError))
  /\ (exists new,
        Forall (project_write (out_dir sample_args)) new
        /\ List.length new = 2
        /\ snd (main_on willing under_cwd sample_args two_record_catalogue)
           = Ok 0%Z)
  /\ main_on unwilling under_cwd sample_args two_record_catalogue
     = ([], Raise OSError).
Proof.
  split; [|split].
  - eexists. reflexivity.
  - destruct (main_outcomes willing under_cwd sample_args two_record_catalogue)
      as (new & Hall & Hres); [discriminate|].
    exists new. split; [exact Hall|].
    change (snd (main_on willing under_cwd sample_args two_record_catalogue))
      with (@Ok Z 0%Z) in Hres.
    destruct Hres as (_ & Hn & _). split; [exact Hn|reflexivity].
  - reflexivity.
Defined.

(* ===================================================================== *)
(** ** metadata-cat.py: the stub synthesizer *)
(* ===================================================================== *)

Section Stub.

Lemma lookup_copy (k src dst : string) (metadata stub : dict) :
  lookup k (copy_if_truthy src dst metadata stub)
  = if (truthy (dict_get src metadata) && String.eqb dst k)%bool
    then Some (dict_get src metadata)
    else lookup k stub.
Proof.
  unfold copy_if_truthy. destruct (truthy (dict_get src metadata)); [|reflexivity].
  now rewrite lookup_dict_set.
Qed.

(** The comprehension writes one Person per creator, in order, and
    needs every creator to be an object. *)
Lemma creator_objects_map (creators people : list json) :
  creator_objects creators = Ok people ->
  people = map person_of creators
  /\ Forall (fun c => exists fields, c = JObj fields) creators.
Proof.
  revert people. induction creators as [|c creators IH]; intros people H.
  - injection H as <-. split; [reflexivity|constructor].
  - simpl in H. destruct c as [| | | | |fields]; try discriminate. simpl in H.
    destruct (creator_objects creators) as [others|]; [|discriminate].
    injection H as <-. destruct (IH others eq_refl) as [Hl Hf].
    split; [simpl; now rewrite Hl|]. constructor; eauto.
Qed.

(** The stub before and after the [creator] block. *)
Lemma stub_stages (rec_id : json) (metadata stub : dict) :
  _metadata_to_schema_stub rec_id (JObj metadata) = Ok stub ->
  let base : dict :=
    [ ("@context", JStr "https://schema.org/");
      ("@type", JStr "CreativeWork");
      ("@id", JStr (record_page rec_id));
      ("name", py_or (dict_get "title" metadata)
                     (JStr ("Zenodo record " ++ py_str rec_id)));
      ("identifier",
        JStr (if truthy (dict_get "doi" metadata)
              then "https://doi.org/" ++ py_str (dict_get "doi" metadata)
              else record_page rec_id));
      ("url", JStr (record_page rec_id)) ] in
  let early :=
    copy_if_truthy "publication_date" "datePublished" metadata
      (copy_if_truthy "description" "description" metadata base) in
  exists staged,
    stub = copy_if_truthy "license" "license" metadata
             (copy_if_truthy "keywords" "keywords" metadata staged)
    /\ ((truthy (dict_get "creators" metadata) = false /\ staged = early)
        \/ (truthy (dict_get "creators" metadata) = true
            /\ exists creators people,
                 py_iter (dict_get "creators" metadata) = Ok creators
                 /\ creator_objects creators = Ok people
                 /\ staged = dict_set "creator" (JArr people) early)).
Proof.
  unfold _metadata_to_schema_stub. simpl as_dict. unfold bind at 1.
  intros H. unfold record_page.
  destruct (truthy (dict_get "creators" metadata)) eqn:Hc.
  - destruct (py_iter (dict_get "creators" metadata)) as [creators|] eqn:Hi;
      [|discriminate].
    simpl in H.
    destruct (creator_objects creators) as [people|] eqn:Hp; [|discriminate].
    simpl in H. injection H as <-.
    eexists. split; [reflexivity|]. right. split; [reflexivity|].
    exists creators, people. auto.
  - simpl in H. injection H as <-.
    eexists. split; [reflexivity|]. left. auto.
Qed.

Lemma stub_lookup (k : string) (rec_id : json) (metadata stub : dict) :
  _metadata_to_schema_stub rec_id (JObj metadata) = Ok stub ->
  String.eqb "license" k = false ->
  String.eqb "keywords" k = false ->
  String.eqb "creator" k = false ->
  String.eqb "datePublished" k = false ->
  String.eqb "description" k = false ->
  lookup k stub
  = lookup k
      [ ("@context", JStr "https://schema.org/");
        ("@type", JStr "CreativeWork");
        ("@id", JStr (record_page rec_id));
        ("name", py_or (dict_get "title" metadata)
                       (JStr ("Zenodo record " ++ py_str rec_id)));
        ("identifier",
          JStr (if truthy (dict_get "doi" metadata)
                then "https://doi.org/" ++ py_str (dict_get "doi" metadata)
                else record_page rec_id));
        ("url", JStr (record_page rec_id)) ].
Proof.
  intros H Hl Hk Hc Hd He.
  destruct (stub_stages _ _ _ H) as (staged & -> & Hs).
  rewrite !lookup_copy, Hl, Hk, !andb_false_r.
  destruct Hs as [[_ ->]|(_ & creators & people & _ & _ & ->)];
    rewrite ?lookup_dict_set, ?Hc, !lookup_copy, Hd, He, !andb_false_r;
    reflexivity.
Qed.

End Stub.

(** X9: a stub is a [CreativeWork] whose [name] is the title, else
    [Zenodo record <id>], and whose [identifier] is the resolver URL of
    the DOI when the metadata has one, else the record page; description,
    publication date, keywords and license are copied exactly when they
    are non-empty; [creator] holds, for every creator in order, a Person
    with the creator's name, else the empty string, and is absent when
    the metadata lists no creator; metadata that is not an object raises
    AttributeError. *)
Theorem stub_fields (rec_id : json) (metadata stub : dict) :
  _metadata_to_schema_stub rec_id (JObj metadata) = Ok stub ->
  lookup "@type" stub = Some (JStr "CreativeWork")
  /\ lookup "name" stub
     = Some (py_or (dict_get "title" metadata)
                   (JStr ("Zenodo record " ++ py_str rec_id)))
  /\ lookup "identifier" stub
     = Some (JStr (if truthy (dict_get "doi" metadata)
                   then "https://doi.org/" ++ py_str (dict_get "doi" metadata)
                   else record_page rec_id))
  /\ (forall src dst,
        In (src, dst) [ ("description", "description");
                        ("publication_date", "datePublished");
                        ("keywords", "keywords");
                        ("license", "license") ] ->
        lookup dst stub
        = if truthy (dict_get src metadata) then Some (dict_get src metadata)
          else None)
  /\ (if truthy (dict_get "creators" metadata)
      then exists creators people,
             py_iter (dict_get "creators" metadata) = Ok creators
             /\ lookup "creator" stub = Some (JArr people)
             /\ people = map person_of creators
             /\ Forall (fun c => exists fields, c = JObj fields) creators
      else lookup "creator" stub = None)
  /\ (forall other,
        (forall fields, other <> JObj fields) ->
        _metadata_to_schema_stub rec_id other = Raise AttributeError).
Proof.
  intros H.
  split; [now rewrite (stub_lookup "@type" _ _ _ H)|].
  split; [now rewrite (stub_lookup "name" _ _ _ H)|].
  split; [now rewrite (stub_lookup "identifier" _ _ _ H)|].
  destruct (stub_stages _ _ _ H) as (staged & -> & Hs).
  split; [|split].
  - intros src dst Hin. simpl in Hin.
    destruct Hin as [E|[E|[E|[E|[]]]]]; injection E as <- <-;
      rewrite !lookup_copy;
      destruct Hs as [[_ ->]|(_ & creators & people & _ & _ & ->)];
      rewrite ?lookup_dict_set, !lookup_copy; simpl String.eqb;
      rewrite ?andb_false_r, ?andb_true_r;
      repeat match goal with
             | |- context [truthy ?v] => destruct (truthy v)
             end; reflexivity.
  - destruct Hs as [[Hc ->]|(Hc & creators & people & Hi & Hp & ->)]; rewrite Hc.
    + rewrite !lookup_copy. simpl String.eqb. rewrite !andb_false_r. reflexivity.
    + exists creators, people. split; [exact Hi|].
      destruct (creator_objects_map _ _ Hp) as [Hl Hf].
      split; [|split; [exact Hl|exact Hf]].
      rewrite !lookup_copy. simpl String.eqb. rewrite !andb_false_r.
      now rewrite lookup_dict_set.
  - intros other Ho. destruct other; try reflexivity.
    exfalso. eapply Ho. reflexivity.
Qed.

Lemma stub_fields_witness :
  exists stub,
    _metadata_to_schema_stub (JNum 11) (JObj sample_metadata) = Ok stub
    /\ lookup "identifier" stub = Some (JStr "https://doi.org/10.5281/zenodo.11")
    /\ lookup "keywords" stub = None
    /\ lookup "creator" stub
       = Some (JArr [ JObj [("@type", JStr "Person"); ("name", JStr "A. Diatom")];
                      JObj [("@type", JStr "Person"); ("name", JStr EmptyString)] ]).
Proof.
  eexists. split; [reflexivity|].
  destruct (stub_fields (JNum 11) sample_metadata _ eq_refl)
    as (_ & _ & Hi & Hcopy & Hc & _).
  split; [exact Hi|]. split.
  - apply (Hcopy "keywords" "keywords"). simpl. auto.
  - simpl in Hc. destruct Hc as (creators & people & Hit & Hl & -> & _).
    injection Hit as <-. exact Hl.
Defined.

(* ===================================================================== *)
(** ** From the harvester's stub to the projector's record *)
(* ===================================================================== *)

Section StubProjection.

Variable rec_id : json.
Variable metadata : dict.
Variable stub : dict.
Hypothesis synthesized : _metadata_to_schema_stub rec_id (JObj metadata) = Ok stub.

Lemma stub_entry_url : entry_url stub = JStr (record_page rec_id).
Proof.
  unfold entry_url, dict_get.
  rewrite (stub_lookup "url" _ _ _ synthesized) by reflexivity. reflexivity.
Qed.

Lemma stub_identifier :
  dict_get "identifier" stub
  = JStr (if truthy (dict_get "doi" metadata)
          then "https://doi.org/" ++ py_str (dict_get "doi" metadata)
          else record_page rec_id).
Proof.
  unfold dict_get at 1.
  rewrite (stub_lookup "identifier" _ _ _ synthesized) by reflexivity.
  reflexivity.
Qed.

Lemma stub_has_marker : url_has_marker stub = true.
Proof.
  unfold url_has_marker. rewrite stub_entry_url.
  apply (contains_app marker "https://" (py_str rec_id)).
Qed.

End StubProjection.

(** X10: the projector maps every stub the harvester synthesizes without
    raising; the project record has the record page as its url and the
    funding block.  When the metadata had a non-empty text DOI, the
    identifier block is the DOI block for that DOI.  When it had no DOI,
    the stub's identifier is the record page, and the projector still
    writes a DOI block, with the record page as the DOI value and
    [https://doi.org/] followed by the record page as its URL. *)
Theorem stub_projection (rec_id : json) (metadata stub : dict)
  (base_url : option string) (rel_path : Path) :
  _metadata_to_schema_stub rec_id (JObj metadata) = Ok stub ->
  exists project,
    dataset_to_project stub base_url rel_path = Ok project
    /\ lookup "url" project = Some (JStr (record_page rec_id))
    /\ lookup "funding" project = Some (JArr [BIOECOOCEAN_FUNDING])
    /\ (forall d,
          dict_get "doi" metadata = JStr d -> d <> EmptyString ->
          lookup "identifier" project
          = Some (doi_block d ("https://doi.org/" ++ d)))
    /\ (truthy (dict_get "doi" metadata) = false ->
        contains doi_marker (record_page rec_id) = false ->
        lookup "identifier" project
        = Some (doi_block (record_page rec_id)
                  ("https://doi.org/" ++ record_page rec_id))).
Proof.
  intros H.
  destruct (dataset_to_project_total_on_text_url stub base_url rel_path _
              (stub_entry_url _ _ _ H)) as [project Hd].
  exists project. split; [exact Hd|].
  destruct (dataset_to_project_fields _ _ _ _ Hd) as (Hu & Hf & _).
  rewrite (stub_entry_url _ _ _ H) in Hu.
  rewrite (stub_has_marker _ _ _ H) in Hf.
  split; [exact Hu|]. split; [exact Hf|].
  rewrite (project_identifier _ _ _ _ Hd). unfold identifier_block_of.
  rewrite (stub_identifier _ _ _ H). split.
  - intros d Hdoi Hne. rewrite Hdoi.
    destruct d as [|c d]; [congruence|]. reflexivity.
  - intros Hdoi Hc. rewrite Hdoi. unfold extract_doi. rewrite Hc.
    reflexivity.
Qed.

Lemma stub_projection_witness :
  (exists stub project,
     _metadata_to_schema_stub (JNum 11) (JObj sample_metadata) = Ok stub
     /\ dataset_to_project stub None dot_dir_path = Ok project
     /\ lookup "identifier" project
        = Some (doi_block "10.5281/zenodo.11" "https://doi.org/10.5281/zenodo.11"))
  /\ (exists stub project,
        _metadata_to_schema_stub (JNum 12) (JObj []) = Ok stub
        /\ dataset_to_project stub None dot_dir_path = Ok project
        /\ lookup "identifier" project
           = Some (doi_block "https://zenodo.org/record/12"
                     "https://doi.org/https://zenodo.org/record/12")).
Proof.
  split.
  - destruct (stub_projection (JNum 11) sample_metadata _ None dot_dir_path eq_refl)
      as (project & Hd & _ & _ & Hdoi & _).
    eexists. exists project. split; [reflexivity|]. split; [exact Hd|].
    apply (Hdoi "10.5281/zenodo.11"); [reflexivity|discriminate].
  - destruct (stub_projection (JNum 12) [] _ None dot_dir_path eq_refl)
      as (project & Hd & _ & _ & _ & Hnone).
    eexists. exists project. split; [reflexivity|]. split; [exact Hd|].
    apply Hnone; reflexivity.
Defined.

(* ===================================================================== *)
(** ** metadata-cat.py: the RSS harvester *)
(* ===================================================================== *)

Import FeedSpec.

Section Feed.

Variable parsedate_iso : string -> option string.

Lemma item_to_dataset_returns (item : element) :
  (exists dataset, item_to_dataset parsedate_iso item = Ok dataset)
  <-> has_description item = true.
Proof.
  unfold item_to_dataset, has_description.
  destruct (find "description" item); simpl; split; eauto; try discriminate.
  intros [dataset H]. discriminate.
Qed.

Lemma item_to_dataset_raises (item : element) :
  has_description item = false ->
  item_to_dataset parsedate_iso item = Raise AttributeError.
Proof.
  unfold item_to_dataset, has_description.
  destruct (find "description" item); [discriminate|reflexivity].
Qed.

Lemma has_text_false_strip (el : option element) :
  has_text el = false -> stripped_text el = EmptyString.
Proof.
  unfold has_text, stripped_text. destruct el as [e|]; [|reflexivity].
  destruct (text_of e) as [[|c t]|]; simpl; [reflexivity|discriminate|reflexivity].
Qed.

(** The fields of a feed dataset. *)
Lemma item_dataset_fields (item : element) (dataset : dict) :
  item_to_dataset parsedate_iso item = Ok dataset ->
  lookup "@type" dataset = Some (JStr "Dataset")
  /\ lookup "name" dataset
     = Some (JStr (if nonempty (item_title item) then item_title item
                   else "OBIS IPT resource"))
  /\ lookup "identifier" dataset
     = (if nonempty (item_identifier_value item)
        then Some (obis_block (item_identifier_value item)) else None)
  /\ lookup "distribution" dataset
     = match item_distributions item with
       | [] => None
       | downloads => Some (JArr downloads)
       end.
Proof.
  unfold item_to_dataset, item_identifier_value, item_distributions,
    item_eml, item_link, item_title, item_dwca.
  destruct (find "description" item) as [desc_el|]; simpl; [|discriminate].
  intros H. injection H as <-.
  match goal with
  | |- context [dict_set "datePublished" (JStr ?d) _] => generalize d
  end.
  generalize (stripped_text (find "link" item)),
    (has_text (find (ipt_tag "eml") item)),
    (stripped_text (find (ipt_tag "eml") item)),
    (has_text (find (ipt_tag "dwca") item)).
  intros link has_eml eml has_dwca date.
  destruct has_eml; destruct has_dwca; destruct (nonempty date);
    destruct (nonempty eml) eqn:He; destruct (nonempty link) eqn:Hl;
    simpl; rewrite ?He, ?Hl; repeat split; reflexivity.
Qed.

Lemma items_to_datasets_map (items : list element) (datasets : list json) :
  items_to_datasets parsedate_iso items datasets
  = (mapped <- map_result
                 (fun item => dataset <- item_to_dataset parsedate_iso item ;;
                              Ok (JObj dataset)) items ;;
     Ok (app datasets mapped)).
Proof.
  revert datasets. induction items as [|item items IH]; intros datasets; simpl.
  - now rewrite app_nil_r.
  - destruct (item_to_dataset parsedate_iso item) as [dataset|e]; simpl;
      [|reflexivity].
    rewrite IH. destruct (map_result _ items); simpl; [|reflexivity].
    now rewrite <- app_assoc.
Qed.

(** The datasets of a list of items: one per item when every item has a
    description, an AttributeError otherwise. *)
Lemma map_items (items : list element) :
  (forallb has_description items = true ->
   exists datasets,
     map_result (fun item => dataset <- item_to_dataset parsedate_iso item ;;
                             Ok (JObj dataset)) items = Ok datasets
     /\ Forall2 (fun item d =>
                   exists dataset,
                     d = JObj dataset
                     /\ item_to_dataset parsedate_iso item = Ok dataset)
          items datasets)
  /\ (forallb has_description items = false ->
      map_result (fun item => dataset <- item_to_dataset parsedate_iso item ;;
                              Ok (JObj dataset)) items = Raise AttributeError).
Proof.
  induction items as [|item items [IHok IHbad]]; simpl.
  - split; [|discriminate]. intros _. exists []. split; [reflexivity|constructor].
  - destruct (has_description item) eqn:Hd.
    + destruct (proj2 (item_to_dataset_returns item) Hd) as [dataset Hi].
      rewrite Hi. simpl. split.
      * intros Hall. destruct (IHok Hall) as (datasets & -> & Hf).
        eexists. split; [reflexivity|]. constructor; eauto.
      * intros Hall. now rewrite (IHbad Hall).
    + rewrite (item_to_dataset_raises item Hd). simpl.
      split; [discriminate|reflexivity].
Qed.

End Feed.

(** X11: the RSS harvester returns no dataset, and does not raise, when
    the request fails, when the status is an error, when the body is not
    XML, and when the document has no [channel]; otherwise it returns
    one dataset per [item] of the channel, in order, provided every item
    has a [description] element, and raises AttributeError as soon as
    one item has none. *)
Theorem harvest_obis_rss_outcomes (parsedate_iso : string -> option string)
  (w : World) (rss_url : string) :
  (forall e, http_get w rss_url = Raise e ->
             harvest_obis_rss parsedate_iso w rss_url = Ok [])
  /\ (forall r,
        http_get w rss_url = Ok r ->
        (raise_for_status r <> Ok tt
         \/ xml_body r = None
         \/ exists root, xml_body r = Some root /\ find "channel" root = None) ->
        harvest_obis_rss parsedate_iso w rss_url = Ok [])
  /\ (forall r root channel,
        http_get w rss_url = Ok r ->
        raise_for_status r = Ok tt ->
        xml_body r = Some root ->
        find "channel" root = Some channel ->
        (forallb has_description (findall "item" channel) = true ->
         exists datasets,
           harvest_obis_rss parsedate_iso w rss_url = Ok datasets
           /\ Forall2 (fun item d =>
                         exists dataset,
                           d = JObj dataset
                           /\ item_to_dataset parsedate_iso item = Ok dataset)
                (findall "item" channel) datasets)
        /\ (forallb has_description (findall "item" channel) = false ->
            harvest_obis_rss parsedate_iso w rss_url = Raise AttributeError)).
Proof.
  unfold harvest_obis_rss. split; [|split].
  - intros e ->. reflexivity.
  - intros r -> H. simpl.
    destruct (raise_for_status r) as [[]|e] eqn:Hs; simpl; [|reflexivity].
    destruct H as [H|[Hx|(root & Hx & Hc)]]; [congruence|now rewrite Hx|].
    now rewrite Hx, Hc.
  - intros r root channel -> Hs Hx Hc. simpl. rewrite Hs. simpl.
    rewrite Hx, Hc, items_to_datasets_map.
    destruct (map_items parsedate_iso (findall "item" channel)) as [Hok Hbad].
    split.
    + intros Hall. destruct (Hok Hall) as (datasets & -> & Hf).
      exists datasets. split; [reflexivity|exact Hf].
    + intros Hall. now rewrite (Hbad Hall).
Qed.

Lemma harvest_obis_rss_outcomes_witness :
  (exists bare linked,
     harvest_obis_rss no_date_parser sample_world OBIS_IPT_RSS
     = Ok [bare; linked])
  /\ harvest_obis_rss no_date_parser
       (feed_world (Element "rss" None
                      [Element "channel" None [linked_item; undescribed_item]]))
       OBIS_IPT_RSS
     = Raise AttributeError
  /\ harvest_obis_rss no_date_parser idless_world OBIS_IPT_RSS = Ok [].
Proof.
  split; [|split].
  - destruct (harvest_obis_rss_outcomes no_date_parser sample_world OBIS_IPT_RSS)
      as (_ & _ & H).
    edestruct H as [Hok _]; [reflexivity|reflexivity|reflexivity|reflexivity|].
    destruct (Hok eq_refl) as (datasets & Hd & Hf).
    rewrite Hd.
    inversion Hf as [|i1 d1 l1 l1' _ Hf1]; subst.
    inversion Hf1 as [|i2 d2 l2 l2' _ Hf2]; subst.
    inversion Hf2; subst. eexists. eexists. reflexivity.
  - destruct (harvest_obis_rss_outcomes no_date_parser
                (feed_world (Element "rss" None
                               [Element "channel" None [linked_item; undescribed_item]]))
                OBIS_IPT_RSS) as (_ & _ & H).
    edestruct H as [_ Hbad]; [reflexivity|reflexivity|reflexivity|reflexivity|].
    apply Hbad. reflexivity.
  - destruct (harvest_obis_rss_outcomes no_date_parser idless_world OBIS_IPT_RSS)
      as (H & _ & _).
    apply (H RequestException). reflexivity.
Defined.

(** X12: a feed dataset has the type [Dataset] and the item's title as
    name ([OBIS IPT resource] without one); its identifier is built from
    the EML address whenever the item has an EML element with text, and
    from the link only otherwise, and is absent when that address is
    empty; its [distribution] lists the EML and the archive downloads
    that have text, and is absent rather than empty. *)
Theorem item_to_dataset_fields (parsedate_iso : string -> option string)
  (item : element) (dataset : dict) :
  item_to_dataset parsedate_iso item = Ok dataset ->
  lookup "@type" dataset = Some (JStr "Dataset")
  /\ lookup "name" dataset
     = Some (JStr (if nonempty (item_title item) then item_title item
                   else "OBIS IPT resource"))
  /\ lookup "identifier" dataset
     = (if nonempty (item_identifier_value item)
        then Some (obis_block (item_identifier_value item)) else None)
  /\ lookup "distribution" dataset
     = match item_distributions item with
       | [] => None
       | downloads => Some (JArr downloads)
       end.
Proof. apply item_dataset_fields. Qed.

Lemma item_to_dataset_fields_witness :
  (exists dataset,
     item_to_dataset no_date_parser blank_eml_item = Ok dataset
     /\ lookup "url" dataset
        = Some (JStr "https://ipt.obis.org/bioecoocean/resource?r=birds")
     /\ lookup "identifier" dataset = None)
  /\ (exists dataset,
        item_to_dataset no_date_parser archived_item = Ok dataset
        /\ lookup "name" dataset = Some (JStr "OBIS IPT resource")
        /\ lookup "identifier" dataset
           = Some (obis_block "https://ipt.obis.org/bioecoocean/eml.do?r=seals")).
Proof.
  split.
  - eexists. split; [reflexivity|]. split; [reflexivity|].
    apply (item_to_dataset_fields no_date_parser blank_eml_item). reflexivity.
  - eexists. split; [reflexivity|].
    destruct (item_to_dataset_fields no_date_parser archived_item _ eq_refl)
      as (_ & Hn & Hi & _).
    split; [exact Hn|exact Hi].
Defined.

(* ===================================================================== *)
(** ** metadata-cat.py: the clean-up of descriptions *)
(* ===================================================================== *)

Import TextSpec.

Section Text.

#[local] Arguments strip_tags : simpl never.

Lemma strip_tags_nil : strip_tags EmptyString = EmptyString.
Proof. reflexivity. Qed.

Lemma strip_tags_other (c : ascii) (s' : string) :
  Ascii.eqb c "<" = false ->
  strip_tags (String c s') = String c (strip_tags s').
Proof.
  intros H.
  change (strip_tags (String c s'))
    with (if Ascii.eqb c "<"
          then match s' with
               | EmptyString => String c EmptyString
               | String c1 s'' =>
                   if Ascii.eqb c1 ">" then String c (strip_tags s')
                   else
                     match (fix scan (t : string) : option string :=
                              match t with
                              | EmptyString => None
                              | String d t' =>
                                  if Ascii.eqb d ">"
                                  then Some (" " ++ strip_tags t')
                                  else scan t'
                              end) s'' with
                     | Some out => out
                     | None => String c (strip_tags s')
                     end
               end
          else String c (strip_tags s')).
  now rewrite H.
Qed.

Lemma scan_after_gt (t : string) :
  (fix scan (t : string) : option string :=
     match t with
     | EmptyString => None
     | String d t' =>
         if Ascii.eqb d ">" then Some (" " ++ strip_tags t') else scan t'
     end) t
  = match after_gt t with
    | Some rest => Some (String " " (strip_tags rest))
    | None => None
    end.
Proof.
  induction t as [|d t IH]; [reflexivity|].
  simpl. destruct (Ascii.eqb d ">"); [reflexivity|exact IH].
Qed.

(** What the stripper does at a [<]. *)
Lemma strip_tags_lt (c1 : ascii) (s'' : string) :
  strip_tags (String "<" (String c1 s''))
  = if Ascii.eqb c1 ">" then String "<" (strip_tags (String c1 s''))
    else match after_gt s'' with
         | Some rest => String " " (strip_tags rest)
         | None => String "<" (strip_tags (String c1 s''))
         end.
Proof.
  destruct (Ascii.eqb c1 ">") eqn:E.
  - change (strip_tags (String "<" (String c1 s'')))
      with (if Ascii.eqb c1 ">" then String "<" (strip_tags (String c1 s''))
            else
              match (fix scan (t : string) : option string :=
                       match t with
                       | EmptyString => None
                       | String d t' =>
                           if Ascii.eqb d ">"
                           then Some (" " ++ strip_tags t')
                           else scan t'
                       end) s'' with
              | Some out => out
              | None => String "<" (strip_tags (String c1 s''))
              end).
    now rewrite E.
  - change (strip_tags (String "<" (String c1 s'')))
      with (if Ascii.eqb c1 ">" then String "<" (strip_tags (String c1 s''))
            else
              match (fix scan (t : string) : option string :=
                       match t with
                       | EmptyString => None
                       | String d t' =>
                           if Ascii.eqb d ">"
                           then Some (" " ++ strip_tags t')
                           else scan t'
                       end) s'' with
              | Some out => out
              | None => String "<" (strip_tags (String c1 s''))
              end).
    rewrite E, scan_after_gt. destruct (after_gt s''); reflexivity.
Qed.

Lemma strip_tags_lt_end : strip_tags "<" = "<".
Proof. reflexivity. Qed.

Lemma after_gt_shorter (t rest : string) :
  after_gt t = Some rest -> String.length rest < String.length t.
Proof.
  revert rest. induction t as [|d t IH]; intros rest; simpl; [discriminate|].
  destruct (Ascii.eqb d ">").
  - intros H. injection H as <-. lia.
  - intros H. apply IH in H. lia.
Qed.

Lemma after_gt_chars (q : ascii -> bool) (t rest : string) :
  after_gt t = Some rest -> all_chars q t = true -> all_chars q rest = true.
Proof.
  revert rest. induction t as [|d t IH]; intros rest; simpl; [discriminate|].
  intros H Hq. apply andb_true_iff in Hq as [_ Hq].
  destruct (Ascii.eqb d ">"); [injection H as <-; exact Hq|now apply IH].
Qed.

Lemma after_gt_none (t : string) :
  after_gt t = None <-> all_chars (not_char ">") t = true.
Proof.
  induction t as [|d t IH]; simpl; [tauto|]. unfold not_char at 1.
  destruct (Ascii.eqb d ">"); simpl; [split; discriminate|exact IH].
Qed.

(** A text the pattern does not match is left as it is. *)
Lemma strip_tags_tag_free (s : string) :
  tag_free s = true -> strip_tags s = s.
Proof.
  induction s as [|c s IH]; [reflexivity|]. simpl.
  intros H. apply andb_true_iff in H as [Hc Hs]. specialize (IH Hs).
  destruct (Ascii.eqb c "<") eqn:E.
  - apply Ascii.eqb_eq in E. subst c.
    destruct s as [|c1 s'']; [reflexivity|].
    rewrite strip_tags_lt, IH. simpl in Hc.
    destruct (Ascii.eqb c1 ">"); [reflexivity|]. simpl in Hc.
    destruct (after_gt s''); [discriminate|reflexivity].
  - now rewrite strip_tags_other, IH.
Qed.

(** The stripper writes characters of its input, and spaces. *)
Lemma strip_tags_chars_upto (q : ascii -> bool) (n : nat) :
  q " "%char = true ->
  forall s, String.length s <= n ->
            all_chars q s = true -> all_chars q (strip_tags s) = true.
Proof.
  intros Hsp. induction n as [|n IH]; intros s Hn Hq.
  - destruct s; [reflexivity|simpl in Hn; lia].
  - destruct s as [|c s']; [reflexivity|].
    simpl in Hn. simpl in Hq. apply andb_true_iff in Hq as [Hc Hs'].
    assert (Hrest : all_chars q (String c (strip_tags s')) = true).
    { simpl. rewrite Hc. apply IH; [lia|exact Hs']. }
    destruct (Ascii.eqb c "<") eqn:E; [|now rewrite strip_tags_other].
    apply Ascii.eqb_eq in E. subst c.
    destruct s' as [|c1 s'']; [simpl; now rewrite Hc|].
    rewrite strip_tags_lt. destruct (Ascii.eqb c1 ">"); [exact Hrest|].
    destruct (after_gt s'') as [rest|] eqn:Ha; [|exact Hrest].
    simpl. rewrite Hsp. simpl. simpl in Hn. apply IH.
    + apply after_gt_shorter in Ha. lia.
    + simpl in Hs'. apply andb_true_iff in Hs' as [_ Hs''].
      exact (after_gt_chars q s'' rest Ha Hs'').
Qed.

Lemma strip_tags_chars (q : ascii -> bool) (s : string) :
  q " "%char = true -> all_chars q s = true -> all_chars q (strip_tags s) = true.
Proof.
  intros Hsp. apply (strip_tags_chars_upto q (String.length s) Hsp). lia.
Qed.

Lemma no_gt_no_tag_ahead (s : string) :
  all_chars (not_char ">") s = true -> no_tag_ahead s = true.
Proof.
  destruct s as [|c s]; [reflexivity|]. simpl. intros H.
  apply andb_true_iff in H as [_ H]. apply after_gt_none in H.
  rewrite H. apply orb_true_r.
Qed.

(** One pass leaves nothing the pattern matches. *)
Lemma strip_tags_free_upto (n : nat) :
  forall s, String.length s <= n -> tag_free (strip_tags s) = true.
Proof.
  induction n as [|n IH]; intros s Hn.
  - destruct s; [reflexivity|simpl in Hn; lia].
  - destruct s as [|c s']; [reflexivity|]. simpl in Hn.
    destruct (Ascii.eqb c "<") eqn:E.
    + apply Ascii.eqb_eq in E. subst c.
      destruct s' as [|c1 s'']; [reflexivity|].
      rewrite strip_tags_lt. destruct (Ascii.eqb c1 ">") eqn:E1.
      * apply Ascii.eqb_eq in E1. subst c1.
        rewrite strip_tags_other by reflexivity.
        change (tag_free (String "<" (String ">" (strip_tags s''))))
          with (tag_free (String ">" (strip_tags s''))).
        rewrite <- (strip_tags_other ">" s'' eq_refl). apply IH. lia.
      * destruct (after_gt s'') as [rest|] eqn:Ha.
        -- change (tag_free (String " " (strip_tags rest)))
             with (tag_free (strip_tags rest)).
           apply IH. apply after_gt_shorter in Ha. simpl in Hn. lia.
        -- simpl. rewrite IH by lia. rewrite andb_true_r.
           apply no_gt_no_tag_ahead, strip_tags_chars; [reflexivity|].
           simpl. unfold not_char at 1. rewrite E1. simpl.
           now apply after_gt_none.
    + rewrite strip_tags_other by exact E. simpl. rewrite E. simpl.
      apply IH. lia.
Qed.

Lemma strip_tags_free (s : string) : tag_free (strip_tags s) = true.
Proof. apply (strip_tags_free_upto (String.length s)). lia. Qed.

(** *** White space *)

Lemma space_is_space : is_space " " = true.
Proof. reflexivity. Qed.

Lemma gt_not_space : is_space ">" = false.
Proof. reflexivity. Qed.

Lemma lt_not_space : is_space "<" = false.
Proof. reflexivity. Qed.

(** *** White space *)

Lemma sub_runs_shape (s : string) :
  forall b,
    single_spaces (sub_runs_from is_space " " b s) = true
    /\ (b = true -> head_is is_space (sub_runs_from is_space " " b s) = false).
Proof.
  induction s as [|c s IH]; intros b; simpl; [split; reflexivity|].
  destruct (is_space c) eqn:Hc.
  - destruct (IH true) as [Hs Hh]. destruct b; simpl.
    + split; [exact Hs|exact Hh].
    + rewrite (Hh eq_refl), Hs. split; [reflexivity|discriminate].
  - destruct (IH false) as [Hs _]. simpl. rewrite Hc, Hs.
    split; [reflexivity|auto].
Qed.

Lemma lstrip_single (s : string) :
  single_spaces s = true -> single_spaces (lstrip is_space s) = true.
Proof.
  induction s as [|c s IH]; simpl; [auto|].
  intros H. destruct (is_space c) eqn:Hc; [|simpl; now rewrite Hc].
  apply andb_true_iff in H as [_ H]. now apply IH.
Qed.

Lemma lstrip_head (s : string) : head_is is_space (lstrip is_space s) = false.
Proof.
  induction s as [|c s IH]; simpl; [reflexivity|].
  destruct (is_space c) eqn:Hc; [exact IH|exact Hc].
Qed.

Lemma rstrip_keeps_head (s : string) :
  head_is is_space s = false -> head_is is_space (rstrip is_space s) = false.
Proof.
  destruct (rstrip is_space s) as [|c r] eqn:E; [reflexivity|].
  apply rstrip_head in E as [s' ->]. auto.
Qed.

Lemma rstrip_spaced (s : string) :
  single_spaces s = true -> spaced (rstrip is_space s) = true.
Proof.
  induction s as [|c s IH]; simpl; [auto|].
  intros H. apply andb_true_iff in H as [Hc Hs]. specialize (IH Hs).
  destruct (rstrip is_space s) as [|c' r] eqn:E.
  - destruct (is_space c) eqn:Hsp; [reflexivity|]. simpl. now rewrite Hsp.
  - simpl. simpl in IH. rewrite IH, andb_true_r.
    destruct (is_space c); [|reflexivity].
    apply andb_true_iff in Hc as [Hc Hh]. rewrite Hc. simpl.
    apply rstrip_head in E as [s' ->]. exact Hh.
Qed.

(** Squeezed text is normalised. *)
Lemma squeeze_normalised (s : string) : normalised (squeeze s) = true.
Proof.
  unfold normalised, squeeze, strip, sub_runs.
  destruct (sub_runs_shape s false) as [Hs _].
  rewrite rstrip_keeps_head by apply lstrip_head.
  now rewrite rstrip_spaced by now apply lstrip_single.
Qed.

Lemma sub_runs_spaced (s : string) :
  forall b,
    spaced s = true -> (b = true -> head_is is_space s = false) ->
    sub_runs_from is_space " " b s = s.
Proof.
  induction s as [|c s IH]; intros b Hs Hb; [reflexivity|]. simpl in *.
  apply andb_true_iff in Hs as [Hc Hs].
  destruct (is_space c) eqn:Hsp.
  - destruct b; [now specialize (Hb eq_refl)|].
    apply andb_true_iff in Hc as [Hc Hh]. apply Ascii.eqb_eq in Hc. subst c.
    simpl. f_equal. apply IH; [exact Hs|]. intros _.
    destruct s as [|c' s]; [reflexivity|]. simpl in *.
    now destruct (is_space c').
  - f_equal. apply IH; [exact Hs|discriminate].
Qed.

Lemma rstrip_spaced_id (s : string) :
  spaced s = true -> rstrip is_space s = s.
Proof.
  induction s as [|c s IH]; [reflexivity|]. simpl.
  intros H. apply andb_true_iff in H as [Hc Hs]. rewrite (IH Hs).
  destruct s as [|c' s]; [|reflexivity].
  destruct (is_space c); [|reflexivity].
  simpl in Hc. now rewrite andb_false_r in Hc.
Qed.

(** Normalised text is left as it is. *)
Lemma squeeze_fixed (s : string) : normalised s = true -> squeeze s = s.
Proof.
  unfold normalised, squeeze, strip, sub_runs. intros H.
  apply andb_true_iff in H as [Hh Hs]. apply negb_true_iff in Hh.
  rewrite sub_runs_spaced by (auto; discriminate).
  rewrite lstrip_no_head by exact Hh. now apply rstrip_spaced_id.
Qed.

(** *** Squeezing makes no tag *)

Lemma sub_runs_chars (q : ascii -> bool) (s : string) :
  q " "%char = true ->
  forall b, all_chars q s = true ->
            all_chars q (sub_runs_from is_space " " b s) = true.
Proof.
  intros Hq. induction s as [|c s IH]; intros b; simpl; [auto|].
  intros H. apply andb_true_iff in H as [Hc Hs].
  destruct (is_space c); [destruct b|]; simpl; rewrite ?Hq, ?Hc; simpl; auto.
Qed.

Lemma rstrip_chars (q p : ascii -> bool) (s : string) :
  all_chars q s = true -> all_chars q (rstrip p s) = true.
Proof.
  induction s as [|c s IH]; simpl; [auto|].
  intros H. apply andb_true_iff in H as [Hc Hs]. specialize (IH Hs).
  destruct (rstrip p s); [destruct (p c)|]; simpl; rewrite ?Hc; simpl; auto.
Qed.

Lemma no_tag_ahead_cases (s : string) :
  no_tag_ahead s = true ->
  head_is (is_char ">") s = true \/ all_chars (not_char ">") s = true.
Proof.
  destruct s as [|c s]; simpl; [auto|]. unfold is_char, not_char at 1.
  destruct (Ascii.eqb c ">"); simpl; [auto|].
  destruct (after_gt s) eqn:E; [discriminate|].
  intros _. right. now apply after_gt_none.
Qed.

Lemma head_gt_no_tag_ahead (s : string) :
  head_is (is_char ">") s = true -> no_tag_ahead s = true.
Proof.
  destruct s as [|c s]; simpl; [discriminate|]. unfold is_char. now intros ->.
Qed.

Lemma sub_runs_no_tag_ahead (s : string) (b : bool) :
  no_tag_ahead s = true ->
  no_tag_ahead (sub_runs_from is_space " " b s) = true.
Proof.
  intros H. apply no_tag_ahead_cases in H as [H|H].
  - apply head_gt_no_tag_ahead. destruct s as [|c s]; [discriminate|].
    simpl in H. unfold is_char in H. apply Ascii.eqb_eq in H. subst c.
    reflexivity.
  - apply no_gt_no_tag_ahead, sub_runs_chars; [reflexivity|exact H].
Qed.

Lemma sub_runs_tag_free (s : string) :
  forall b, tag_free s = true ->
            tag_free (sub_runs_from is_space " " b s) = true.
Proof.
  induction s as [|c s IH]; intros b; simpl; [auto|].
  intros H. apply andb_true_iff in H as [Hc Hs].
  destruct (is_space c) eqn:Hsp.
  - destruct b; simpl; auto.
  - simpl. rewrite (IH false Hs), andb_true_r.
    destruct (Ascii.eqb c "<"); [|reflexivity].
    now apply sub_runs_no_tag_ahead.
Qed.

Lemma lstrip_tag_free (s : string) :
  tag_free s = true -> tag_free (lstrip is_space s) = true.
Proof.
  induction s as [|c s IH]; simpl; [auto|].
  intros H. destruct (is_space c); [|exact H].
  apply andb_true_iff in H as [_ H]. now apply IH.
Qed.

Lemma rstrip_no_tag_ahead (s : string) :
  no_tag_ahead s = true -> no_tag_ahead (rstrip is_space s) = true.
Proof.
  intros H. apply no_tag_ahead_cases in H as [H|H].
  - apply head_gt_no_tag_ahead. destruct s as [|c s]; [discriminate|].
    simpl in H. unfold is_char in H. apply Ascii.eqb_eq in H. subst c.
    simpl. destruct (rstrip is_space s); reflexivity.
  - apply no_gt_no_tag_ahead, rstrip_chars, H.
Qed.

Lemma rstrip_tag_free (s : string) :
  tag_free s = true -> tag_free (rstrip is_space s) = true.
Proof.
  induction s as [|c s IH]; simpl; [auto|].
  intros H. apply andb_true_iff in H as [Hc Hs]. specialize (IH Hs).
  assert (Hn : (if Ascii.eqb c "<" then no_tag_ahead (rstrip is_space s) else true)
               = true).
  { destruct (Ascii.eqb c "<"); [|reflexivity]. now apply rstrip_no_tag_ahead. }
  destruct (rstrip is_space s) as [|c' r] eqn:E.
  - destruct (is_space c); [reflexivity|]. simpl.
    destruct (Ascii.eqb c "<"); reflexivity.
  - change (tag_free (String c (String c' r)))
      with ((if Ascii.eqb c "<" then no_tag_ahead (String c' r) else true)
            && tag_free (String c' r))%bool.
    now rewrite Hn, IH.
Qed.

Lemma squeeze_tag_free (s : string) :
  tag_free s = true -> tag_free (squeeze s) = true.
Proof.
  intros H. unfold squeeze, strip, sub_runs.
  now apply rstrip_tag_free, lstrip_tag_free, sub_runs_tag_free.
Qed.

Lemma strip_html_squeeze (text : string) :
  _strip_html text = squeeze (strip_tags text).
Proof. reflexivity. Qed.

(** The facts about [_strip_html] put together. *)
Lemma strip_html_facts (text : string) :
  normalised (_strip_html text) = true
  /\ tag_free (_strip_html text) = true
  /\ _strip_html (_strip_html text) = _strip_html text.
Proof.
  rewrite strip_html_squeeze.
  assert (Hn : normalised (squeeze (strip_tags text)) = true)
    by apply squeeze_normalised.
  assert (Hf : tag_free (squeeze (strip_tags text)) = true)
    by apply squeeze_tag_free, strip_tags_free.
  split; [exact Hn|]. split; [exact Hf|].
  rewrite strip_html_squeeze, (strip_tags_tag_free _ Hf).
  now apply squeeze_fixed.
Qed.

End Text.

(** X13: the cleaned text has no white space at either end, its words
    are separated by single spaces, and the tag pattern matches nowhere
    in it; cleaning it again changes nothing, and a text that already
    has this form is returned as it is, an unclosed [<] included. *)
Theorem strip_html_normal_form (text : string) :
  normalised (_strip_html text) = true
  /\ tag_free (_strip_html text) = true
  /\ _strip_html (_strip_html text) = _strip_html text
  /\ (normalised text = true -> tag_free text = true ->
      _strip_html text = text).
Proof.
  destruct (strip_html_facts text) as (Hn & Hf & Hi).
  split; [exact Hn|]. split; [exact Hf|]. split; [exact Hi|].
  intros Hn' Hf'. rewrite strip_html_squeeze, (strip_tags_tag_free _ Hf').
  now apply squeeze_fixed.
Qed.

Lemma strip_html_normal_form_witness :
  _strip_html "2 < 3 and <3" = "2 < 3 and <3"
  /\ _strip_html " <p>Counts of  <b>seals</b></p> " = "Counts of seals".
Proof.
  split; [|reflexivity].
  apply (strip_html_normal_form "2 < 3 and <3"); reflexivity.
Defined.

Section FeedText.

Variable parsedate_iso : string -> option string.

Lemma item_dataset_text (item : element) (dataset : dict) :
  item_to_dataset parsedate_iso item = Ok dataset ->
  lookup "description" dataset
  = Some (JStr (_strip_html (item_description_text item)))
  /\ lookup "url" dataset
     = Some (JStr (if nonempty (item_link item) then item_link item
                   else item_identifier_value item))
  /\ lookup "datePublished" dataset
     = (if nonempty (item_date parsedate_iso item)
        then Some (JStr (item_date parsedate_iso item)) else None).
Proof.
  unfold item_to_dataset, item_identifier_value, item_description_text,
    item_date, item_eml, item_link.
  destruct (find "description" item) as [desc_el|]; simpl; [|discriminate].
  intros H. injection H as <-.
  replace (match text_of desc_el with
           | Some t => if nonempty t then t else EmptyString
           | None => EmptyString
           end)
    with (match text_of desc_el with Some t => t | None => EmptyString end)
    by (destruct (text_of desc_el) as [[|c t]|]; reflexivity).
  generalize (_strip_html
                (match text_of desc_el with Some t => t | None => EmptyString end)).
  match goal with
  | |- context [dict_set "datePublished" (JStr ?d) _] => generalize d
  end.
  generalize (stripped_text (find "link" item)),
    (has_text (find (ipt_tag "eml") item)),
    (stripped_text (find (ipt_tag "eml") item)),
    (has_text (find (ipt_tag "dwca") item)).
  intros link has_eml eml has_dwca date desc.
  destruct has_eml; destruct has_dwca; destruct (nonempty date);
    destruct eml as [|e eml]; destruct link as [|l link];
    simpl; repeat split; reflexivity.
Qed.

End FeedText.

(** X14: the description of a feed dataset is the cleaned text of the
    item's description element, so it is normalised and free of tags;
    its [url] is the link and, only without a link, the address of the
    identifier; [datePublished] is the ISO date when the date parser
    accepts the text of [pubDate], that text itself when it does not,
    and is absent when the item has no such text. *)
Theorem item_to_dataset_text_fields (parsedate_iso : string -> option string)
  (item : element) (dataset : dict) :
  item_to_dataset parsedate_iso item = Ok dataset ->
  (exists desc,
     lookup "description" dataset = Some (JStr desc)
     /\ desc = _strip_html (item_description_text item)
     /\ normalised desc = true /\ tag_free desc = true)
  /\ lookup "url" dataset
     = Some (JStr (if nonempty (item_link item) then item_link item
                   else item_identifier_value item))
  /\ lookup "datePublished" dataset
     = (if nonempty (item_date parsedate_iso item)
        then Some (JStr (item_date parsedate_iso item)) else None).
Proof.
  intros H. destruct (item_dataset_text parsedate_iso item dataset H)
    as (Hd & Hu & Hp).
  split; [|split; [exact Hu|exact Hp]].
  exists (_strip_html (item_description_text item)).
  destruct (strip_html_facts (item_description_text item)) as (Hn & Hf & _).
  split; [exact Hd|]. split; [reflexivity|]. split; [exact Hn|exact Hf].
Qed.

Lemma item_to_dataset_text_fields_witness :
  (exists dataset,
     item_to_dataset march_parser dated_item = Ok dataset
     /\ lookup "description" dataset = Some (JStr "Counts of seals , 2")
     /\ lookup "url" dataset
        = Some (JStr "https://ipt.obis.org/bioecoocean/eml.do?r=seals")
     /\ lookup "datePublished" dataset = Some (JStr "2026-03-02"))
  /\ (exists dataset,
        item_to_dataset march_parser undated_item = Ok dataset
        /\ lookup "description" dataset = Some (JStr EmptyString)
        /\ lookup "url" dataset
           = Some (JStr "https://ipt.obis.org/bioecoocean/resource?r=seals")
        /\ lookup "datePublished" dataset = Some (JStr "yesterday")).
Proof.
  split.
  - eexists. split; [reflexivity|].
    destruct (item_to_dataset_text_fields march_parser dated_item _ eq_refl)
      as ((desc & Hd & -> & _) & Hu & Hp).
    split; [exact Hd|]. split; [exact Hu|exact Hp].
  - eexists. split; [reflexivity|].
    destruct (item_to_dataset_text_fields march_parser undated_item _ eq_refl)
      as ((desc & Hd & -> & _) & Hu & Hp).
    split; [exact Hd|]. split; [exact Hu|exact Hp].
Defined.

(* ===================================================================== *)
(** ** metadata-cat.py: the detail fetch, the lister's pages and the
       records of a catalogue *)
(* ===================================================================== *)

Import CatalogueSpec.

(** X15: the detail fetch does not catch a failure of the request.  For
    an answer, it returns something exactly when the status is 200 and
    the body is JSON other than null, and then returns the parsed body;
    so its result is never the JSON value null, and does not depend on
    the Content-Type of the answer. *)
Theorem fetch_record_jsonld_outcomes (w : World) (record_id : json) :
  (forall e,
     http_get w (EXPORT_TEMPLATE record_id) = Raise e ->
     fetch_record_jsonld w record_id = Raise e)
  /\ (forall r,
        http_get w (EXPORT_TEMPLATE record_id) = Ok r ->
        (forall v,
           fetch_record_jsonld w record_id = Ok (Some v)
           <-> status_code r = 200%Z /\ json_body r = Some v /\ v <> JNull)
        /\ (fetch_record_jsonld w record_id = Ok None
            <-> status_code r <> 200%Z \/ json_body r = None
               \/ json_body r = Some JNull))
  /\ fetch_record_jsonld w record_id <> Ok (Some JNull).
Proof.
  split; [|split].
  - intros e H. now rewrite fetch_record_jsonld_cases, H.
  - intros r H. rewrite fetch_record_jsonld_cases, H. unfold json_or_none.
    destruct (Z.eqb (status_code r) 200) eqn:Hs.
    + apply Z.eqb_eq in Hs. split.
      * intros v. split.
        -- intros Hv. split; [exact Hs|].
           destruct (json_body r) as [[| | | | |]|]; inversion Hv; subst;
             split; (reflexivity || discriminate).
        -- intros (_ & -> & Hn). destruct v; (reflexivity || congruence).
      * split.
        -- intros Hv. right.
           destruct (json_body r) as [[| | | | |]|]; inversion Hv; auto.
        -- intros [Hv|[-> | ->]]; [congruence|reflexivity|reflexivity].
    + apply Z.eqb_neq in Hs. split.
      * intros v. split; [discriminate|]. intros (Hv & _). congruence.
      * split; [auto|reflexivity].
  - apply fetch_record_jsonld_not_null.
Qed.

Lemma fetch_record_jsonld_outcomes_witness :
  fetch_record_jsonld (export_world 200 (Some "text/html") (JObj [])) (JNum 7)
  = Ok (Some (JObj []))
  /\ fetch_record_jsonld (export_world 200 (Some "application/json") JNull)
       (JNum 7)
     = Ok None
  /\ fetch_record_jsonld (export_world 404 (Some "application/json") (JObj []))
       (JNum 7)
     = Ok None
  /\ fetch_record_jsonld idless_world (JNum 7) = Raise RequestException.
Proof.
  split; [|split; [|split]].
  - destruct (fetch_record_jsonld_outcomes
                (export_world 200 (Some "text/html") (JObj [])) (JNum 7))
      as (_ & H & _).
    destruct (H _ eq_refl) as [Hsome _]. apply Hsome.
    split; [reflexivity|]. split; [reflexivity|discriminate].
  - destruct (fetch_record_jsonld_outcomes
                (export_world 200 (Some "application/json") JNull) (JNum 7))
      as (_ & H & _).
    destruct (H _ eq_refl) as [_ Hnone]. apply Hnone. right. right. reflexivity.
  - destruct (fetch_record_jsonld_outcomes
                (export_world 404 (Some "application/json") (JObj [])) (JNum 7))
      as (_ & H & _).
    destruct (H _ eq_refl) as [_ Hnone]. apply Hnone. left. discriminate.
  - destruct (fetch_record_jsonld_outcomes idless_world (JNum 7)) as (H & _).
    exact (H _ eq_refl).
Defined.

Section Pages.

Variable w : World.
Variable community : string.
Variable size : Z.

Lemma page_step_items (max_pages : option Z) (page : Z) (all_hits : list json)
  (step : loop_step) :
  page_step w community size max_pages page all_hits = Ok step ->
  exists items,
    page_items w community size page = Ok items
    /\ (step = Break (app all_hits (flat_map hit_summary items))
        \/ step = Continue (page + 1) (app all_hits (flat_map hit_summary items))).
Proof.
  unfold page_step, page_items.
  destruct (search w community size page) as [r|]; simpl; [|discriminate].
  destruct (raise_for_status r); simpl; [|discriminate].
  destruct (json_of r) as [data|]; simpl; [|discriminate].
  destruct (as_dict data) as [fields|]; simpl; [|discriminate].
  destruct (as_dict (dict_get_default "hits" (JObj []) fields)) as [hits_obj|];
    simpl; [|discriminate].
  destruct (py_iter _) as [items|]; simpl; [|discriminate].
  destruct (collect_hits items all_hits) as [collected|] eqn:Hc; simpl;
    [|discriminate].
  apply collect_hits_spec in Hc. subst collected. intros H. exists items.
  split; [reflexivity|].
  destruct (negb _); [injection H as <-; auto|].
  destruct (match max_pages with Some m => Z.leb m page | None => false end);
    [injection H as <-; auto|].
  destruct (len_ge _ _) as [[|]|]; simpl in H; try discriminate;
    injection H as <-; auto.
Qed.

Lemma page_step_below_limit (m page page' : Z) (all_hits all_hits' : list json) :
  page_step w community size (Some m) page all_hits
  = Ok (Continue page' all_hits') ->
  (page < m)%Z.
Proof.
  intros H. destruct (Z.leb m page) eqn:E; [|apply Z.leb_gt in E; exact E].
  apply Z.leb_le in E.
  now destruct (limit_stops w community size m page E all_hits page' all_hits').
Qed.

(** The loop returns the summaries of the pages it read, in order. *)
Lemma page_loop_pages (max_pages : option Z) (fuel : nat) :
  forall page all_hits hits,
    page_loop fuel w community size max_pages page all_hits = Some (Ok hits) ->
    exists pages,
      (1 <= List.length pages <= fuel)
      /\ pages_from w community size page pages
      /\ hits = app all_hits (flat_map hit_summary (concat pages))
      /\ forall m, max_pages = Some m ->
                   List.length pages = 1
                   \/ (page + Z.of_nat (List.length pages) - 1 <= m)%Z.
Proof.
  induction fuel as [|fuel IH]; intros page all_hits hits; [discriminate|].
  simpl. destruct (page_step _ _ _ _ page all_hits) as [step|e] eqn:E;
    [|discriminate].
  destruct (page_step_items _ _ _ _ E) as (items & Hi & [->| ->]).
  - intros H. injection H as <-. exists [items]. simpl.
    split; [lia|]. split; [auto|]. split; [now rewrite app_nil_r|auto].
  - intros H. apply IH in H as (pages & Hlen & Hp & -> & Hm).
    exists (items :: pages). simpl.
    split; [lia|]. split; [auto|]. split.
    + now rewrite flat_map_app, app_assoc.
    + intros m ->. right. apply page_step_below_limit in E.
      destruct (Hm m eq_refl) as [H1|H1]; lia.
Qed.

End Pages.

(** X16: the result of the lister is made of the pages 1, 2, ... it
    read, in that order: for every hit of those pages that has a
    non-null id, in page order and without removing repetitions, the
    pair of its id and metadata.  It read at least one page, and under a
    page limit [m] at most [max 1 m] pages. *)
Theorem list_community_records_pages (fuel : nat) (w : World)
  (community : string) (size : Z) (max_pages : option Z) (hits : list json) :
  list_community_records fuel w community size max_pages = Some (Ok hits) ->
  exists pages,
    (1 <= List.length pages <= fuel)
    /\ pages_from w community size 1 pages
    /\ hits = flat_map hit_summary (concat pages)
    /\ Forall listed_hit hits
    /\ forall m, max_pages = Some m ->
                 (Z.of_nat (List.length pages) <= Z.max 1 m)%Z.
Proof.
  intros H. unfold list_community_records in H.
  destruct (page_loop_pages w community size max_pages fuel 1 [] hits H)
    as (pages & Hlen & Hp & Hh & Hm).
  exists pages. split; [exact Hlen|]. split; [exact Hp|]. split; [exact Hh|].
  split.
  - apply (page_loop_listed w community size max_pages fuel 1 [] hits
             (Forall_nil _) H).
  - intros m Hmax. destruct (Hm m Hmax); lia.
Qed.

Lemma list_community_records_pages_witness :
  exists first second pages,
    list_community_records 2 sample_world "bioecoocean" 25 None
    = Some (Ok [first; second])
    /\ (1 <= List.length pages <= 2)
    /\ pages_from sample_world "bioecoocean" 25 1 pages
    /\ [first; second] = flat_map hit_summary (concat pages).
Proof.
  destruct (list_community_records_pages 2 sample_world "bioecoocean" 25 None _
              eq_refl) as (pages & Hlen & Hp & Hh & _).
  eexists. eexists. exists pages. split; [reflexivity|].
  split; [exact Hlen|]. split; [exact Hp|exact Hh].
Defined.

Section Records.

Variable parsedate_iso : string -> option string.
Variable w : World.


Lemma map_result_raise {A B : Type} (f : A -> result B) (pre post : list A)
  (x : A) (e : exn) :
  (forall h, In h pre -> exists v, f h = Ok v) ->
  f x = Raise e ->
  map_result f (app pre (x :: post)) = Raise e.
Proof.
  intros Hpre Hx. induction pre as [|h pre IH]; simpl.
  - now rewrite Hx.
  - destruct (Hpre h (or_introl eq_refl)) as [v ->]. simpl.
    rewrite IH; [reflexivity|]. intros h' Hin. apply Hpre. now right.
Qed.






End Records.



(** X18: the builder returns no partial catalogue: an exception while
    listing, an exception for one hit (after hits that went well), and
    an exception of the feed harvester for the default community each
    end the run with that exception.  A failed request for the export of
    a record is such an exception, and so is an export that is JSON but
    neither an object nor null; an answer with a status other than 200
    is not: the builder then goes on with the stub. *)
Theorem build_catalogue_failures (parsedate_iso : string -> option string)
  (fuel : nat) (w : World) (community : string) (max_pages : option Z) :
  (forall e,
     list_community_records fuel w community 25 max_pages = Some (Raise e) ->
     build_catalogue parsedate_iso fuel w community max_pages = Some (Raise e))
  /\ (forall pre hit post e,
        list_community_records fuel w community 25 max_pages
        = Some (Ok (app pre (hit :: post))) ->
        (forall h, In h pre -> exists v, catalogue_entry w h = Ok v) ->
        catalogue_entry w hit = Raise e ->
        build_catalogue parsedate_iso fuel w community max_pages = Some (Raise e))
  /\ (forall hits entries e,
        list_community_records fuel w community 25 max_pages = Some (Ok hits) ->
        map_result (catalogue_entry w) hits = Ok entries ->
        community = DEFAULT_COMMUNITY ->
        harvest_obis_rss parsedate_iso w OBIS_IPT_RSS = Raise e ->
        build_catalogue parsedate_iso fuel w community max_pages = Some (Raise e))
  /\ (forall hit rec_id e,
        lookup "id" hit = Some rec_id ->
        http_get w (EXPORT_TEMPLATE rec_id) = Raise e ->
        catalogue_entry w (JObj hit) = Raise e)
  /\ (forall hit rec_id r v,
        lookup "id" hit = Some rec_id ->
        http_get w (EXPORT_TEMPLATE rec_id) = Ok r ->
        status_code r = 200%Z ->
        json_body r = Some v ->
        v <> JNull -> (forall fields, v <> JObj fields) ->
        catalogue_entry w (JObj hit) = Raise AttributeError)
  /\ (forall hit rec_id r,
        lookup "id" hit = Some rec_id ->
        http_get w (EXPORT_TEMPLATE rec_id) = Ok r ->
        status_code r <> 200%Z ->
        catalogue_entry w (JObj hit) = stub_for rec_id hit).
Proof.
  split; [|split; [|split; [|split; [|split]]]].
  - intros e Hl. unfold build_catalogue. now rewrite Hl.
  - intros pre hit post e Hl Hpre Hhit.
    rewrite (build_catalogue_after_listing parsedate_iso w fuel community
               max_pages _ Hl).
    now rewrite (map_result_raise (catalogue_entry w) pre post hit e Hpre Hhit).
  - intros hits entries e Hl Hm -> Hh.
    rewrite (build_catalogue_after_listing parsedate_iso w fuel _ max_pages _ Hl).
    rewrite Hm. cbn [bind]. now rewrite Hh.
  - intros hit rec_id e Hid Hg.
    rewrite (catalogue_entry_cases w hit rec_id Hid).
    unfold fetch_record_jsonld. now rewrite Hg.
  - intros hit rec_id r v Hid Hg Hs Hb Hnull Hobj.
    rewrite (catalogue_entry_cases w hit rec_id Hid).
    rewrite fetch_record_jsonld_cases, Hg, Hs. unfold json_or_none. rewrite Hb.
    destruct v as [| | | | |fields]; try reflexivity; [congruence|].
    now destruct (Hobj fields).
  - intros hit rec_id r Hid Hg Hs.
    rewrite (catalogue_entry_cases w hit rec_id Hid).
    rewrite fetch_record_jsonld_cases, Hg.
    apply Z.eqb_neq in Hs. now rewrite Hs.
Qed.

Lemma build_catalogue_failures_witness :
  build_catalogue no_date_parser 1
    (one_page_world [JObj [("id", JNum 7)]]) "bioecoocean" None
  = Some (Raise RequestException)
  /\ build_catalogue no_date_parser 1
       (one_page_world [JObj [("id", JNum 7)]; JNum 8]) "bioecoocean" None
     = Some (Raise AttributeError).
Proof.
  split.
  - destruct (build_catalogue_failures no_date_parser 1
                (one_page_world [JObj [("id", JNum 7)]]) "bioecoocean" None)
      as (_ & Hhit & _ & Hget & _).
    apply (Hhit [] (JObj [("id", JNum 7); ("metadata", JObj [])]) [] RequestException).
    + reflexivity.
    + intros h [].
    + apply (Hget _ (JNum 7)); reflexivity.
  - destruct (build_catalogue_failures no_date_parser 1
                (one_page_world [JObj [("id", JNum 7)]; JNum 8]) "bioecoocean" None)
      as (Hlist & _).
    apply Hlist. reflexivity.
Defined.

(* ===================================================================== *)
(** ** From the harvester's run to the projector's *)
(* ===================================================================== *)

Section Pipeline.


End Pipeline.



Section FeedProjection.

Variable parsedate_iso : string -> option string.

Lemma item_dataset_no_id (item : element) (dataset : dict) :
  item_to_dataset parsedate_iso item = Ok dataset ->
  lookup "@id" dataset = None.
Proof.
  unfold item_to_dataset.
  destruct (find "description" item) as [desc_el|]; simpl; [|discriminate].
  intros H. injection H as <-.
  match goal with
  | |- context [dict_set "datePublished" (JStr ?d) _] => generalize d
  end.
  generalize (_strip_html
                (match text_of desc_el with
                 | Some t => if nonempty t then t else EmptyString
                 | None => EmptyString
                 end)).
  generalize (stripped_text (find "link" item)),
    (has_text (find (ipt_tag "eml") item)),
    (stripped_text (find (ipt_tag "eml") item)),
    (has_text (find (ipt_tag "dwca") item)).
  intros link has_eml eml has_dwca desc date.
  destruct has_eml; destruct has_dwca; destruct (nonempty date);
    destruct eml as [|e eml]; destruct link as [|l link]; reflexivity.
Qed.

Lemma feed_entry_url (item : element) (dataset : dict) :
  item_to_dataset parsedate_iso item = Ok dataset ->
  entry_url dataset
  = JStr (if nonempty (item_link item) then item_link item
          else item_identifier_value item).
Proof.
  intros H. unfold entry_url, dict_get.
  destruct (item_dataset_text parsedate_iso item dataset H) as (_ & -> & _).
  rewrite (item_dataset_no_id item dataset H).
  destruct (item_link item) as [|l link]; [|reflexivity].
  destruct (item_identifier_value item); reflexivity.
Qed.

Lemma extract_doi_obis_block (v : string) :
  nonempty v = true ->
  extract_doi (obis_block v)
  = (Some v, Some (if contains doi_marker v then v else "https://doi.org/" ++ v)).
Proof.
  intros Hv. unfold extract_doi, obis_block.
  change (dict_get "value" _) with (JStr v).
  change (dict_get "url" _) with (JStr v).
  destruct v as [|c v]; [discriminate|].
  cbv beta iota zeta.
  destruct (contains doi_marker (String c v)); reflexivity.
Qed.

End FeedProjection.

(** X20: the projector maps every feed dataset without raising.  The
    project record has the dataset's url.  When the feed dataset has an
    identifier, the projector writes a DOI block for it, with the IPT
    address as the DOI value and, unless that address contains
    [doi.org/], with [https://doi.org/] followed by the address as URL;
    without one it writes the record-URL block for the link, or no
    identifier when there is no link. *)
Theorem feed_projection (parsedate_iso : string -> option string)
  (item : element) (dataset : dict) (base_url : option string)
  (rel_path : Path) :
  item_to_dataset parsedate_iso item = Ok dataset ->
  exists project,
    dataset_to_project dataset base_url rel_path = Ok project
    /\ lookup "@type" project = Some (JStr "Project")
    /\ lookup "url" project
       = Some (JStr (if nonempty (item_link item) then item_link item
                     else item_identifier_value item))
    /\ lookup "identifier" project
       = (if nonempty (item_identifier_value item)
          then Some (doi_block (item_identifier_value item)
                       (if contains doi_marker (item_identifier_value item)
                        then item_identifier_value item
                        else "https://doi.org/" ++ item_identifier_value item))
          else if nonempty (item_link item)
               then Some (record_url_block (JStr (item_link item)))
               else None).
Proof.
  intros H. pose proof (feed_entry_url parsedate_iso item dataset H) as Hu.
  destruct (dataset_to_project_total_on_text_url dataset base_url rel_path _ Hu)
    as [project Hd].
  exists project. split; [exact Hd|].
  destruct (project_fixed_fields _ _ _ _ Hd) as (_ & Ht & Hurl).
  split; [exact Ht|]. split; [now rewrite Hurl, Hu|].
  rewrite (project_identifier _ _ _ _ Hd). unfold identifier_block_of.
  rewrite Hu. unfold dict_get.
  destruct (item_dataset_fields parsedate_iso item dataset H) as (_ & _ & -> & _).
  destruct (nonempty (item_identifier_value item)) eqn:Hv.
  - rewrite (extract_doi_obis_block _ Hv). cbn [fst snd]. rewrite Hv.
    destruct (contains doi_marker (item_identifier_value item));
      [rewrite Hv|]; reflexivity.
  - change (extract_doi JNull) with (@None string, @None string). cbn [fst].
    destruct (item_link item) as [|l link]; [|reflexivity].
    destruct (item_identifier_value item); [reflexivity|discriminate].
Qed.

Lemma feed_projection_witness :
  (exists dataset project,
     item_to_dataset no_date_parser archived_item = Ok dataset
     /\ dataset_to_project dataset None dot_dir_path = Ok project
     /\ lookup "identifier" project
        = Some (doi_block "https://ipt.obis.org/bioecoocean/eml.do?r=seals"
                  "https://doi.org/https://ipt.obis.org/bioecoocean/eml.do?r=seals"))
  /\ (exists dataset project,
        item_to_dataset no_date_parser blank_eml_item = Ok dataset
        /\ dataset_to_project dataset None dot_dir_path = Ok project
        /\ lookup "identifier" project
           = Some (record_url_block
                     (JStr "https://ipt.obis.org/bioecoocean/resource?r=birds"))).
Proof.
  split.
  - destruct (feed_projection no_date_parser archived_item _ None dot_dir_path
                eq_refl) as (project & Hd & _ & _ & Hi).
    eexists. exists project. split; [reflexivity|]. split; [exact Hd|exact Hi].
  - destruct (feed_projection no_date_parser blank_eml_item _ None dot_dir_path
                eq_refl) as (project & Hd & _ & _ & Hi).
    eexists. exists project. split; [reflexivity|]. split; [exact Hd|exact Hi].
Defined.

(* ===================================================================== *)
(** ** export_json.py: the turns of the export loop *)
(* ===================================================================== *)


